(** * Sweet Success Bakery: the idle-progression engine

    A shallow embedding of the game state (gameState.js), the recipe
    system (recipes.js), the idle tick and offline catch-up
    (offlineProgress.js), the save manager (saveManager.js), the engine
    calls of the game object (game.js) and the duration text of the
    formatter (formatter.js), with the properties the specification
    states about them and further properties of the code.

    Numbers.  A JavaScript number is a double, and every finite double
    is a rational: money-like quantities are rationals ([Q]), counters
    that the code only ever increments by one are naturals ([N]),
    [totalBaked] and the clock are integers ([Z]).  Numeric results are
    compared with [==] (equality of rationals).

    Rounding.  [JsMath.double] rounds a rational to the nearest double,
    ties to even, and [JsMath.add], [JsMath.mul], [JsMath.div] are the
    rounded operations of the code.  They are used where rounding shows
    in whole amounts at ordinary states of the game: in the income rate
    (a sum of tenths, added up in the order of the recipes object), in
    the price [purchaseUpgrade] sets, in the offline lump sum and the
    item estimate, and in the seconds since the last save.  Whole-number
    arithmetic (prices times 1.15 under [Math.ceil], productions,
    counters) is written with the exact operations, with which it agrees
    in the range the game reaches, and so are the additions to and
    subtractions from the balances [money], [totalMoneyEarned] and
    [totalProduction]: a single one is off from the code by the last bit
    at most, and the drift of many of them on a fractional balance is
    not modelled.  Overflow, underflow, NaN and infinities are not
    modelled.

    Objects.  The [recipes], [upgrades] and [milestones] objects are
    finite maps from property names to records.  A method that
    dereferences a missing property throws a [TypeError]; such methods
    return an [outcome], which records the state at the throw. *)

From Stdlib Require Import QArith Qround Qpower Qabs Qreduction ZArith NArith Lia Lqa.
From stdpp Require Import gmap strings fin_maps pretty.

Local Open Scope Q_scope.
Local Open Scope string_scope.

(** ** Numbers *)

Module JsMath.

Definition ceil (x : Q) : Q := inject_Z (Qceiling x).
Definition floor (x : Q) : Q := inject_Z (Qfloor x).
Definition pow (x : Q) (n : N) : Q := Qpower x (Z.of_N n).
Definition min (a b : Q) : Q := if Qle_bool a b then a else b.
Definition ofN (n : N) : Q := inject_Z (Z.of_N n).

(** [a < b], [a <= b], [a >= b] as the tests the code branches on. *)
Definition ltb (a b : Q) : bool := negb (Qle_bool b a).
Definition leb (a b : Q) : bool := Qle_bool a b.
Definition geb (a b : Q) : bool := Qle_bool b a.
Definition gtb (a b : Q) : bool := negb (Qle_bool a b).


(** *** Doubles

    [roundEven x] is the integer nearest to [x], the even one of the two
    when [x] lies half-way.  [binade a] is the integer [k] with
    [2^k <= a < 2^(k+1)], for positive [a].  [roundAt a] keeps the 53
    significant bits of a positive [a].  The range of the exponent is
    not modelled: no double of the game comes near its ends. *)
Definition roundEven (x : Q) : Z :=
  let f := Qfloor x in
  match Qcompare (x - inject_Z f) (1 # 2) with
  | Lt => f
  | Gt => (f + 1)%Z
  | Eq => if Z.even f then f else (f + 1)%Z
  end.

Definition binade (a : Q) : Z :=
  let k := (Z.log2 (Qnum a) - Z.log2 (Zpos (Qden a)))%Z in
  if Qle_bool (Qpower 2 k) a then k else (k - 1)%Z.

Definition roundAt (a : Q) : Q :=
  inject_Z (roundEven (a / Qpower 2 (binade a - 52))) * Qpower 2 (binade a - 52).

Definition double (q : Q) : Q :=
  let q := Qred q in
  match Qnum q with
  | Z0 => 0
  | _ => if Qle_bool 0 q then roundAt (Qabs q) else - roundAt (Qabs q)
  end.

(** [x + y], [x * y] and [x / y] on doubles. *)
Definition add (x y : Q) : Q := double (x + y).
Definition mul (x y : Q) : Q := double (x * y).
Definition div (x y : Q) : Q := double (x / y).

(** [Math.pow(x, n)] for a counter [n].  The language leaves the last
    bit of [Math.pow] to the implementation; it is taken here as the
    double nearest to the power, which every implementation returns for
    the exponents 0 and 1. *)
Definition powd (x : Q) (n : N) : Q := double (Qpower x (Z.of_N n)).

Arguments double : simpl never.
Arguments add : simpl never.
Arguments mul : simpl never.
Arguments div : simpl never.
Arguments powd : simpl never.

End JsMath.

(** ** Data model *)

Record Recipe : Type := mkRecipe {
  r_id : string;
  r_name : string;
  r_icon : string;
  r_baseCost : Q;
  r_currentCost : Q;
  r_bakeTime : Q;
  baseProduction : Q;
  currentProduction : Q;
  unlocked : bool;
  bakeCount : N;
  totalProduction : Q;
  r_level : N;
  upgradeCost : Q;
}.

Inductive UpgradeType : Type := production | capacity | reputation_type.

Record Upgrade : Type := mkUpgrade {
  u_id : string;
  u_name : string;
  u_icon : string;
  u_level : N;
  maxLevel : N;
  u_baseCost : Q;
  u_currentCost : Q;
  description : string;
  bonus : Q;
  u_type : UpgradeType;
}.

(** [requirement] is absent on the [allRecipesUnlocked] milestone. *)
Record Milestone : Type := mkMilestone {
  m_id : string;
  m_name : string;
  completed : bool;
  requirement : option Q;
}.

Record GameState : Type := mkGameState {
  money : Q;
  totalMoneyEarned : Q;
  moneyPerSecond : Q;
  totalBaked : Z;
  currentRecipe : option string;
  recipes : gmap string Recipe;
  autoBakers : N;
  autoBakerLevel : N;
  autoBakerCost : Q;
  autoBakerProductionBonus : Q;
  upgrades : gmap string Upgrade;
  reputation : Q;
  maxReputation : Q;
  customersServed : N;
  customerSatisfaction : Q;
  level : N;
  experience : Q;
  experiencePerLevel : Q;
  milestones : gmap string Milestone;
  lastSaveTime : Z;
  lastPlayTime : Z;
  totalPlayTime : Z;
  gameStartTime : Z;
}.

(** ** Field updates

    [set_f v x] is the object [x] after the assignment [x.f = v]. *)

Definition set_currentProduction (v : _) (r : Recipe) : Recipe :=
  mkRecipe (r_id r) (r_name r) (r_icon r) (r_baseCost r) (r_currentCost r)
    (r_bakeTime r) (baseProduction r) v (unlocked r) (bakeCount r)
    (totalProduction r) (r_level r) (upgradeCost r).
Definition set_unlocked (v : _) (r : Recipe) : Recipe :=
  mkRecipe (r_id r) (r_name r) (r_icon r) (r_baseCost r) (r_currentCost r)
    (r_bakeTime r) (baseProduction r) (currentProduction r) v (bakeCount r)
    (totalProduction r) (r_level r) (upgradeCost r).
Definition set_bakeCount (v : _) (r : Recipe) : Recipe :=
  mkRecipe (r_id r) (r_name r) (r_icon r) (r_baseCost r) (r_currentCost r)
    (r_bakeTime r) (baseProduction r) (currentProduction r) (unlocked r) v
    (totalProduction r) (r_level r) (upgradeCost r).
Definition set_totalProduction (v : _) (r : Recipe) : Recipe :=
  mkRecipe (r_id r) (r_name r) (r_icon r) (r_baseCost r) (r_currentCost r)
    (r_bakeTime r) (baseProduction r) (currentProduction r) (unlocked r)
    (bakeCount r) v (r_level r) (upgradeCost r).
Definition set_r_level (v : _) (r : Recipe) : Recipe :=
  mkRecipe (r_id r) (r_name r) (r_icon r) (r_baseCost r) (r_currentCost r)
    (r_bakeTime r) (baseProduction r) (currentProduction r) (unlocked r)
    (bakeCount r) (totalProduction r) v (upgradeCost r).
Definition set_upgradeCost (v : _) (r : Recipe) : Recipe :=
  mkRecipe (r_id r) (r_name r) (r_icon r) (r_baseCost r) (r_currentCost r)
    (r_bakeTime r) (baseProduction r) (currentProduction r) (unlocked r)
    (bakeCount r) (totalProduction r) (r_level r) v.

Definition set_u_level (v : _) (u : Upgrade) : Upgrade :=
  mkUpgrade (u_id u) (u_name u) (u_icon u) v (maxLevel u) (u_baseCost u)
    (u_currentCost u) (description u) (bonus u) (u_type u).
Definition set_u_currentCost (v : _) (u : Upgrade) : Upgrade :=
  mkUpgrade (u_id u) (u_name u) (u_icon u) (u_level u) (maxLevel u)
    (u_baseCost u) v (description u) (bonus u) (u_type u).

Definition set_completed (v : _) (m : Milestone) : Milestone :=
  mkMilestone (m_id m) (m_name m) v (requirement m).

Definition set_money (v : _) (gs : GameState) : GameState :=
  mkGameState v (totalMoneyEarned gs) (moneyPerSecond gs) (totalBaked gs)
    (currentRecipe gs) (recipes gs) (autoBakers gs) (autoBakerLevel gs)
    (autoBakerCost gs) (autoBakerProductionBonus gs) (upgrades gs)
    (reputation gs) (maxReputation gs) (customersServed gs)
    (customerSatisfaction gs) (level gs) (experience gs)
    (experiencePerLevel gs) (milestones gs) (lastSaveTime gs)
    (lastPlayTime gs) (totalPlayTime gs) (gameStartTime gs).
Definition set_totalMoneyEarned (v : _) (gs : GameState) : GameState :=
  mkGameState (money gs) v (moneyPerSecond gs) (totalBaked gs)
    (currentRecipe gs) (recipes gs) (autoBakers gs) (autoBakerLevel gs)
    (autoBakerCost gs) (autoBakerProductionBonus gs) (upgrades gs)
    (reputation gs) (maxReputation gs) (customersServed gs)
    (customerSatisfaction gs) (level gs) (experience gs)
    (experiencePerLevel gs) (milestones gs) (lastSaveTime gs)
    (lastPlayTime gs) (totalPlayTime gs) (gameStartTime gs).
Definition set_moneyPerSecond (v : _) (gs : GameState) : GameState :=
  mkGameState (money gs) (totalMoneyEarned gs) v (totalBaked gs)
    (currentRecipe gs) (recipes gs) (autoBakers gs) (autoBakerLevel gs)
    (autoBakerCost gs) (autoBakerProductionBonus gs) (upgrades gs)
    (reputation gs) (maxReputation gs) (customersServed gs)
    (customerSatisfaction gs) (level gs) (experience gs)
    (experiencePerLevel gs) (milestones gs) (lastSaveTime gs)
    (lastPlayTime gs) (totalPlayTime gs) (gameStartTime gs).
Definition set_totalBaked (v : _) (gs : GameState) : GameState :=
  mkGameState (money gs) (totalMoneyEarned gs) (moneyPerSecond gs) v
    (currentRecipe gs) (recipes gs) (autoBakers gs) (autoBakerLevel gs)
    (autoBakerCost gs) (autoBakerProductionBonus gs) (upgrades gs)
    (reputation gs) (maxReputation gs) (customersServed gs)
    (customerSatisfaction gs) (level gs) (experience gs)
    (experiencePerLevel gs) (milestones gs) (lastSaveTime gs)
    (lastPlayTime gs) (totalPlayTime gs) (gameStartTime gs).
Definition set_recipes (v : _) (gs : GameState) : GameState :=
  mkGameState (money gs) (totalMoneyEarned gs) (moneyPerSecond gs)
    (totalBaked gs) (currentRecipe gs) v (autoBakers gs) (autoBakerLevel gs)
    (autoBakerCost gs) (autoBakerProductionBonus gs) (upgrades gs)
    (reputation gs) (maxReputation gs) (customersServed gs)
    (customerSatisfaction gs) (level gs) (experience gs)
    (experiencePerLevel gs) (milestones gs) (lastSaveTime gs)
    (lastPlayTime gs) (totalPlayTime gs) (gameStartTime gs).
Definition set_autoBakers (v : _) (gs : GameState) : GameState :=
  mkGameState (money gs) (totalMoneyEarned gs) (moneyPerSecond gs)
    (totalBaked gs) (currentRecipe gs) (recipes gs) v (autoBakerLevel gs)
    (autoBakerCost gs) (autoBakerProductionBonus gs) (upgrades gs)
    (reputation gs) (maxReputation gs) (customersServed gs)
    (customerSatisfaction gs) (level gs) (experience gs)
    (experiencePerLevel gs) (milestones gs) (lastSaveTime gs)
    (lastPlayTime gs) (totalPlayTime gs) (gameStartTime gs).
Definition set_autoBakerLevel (v : _) (gs : GameState) : GameState :=
  mkGameState (money gs) (totalMoneyEarned gs) (moneyPerSecond gs)
    (totalBaked gs) (currentRecipe gs) (recipes gs) (autoBakers gs) v
    (autoBakerCost gs) (autoBakerProductionBonus gs) (upgrades gs)
    (reputation gs) (maxReputation gs) (customersServed gs)
    (customerSatisfaction gs) (level gs) (experience gs)
    (experiencePerLevel gs) (milestones gs) (lastSaveTime gs)
    (lastPlayTime gs) (totalPlayTime gs) (gameStartTime gs).
Definition set_autoBakerCost (v : _) (gs : GameState) : GameState :=
  mkGameState (money gs) (totalMoneyEarned gs) (moneyPerSecond gs)
    (totalBaked gs) (currentRecipe gs) (recipes gs) (autoBakers gs)
    (autoBakerLevel gs) v (autoBakerProductionBonus gs) (upgrades gs)
    (reputation gs) (maxReputation gs) (customersServed gs)
    (customerSatisfaction gs) (level gs) (experience gs)
    (experiencePerLevel gs) (milestones gs) (lastSaveTime gs)
    (lastPlayTime gs) (totalPlayTime gs) (gameStartTime gs).
Definition set_upgrades (v : _) (gs : GameState) : GameState :=
  mkGameState (money gs) (totalMoneyEarned gs) (moneyPerSecond gs)
    (totalBaked gs) (currentRecipe gs) (recipes gs) (autoBakers gs)
    (autoBakerLevel gs) (autoBakerCost gs) (autoBakerProductionBonus gs) v
    (reputation gs) (maxReputation gs) (customersServed gs)
    (customerSatisfaction gs) (level gs) (experience gs)
    (experiencePerLevel gs) (milestones gs) (lastSaveTime gs)
    (lastPlayTime gs) (totalPlayTime gs) (gameStartTime gs).
Definition set_milestones (v : _) (gs : GameState) : GameState :=
  mkGameState (money gs) (totalMoneyEarned gs) (moneyPerSecond gs)
    (totalBaked gs) (currentRecipe gs) (recipes gs) (autoBakers gs)
    (autoBakerLevel gs) (autoBakerCost gs) (autoBakerProductionBonus gs)
    (upgrades gs) (reputation gs) (maxReputation gs) (customersServed gs)
    (customerSatisfaction gs) (level gs) (experience gs)
    (experiencePerLevel gs) v (lastSaveTime gs) (lastPlayTime gs)
    (totalPlayTime gs) (gameStartTime gs).
Definition set_lastSaveTime (v : _) (gs : GameState) : GameState :=
  mkGameState (money gs) (totalMoneyEarned gs) (moneyPerSecond gs)
    (totalBaked gs) (currentRecipe gs) (recipes gs) (autoBakers gs)
    (autoBakerLevel gs) (autoBakerCost gs) (autoBakerProductionBonus gs)
    (upgrades gs) (reputation gs) (maxReputation gs) (customersServed gs)
    (customerSatisfaction gs) (level gs) (experience gs)
    (experiencePerLevel gs) (milestones gs) v (lastPlayTime gs)
    (totalPlayTime gs) (gameStartTime gs).
Definition set_gameStartTime (v : _) (gs : GameState) : GameState :=
  mkGameState (money gs) (totalMoneyEarned gs) (moneyPerSecond gs)
    (totalBaked gs) (currentRecipe gs) (recipes gs) (autoBakers gs)
    (autoBakerLevel gs) (autoBakerCost gs) (autoBakerProductionBonus gs)
    (upgrades gs) (reputation gs) (maxReputation gs) (customersServed gs)
    (customerSatisfaction gs) (level gs) (experience gs)
    (experiencePerLevel gs) (milestones gs) (lastSaveTime gs)
    (lastPlayTime gs) (totalPlayTime gs) v.

(** ** Outcomes of methods that may throw *)

Inductive outcome (A : Type) : Type :=
| Returns (a : A) (gs : GameState)
| Throws (gs : GameState).
Arguments Returns {A} a gs.
Arguments Throws {A} gs.

(** The state a call leaves behind, whether it returned or threw. *)
Definition state_after {A : Type} (o : outcome A) : GameState :=
  match o with Returns _ gs => gs | Throws gs => gs end.

Definition M (A : Type) : Type := GameState -> outcome A.

Definition ret {A : Type} (a : A) : M A := fun gs => Returns a gs.
Definition bind {A B : Type} (c : M A) (k : A -> M B) : M B :=
  fun gs => match c gs with
            | Returns a gs' => k a gs'
            | Throws gs' => Throws gs'
            end.

Notation "'run' c ; k" := (bind c (fun _ => k))
  (at level 10, c at level 100, k at level 200).

(** ** Property order

    [for (let recipeId in recipes)] visits the properties in the order
    in which they were added.  A finite map does not record that order.
    The recipes object is only ever created by the literal of
    [initializeRecipes] (and re-created with the same order by
    [JSON.parse]), with the keys in the order below; the loop is
    modelled as visiting the keys of that literal first, in its order,
    and any other key after them. *)
Definition recipeLiteralOrder : list string :=
  ["cookie"; "brownie"; "croissant"; "cake"; "donut"].

Definition forInKeys (rs : gmap string Recipe) : list string :=
  List.filter (fun id => bool_decide (is_Some (rs !! id))) recipeLiteralOrder
  ++ List.filter (fun id => negb (bool_decide (id ∈ recipeLiteralOrder)))
       (map_to_list rs).*1.

Definition forInRecipes (rs : gmap string Recipe) : list Recipe :=
  omap (fun id => rs !! id) (forInKeys rs).

Arguments forInKeys : simpl never.
Arguments forInRecipes : simpl never.

(** ** gameState.js *)

(** The object literal [GameState], evaluated when the module loads at
    time [now]. *)
Definition defaults (now : Z) : GameState :=
  {| money := 0; totalMoneyEarned := 0; moneyPerSecond := 0;
     totalBaked := 0%Z; currentRecipe := None; recipes := ∅;
     autoBakers := 0%N; autoBakerLevel := 0%N; autoBakerCost := 50;
     autoBakerProductionBonus := 1;
     upgrades := ∅;
     reputation := 0; maxReputation := 100; customersServed := 0%N;
     customerSatisfaction := 100;
     level := 1%N; experience := 0; experiencePerLevel := 100;
     milestones := ∅;
     lastSaveTime := 0%Z; lastPlayTime := 0%Z; totalPlayTime := 0%Z;
     gameStartTime := now |}.

Definition newRecipe (id name icon : string) (cost time prod : Q)
    (open : bool) (upCost : Q) : Recipe :=
  {| r_id := id; r_name := name; r_icon := icon;
     r_baseCost := cost; r_currentCost := cost; r_bakeTime := time;
     baseProduction := prod; currentProduction := prod;
     unlocked := open; bakeCount := 0%N; totalProduction := 0;
     r_level := 0%N; upgradeCost := upCost |}.

Definition initializeRecipes (gs : GameState) : GameState :=
  set_recipes
    (<["cookie" := newRecipe "cookie" "Sugar Cookie" "🍪" 1 2 1 true 10]>
    (<["brownie" := newRecipe "brownie" "Chocolate Brownie" "🍫" 5 3 2 false 30]>
    (<["croissant" := newRecipe "croissant" "Butter Croissant" "🥐" 15 4 5 false 75]>
    (<["cake" := newRecipe "cake" "Vanilla Cake" "🎂" 50 6 15 false 200]>
    (<["donut" := newRecipe "donut" "Glazed Donut" "🍩" 8 2 3 false 40]> ∅)))))
    gs.

Definition newUpgrade (id name icon : string) (maxL : N) (cost : Q)
    (descr : string) (b : Q) (ty : UpgradeType) : Upgrade :=
  {| u_id := id; u_name := name; u_icon := icon; u_level := 0%N;
     maxLevel := maxL; u_baseCost := cost; u_currentCost := cost;
     description := descr; bonus := b; u_type := ty |}.

Definition initializeUpgrades (gs : GameState) : GameState :=
  set_upgrades
    (<["betterOven" := newUpgrade "betterOven" "Better Oven" "🔥" 10 100
         "+5% production per level" (105 # 100) production]>
    (<["moreShelves" := newUpgrade "moreShelves" "More Shelves" "📦" 10 150
         "+10% capacity per level" (110 # 100) capacity]>
    (<["marketingCampaign" := newUpgrade "marketingCampaign"
         "Marketing Campaign" "📢" 5 200
         "+20% reputation gain per level" (120 # 100) reputation_type]> ∅)))
    gs.

Definition initializeMilestones (gs : GameState) : GameState :=
  set_milestones
    (<["firstBake" := mkMilestone "firstBake" "First Bake" false (Some 1)]>
    (<["hundredBakes" := mkMilestone "hundredBakes" "100 Bakes" false (Some 100)]>
    (<["thousandDollars" :=
         mkMilestone "thousandDollars" "$1,000 Earned" false (Some 1000)]>
    (<["allRecipesUnlocked" :=
         mkMilestone "allRecipesUnlocked" "Master Baker" false None]> ∅))))
    gs.

(** [initialize()]; [Date.now()] is read twice: [now1] for
    [lastSaveTime], then [now2] for [gameStartTime]. *)
Definition initialize (now1 now2 : Z) (gs : GameState) : GameState :=
  initializeMilestones
    (initializeUpgrades
      (initializeRecipes
        (set_gameStartTime now2
          (set_lastSaveTime now1
            (set_totalMoneyEarned 10 (set_money 10 gs)))))).

(** A freshly initialized model, all of whose clock readings are
    [now]. *)
Definition fresh (now : Z) : GameState := initialize now now (defaults now).

(** [completeMilestone(milestoneId)] *)
Definition completeMilestone (milestoneId : string) (gs : GameState) : GameState :=
  match milestones gs !! milestoneId with
  | Some m =>
      let gs := set_milestones (<[milestoneId := set_completed true m]> (milestones gs)) gs in
      let gs := set_money (money gs + 50) gs in
      set_totalMoneyEarned (totalMoneyEarned gs + 50) gs
  | None => gs
  end.

(** One statement of [checkMilestones]:
    [if (reached && !this.milestones.ID.completed) this.completeMilestone(ID)].
    The property [milestones.ID] is dereferenced only when [reached]
    holds, and the dereference throws when the milestone is missing. *)
Definition checkThreshold (reached : GameState -> bool) (milestoneId : string) : M unit :=
  fun gs =>
    if reached gs then
      match milestones gs !! milestoneId with
      | None => Throws gs
      | Some m =>
          if negb (completed m)
          then Returns tt (completeMilestone milestoneId gs)
          else Returns tt gs
      end
    else Returns tt gs.

(** The three conditions [checkMilestones] tests. *)
Definition firstBakeReached (gs : GameState) : bool := (1 <=? totalBaked gs)%Z.
Definition hundredBakesReached (gs : GameState) : bool := (100 <=? totalBaked gs)%Z.
Definition thousandDollarsReached (gs : GameState) : bool :=
  JsMath.geb (totalMoneyEarned gs) 1000.

(** [checkMilestones()] *)
Definition checkMilestones : M unit :=
  run checkThreshold firstBakeReached "firstBake";
  run checkThreshold hundredBakesReached "hundredBakes";
  checkThreshold thousandDollarsReached "thousandDollars".

(** [bake(recipe)].  The argument is a reference to one of the recipe
    objects of [this.recipes], given by its key, or a falsy value
    ([None]); a key that names no recipe denotes [undefined], which is
    falsy too.  A falsy argument is replaced by [this.recipes.cookie]. *)
Definition bakeTarget (arg : option string) (gs : GameState) : string :=
  match arg with
  | Some id => if recipes gs !! id is Some _ then id else "cookie"
  | None => "cookie"
  end.

Definition bake (arg : option string) : M bool :=
  fun gs =>
    let key := bakeTarget arg gs in
    match recipes gs !! key with
    | None => Throws gs
    | Some recipe =>
        if negb (unlocked recipe) then Returns false gs
        else
          let earnings := currentProduction recipe in
          let gs := set_money (money gs + earnings) gs in
          let gs := set_totalMoneyEarned (totalMoneyEarned gs + earnings) gs in
          let gs := set_totalBaked (totalBaked gs + 1)%Z gs in
          let recipe := set_bakeCount (bakeCount recipe + 1)%N recipe in
          let recipe := set_totalProduction (totalProduction recipe + earnings) recipe in
          let gs := set_recipes (<[key := recipe]> (recipes gs)) gs in
          (run checkMilestones; ret true) gs
    end.

(** [unlockRecipe(recipeId)] *)
Definition unlockRecipe (recipeId : string) (gs : GameState) : GameState :=
  match recipes gs !! recipeId with
  | Some r => set_recipes (<[recipeId := set_unlocked true r]> (recipes gs)) gs
  | None => gs
  end.

(** [applyUpgradeBonus(upgrade)] *)
Definition applyUpgradeBonus (upgrade : Upgrade) (gs : GameState) : GameState :=
  match u_type upgrade with
  | production =>
      set_recipes
        ((fun recipe =>
            set_currentProduction
              (JsMath.ceil (baseProduction recipe
                            * JsMath.pow (bonus upgrade) (u_level upgrade)))
              recipe) <$> recipes gs)
        gs
  | _ => gs
  end.

(** [purchaseUpgrade(upgradeId)] *)
Definition purchaseUpgrade (upgradeId : string) (gs : GameState) : bool * GameState :=
  match upgrades gs !! upgradeId with
  | None => (false, gs)
  | Some upgrade =>
      if (maxLevel upgrade <=? u_level upgrade)%N then (false, gs)
      else if JsMath.ltb (money gs) (u_currentCost upgrade) then (false, gs)
      else
        let gs := set_money (money gs - u_currentCost upgrade) gs in
        let upgrade := set_u_level (u_level upgrade + 1)%N upgrade in
        let upgrade :=
          set_u_currentCost
            (JsMath.ceil
               (JsMath.mul (u_baseCost upgrade)
                  (JsMath.powd (JsMath.double (11 # 10)) (u_level upgrade))))
            upgrade in
        let gs := set_upgrades (<[upgradeId := upgrade]> (upgrades gs)) gs in
        (true, applyUpgradeBonus upgrade gs)
  end.

(** The sum the loop [for (let recipeId in recipes)] accumulates onto
    [start]: [currentProduction * level * 0.1] for every unlocked recipe
    of positive level, each product and each sum rounded as the code
    rounds it. *)
Definition addRecipeIncome (start : Q) (rs : gmap string Recipe) : Q :=
  foldl
    (fun acc recipe =>
       if unlocked recipe && (0 <? r_level recipe)%N
       then JsMath.add acc
              (JsMath.mul
                 (JsMath.mul (currentProduction recipe)
                    (JsMath.ofN (r_level recipe)))
                 (JsMath.double (1 # 10)))
       else acc)
    start (forInRecipes rs).

Arguments addRecipeIncome : simpl never.

(** [recalculateMoneyPerSecond()] *)
Definition recalculateMoneyPerSecond (gs : GameState) : GameState :=
  let production := JsMath.ofN (autoBakers gs) * 5 in
  set_moneyPerSecond (addRecipeIncome production (recipes gs)) gs.

(** [hireAutoBaker()] *)
Definition hireAutoBaker (gs : GameState) : bool * GameState :=
  if JsMath.ltb (money gs) (autoBakerCost gs) then (false, gs)
  else
    let gs := set_money (money gs - autoBakerCost gs) gs in
    let gs := set_autoBakers (autoBakers gs + 1)%N gs in
    let gs := set_autoBakerLevel (autoBakerLevel gs + 1)%N gs in
    let gs := set_autoBakerCost (JsMath.ceil (autoBakerCost gs * (115 # 100))) gs in
    (true, recalculateMoneyPerSecond gs).

(** ** recipes.js *)

Module Recipes.

(** [bakeRecipe(gameState, recipeId)] *)
Definition bakeRecipe (recipeId : string) (gs : GameState) : bool * GameState :=
  match recipes gs !! recipeId with
  | None => (false, gs)
  | Some recipe =>
      if negb (unlocked recipe) then (false, gs)
      else
        let earnings := currentProduction recipe in
        let gs := set_money (money gs + earnings) gs in
        let gs := set_totalMoneyEarned (totalMoneyEarned gs + earnings) gs in
        let gs := set_totalBaked (totalBaked gs + 1)%Z gs in
        let recipe := set_bakeCount (bakeCount recipe + 1)%N recipe in
        let recipe := set_totalProduction (totalProduction recipe + earnings) recipe in
        (true, set_recipes (<[recipeId := recipe]> (recipes gs)) gs)
  end.

(** [upgradeRecipe(gameState, recipeId)] *)
Definition upgradeRecipe (recipeId : string) (gs : GameState) : bool * GameState :=
  match recipes gs !! recipeId with
  | None => (false, gs)
  | Some recipe =>
      if negb (unlocked recipe) then (false, gs)
      else
        let cost := upgradeCost recipe in
        if JsMath.ltb (money gs) cost then (false, gs)
        else
          let gs := set_money (money gs - cost) gs in
          let recipe := set_r_level (r_level recipe + 1)%N recipe in
          let recipe :=
            set_currentProduction
              (JsMath.ceil (baseProduction recipe
                            * JsMath.pow (12 # 10) (r_level recipe)))
              recipe in
          let recipe :=
            set_upgradeCost (JsMath.ceil (upgradeCost recipe * (115 # 100))) recipe in
          (true, set_recipes (<[recipeId := recipe]> (recipes gs)) gs)
  end.

(** [Object.values(gameState.recipes)].  The values are listed in the
    key order of the map, not in insertion order; nothing stated about
    the functions below depends on the order. *)
Definition values (gs : GameState) : list Recipe := (map_to_list (recipes gs)).*2.

(** [getUnlockedRecipes(gameState)], [getLockedRecipes(gameState)] *)
Definition getUnlockedRecipes (gs : GameState) : list Recipe :=
  List.filter (fun recipe => unlocked recipe) (values gs).

Definition getLockedRecipes (gs : GameState) : list Recipe :=
  List.filter (fun recipe => negb (unlocked recipe)) (values gs).

(** [getRecipeProfitability(recipe)] *)
Definition getRecipeProfitability (recipe : Recipe) : Q :=
  if (bakeCount recipe =? 0)%N then 0
  else totalProduction recipe / JsMath.ofN (bakeCount recipe).

Record UnlockRule : Type := mkUnlockRule {
  rule_requirement : Z;
  rule_requiredMoney : Q;
  rule_description : string;
}.

(** [getUnlockRequirements()] *)
Definition getUnlockRequirements : gmap string UnlockRule :=
  <["brownie" := mkUnlockRule 20 50 "Bake 20 cookies and earn $50"]>
  (<["croissant" := mkUnlockRule 50 150 "Bake 50 items and earn $150"]>
  (<["cake" := mkUnlockRule 100 500 "Bake 100 items and earn $500"]>
  (<["donut" := mkUnlockRule 30 75 "Bake 30 items and earn $75"]> ∅))).

(** [checkAutoUnlock(gameState, recipeId)] *)
Definition checkAutoUnlock (gs : GameState) (recipeId : string) : bool :=
  match recipes gs !! recipeId with
  | None => false
  | Some recipe =>
      if unlocked recipe then false
      else
        match getUnlockRequirements !! recipeId with
        | None => false
        | Some requirements =>
            (rule_requirement requirements <=? totalBaked gs)%Z
            && JsMath.geb (money gs) (rule_requiredMoney requirements)
        end
  end.

Record RecipeStats : Type := mkRecipeStats {
  totalRecipes : nat;
  unlockedCount : nat;
  lockedCount : nat;
  stats_totalBaked : Z;
  averageProduction : Q;
}.

(** [getRecipeStats(gameState)] *)
Definition getRecipeStats (gs : GameState) : RecipeStats :=
  let unlockedRecipes := getUnlockedRecipes gs in
  {| totalRecipes := size (recipes gs);
     unlockedCount := length (getUnlockedRecipes gs);
     lockedCount := length (getLockedRecipes gs);
     stats_totalBaked := totalBaked gs;
     averageProduction :=
       if (0 <? length unlockedRecipes)%nat then
         let totalProduction :=
           fold_left (fun sum recipe => sum + currentProduction recipe)
             unlockedRecipes 0 in
         totalProduction / inject_Z (Z.of_nat (length unlockedRecipes))
       else 0 |}.

End Recipes.

(** ** offlineProgress.js *)

Module OfflineProgress.

Definition MAX_OFFLINE_TIME : Q := 7 * 24 * 60 * 60.

Record Earnings : Type := mkEarnings {
  earnings : Q;
  secondsCalculated : Q;
  autoBakerIncome : Q;
  recipeIncome : Q;
}.

(** [calculateOfflineEarnings(gameState, secondsOffline)] *)
Definition calculateOfflineEarnings (gs : GameState) (secondsOffline : Q) : Earnings :=
  let cappedSeconds := JsMath.min secondsOffline MAX_OFFLINE_TIME in
  let autoBakerIncome := JsMath.ofN (autoBakers gs) * 5 in
  let recipeIncome := addRecipeIncome 0 (recipes gs) in
  let totalIncome := JsMath.add autoBakerIncome recipeIncome in
  let totalEarnings := JsMath.mul totalIncome cappedSeconds in
  {| earnings := JsMath.floor totalEarnings;
     secondsCalculated := cappedSeconds;
     autoBakerIncome := autoBakerIncome;
     recipeIncome := recipeIncome |}.

Record OfflineResult : Type := mkOfflineResult {
  moneyGained : Q;
  itemsBaked : Z;
}.

(** [applyOfflineProgress(gameState, secondsOffline)] *)
Definition applyOfflineProgress (gs : GameState) (secondsOffline : Q)
    : OfflineResult * GameState :=
  if JsMath.leb secondsOffline 0 then
    ({| moneyGained := 0; itemsBaked := 0 |}, gs)
  else
    let e := calculateOfflineEarnings gs secondsOffline in
    let gs := set_money (money gs + earnings e) gs in
    let gs := set_totalMoneyEarned (totalMoneyEarned gs + earnings e) gs in
    let itemsBaked :=
      if JsMath.gtb (autoBakerIncome e) 0
      then Qfloor (JsMath.div (JsMath.mul (autoBakerIncome e) secondsOffline) 5)
      else 0%Z in
    let gs := set_totalBaked (totalBaked gs + itemsBaked)%Z gs in
    ({| moneyGained := earnings e; itemsBaked := itemsBaked |}, gs).

Record TickResult : Type := mkTickResult {
  incomeThisTick : Q;
  totalMoney : Q;
}.

(** [tick(gameState)].  The three [+=] are written as exact sums; the
    code rounds each of them to the nearest double. *)
Definition tick (gs : GameState) : TickResult * GameState :=
  let passiveIncome := moneyPerSecond gs in
  let gs :=
    if JsMath.gtb passiveIncome 0 then
      let gs := set_money (money gs + passiveIncome) gs in
      let gs := set_totalMoneyEarned (totalMoneyEarned gs + passiveIncome) gs in
      set_recipes
        ((fun recipe =>
            if unlocked recipe && (0 <? r_level recipe)%N then
              let thisRecipeIncome :=
                JsMath.mul
                  (JsMath.mul (currentProduction recipe)
                     (JsMath.ofN (r_level recipe)))
                  (JsMath.double (1 # 10)) in
              if JsMath.gtb thisRecipeIncome 0
              then set_totalProduction (totalProduction recipe + thisRecipeIncome) recipe
              else recipe
            else recipe) <$> recipes gs)
        gs
    else gs in
  ({| incomeThisTick := passiveIncome; totalMoney := money gs |}, gs).

Record Summary : Type := mkSummary {
  totalEarnings : Q;
  autoBakerContribution : Q;
  recipeContribution : Q;
  timeOffline : Q;
}.

(** [getOfflineProgressSummary(gameState, secondsOffline)] *)
Definition getOfflineProgressSummary (gs : GameState) (secondsOffline : Q) : Summary :=
  let e := calculateOfflineEarnings gs secondsOffline in
  {| totalEarnings := earnings e;
     autoBakerContribution := JsMath.mul (autoBakerIncome e) (secondsCalculated e);
     recipeContribution := JsMath.mul (recipeIncome e) (secondsCalculated e);
     timeOffline := secondsCalculated e |}.



(** [estimateMoneyPerHour(gameState)] *)
Definition estimateMoneyPerHour (gs : GameState) : Q :=
  JsMath.mul (moneyPerSecond gs) 3600.

(** [estimateItemsPerHour(gameState)] *)
Definition estimateItemsPerHour (gs : GameState) : Q :=
  let itemsPerSecond := JsMath.ofN (autoBakers gs) * (5 / 5) in
  itemsPerSecond * 3600.

(** [timeToEarnTarget(gameState, targetMoney)]; [None] is [Infinity]. *)
Definition timeToEarnTarget (gs : GameState) (targetMoney : Q) : option Q :=
  if JsMath.leb (moneyPerSecond gs) 0 then None
  else Some (JsMath.div targetMoney (moneyPerSecond gs)).

End OfflineProgress.

(** ** saveManager.js

    [localStorage] maps keys to strings.  An item is kept here as what
    the string denotes: [Json d] is the text [JSON.stringify] produces
    for the save record [d], and [JSON.parse] gives [d] back; [Num n]
    is the decimal text of the integer [n], which [JSON.parse] reads as
    that number; [Empty] is the empty string; [Garbled] is any other
    text that [JSON.parse] rejects.  The text of an object that is not a
    full save record is not an item of the model: what [Object.assign]
    makes of it has no type here.  A write to [localStorage] is taken
    to succeed. *)

Module SaveManager.

Definition SAVE_KEY : string := "sweetSuccessBakery_save".
Definition VERSION_KEY : string := "sweetSuccessBakery_version".
Definition CURRENT_VERSION : Z := 1.

(** The [state] object of a save record. *)
Record SavedState : Type := mkSavedState {
  s_money : Q;
  s_totalMoneyEarned : Q;
  s_moneyPerSecond : Q;
  s_totalBaked : Z;
  s_currentRecipe : option string;
  s_recipes : gmap string Recipe;
  s_autoBakers : N;
  s_autoBakerLevel : N;
  s_autoBakerCost : Q;
  s_upgrades : gmap string Upgrade;
  s_reputation : Q;
  s_customersServed : N;
  s_customerSatisfaction : Q;
  s_level : N;
  s_experience : Q;
  s_milestones : gmap string Milestone;
  s_lastSaveTime : Z;
  s_lastPlayTime : Z;
  s_totalPlayTime : Z;
  s_gameStartTime : Z;
}.

Record SaveData : Type := mkSaveData {
  version : Z;
  timestamp : Z;
  state : SavedState;
}.

Inductive Item : Type :=
| Json (d : SaveData)
| Num (n : Z)
| Empty
| Garbled.

(** [save(gameState)].  [Date.now()] is read twice: [now1] for
    [timestamp], then [now2] for [lastSaveTime]. *)
Definition save (now1 now2 : Z) (gs : GameState) (storage : gmap string Item)
    : bool * gmap string Item :=
  let saveData :=
    {| version := CURRENT_VERSION;
       timestamp := now1;
       state :=
         {| s_money := money gs;
            s_totalMoneyEarned := totalMoneyEarned gs;
            s_moneyPerSecond := moneyPerSecond gs;
            s_totalBaked := totalBaked gs;
            s_currentRecipe := currentRecipe gs;
            s_recipes := recipes gs;
            s_autoBakers := autoBakers gs;
            s_autoBakerLevel := autoBakerLevel gs;
            s_autoBakerCost := autoBakerCost gs;
            s_upgrades := upgrades gs;
            s_reputation := reputation gs;
            s_customersServed := customersServed gs;
            s_customerSatisfaction := customerSatisfaction gs;
            s_level := level gs;
            s_experience := experience gs;
            s_milestones := milestones gs;
            s_lastSaveTime := now2;
            s_lastPlayTime := lastPlayTime gs;
            s_totalPlayTime := totalPlayTime gs;
            s_gameStartTime := gameStartTime gs |} |} in
  let storage := <[SAVE_KEY := Json saveData]> storage in
  let storage := <[VERSION_KEY := Num CURRENT_VERSION]> storage in
  (true, storage).

(** [load()]: [null] when the slot is empty, holds the empty string
    or holds a text that [JSON.parse] rejects; a version mismatch only
    logs a warning.  A number has no [state]: [load] returns
    [undefined], which the callers take for [null], as they only test
    whether the result is truthy. *)
Definition load (storage : gmap string Item) : option SavedState :=
  match storage !! SAVE_KEY with
  | Some (Json parsed) => Some (state parsed)
  | Some (Num _) => None
  | Some Empty => None
  | Some Garbled => None
  | None => None
  end.

(** [restoreState(gameState, savedState)]:
    [Object.assign(gameState, savedState)] overwrites the properties
    the saved object has and leaves the others. *)
Definition restoreState (gs : GameState) (savedState : option SavedState) : GameState :=
  match savedState with
  | None => gs
  | Some st =>
      {| money := s_money st;
         totalMoneyEarned := s_totalMoneyEarned st;
         moneyPerSecond := s_moneyPerSecond st;
         totalBaked := s_totalBaked st;
         currentRecipe := s_currentRecipe st;
         recipes := s_recipes st;
         autoBakers := s_autoBakers st;
         autoBakerLevel := s_autoBakerLevel st;
         autoBakerCost := s_autoBakerCost st;
         autoBakerProductionBonus := autoBakerProductionBonus gs;
         upgrades := s_upgrades st;
         reputation := s_reputation st;
         maxReputation := maxReputation gs;
         customersServed := s_customersServed st;
         customerSatisfaction := s_customerSatisfaction st;
         level := s_level st;
         experience := s_experience st;
         experiencePerLevel := experiencePerLevel gs;
         milestones := s_milestones st;
         lastSaveTime := s_lastSaveTime st;
         lastPlayTime := s_lastPlayTime st;
         totalPlayTime := s_totalPlayTime st;
         gameStartTime := s_gameStartTime st |}
  end.

(** [getTimeSinceLastSave()] at clock reading [now].  A text that
    [JSON.parse] rejects throws, and so does the read of
    [parsed.state.lastSaveTime] when [parsed] is a number; the handler
    returns 0. *)
Definition getTimeSinceLastSave (now : Z) (storage : gmap string Item) : Q :=
  match storage !! SAVE_KEY with
  | Some (Json parsed) =>
      JsMath.div (inject_Z (now - s_lastSaveTime (state parsed))) 1000
  | Some (Num _) => 0
  | Some Empty => 0
  | Some Garbled => 0
  | None => 0
  end.

(** [hasSaveData()] *)
Definition hasSaveData (storage : gmap string Item) : bool :=
  if storage !! SAVE_KEY is Some _ then true else false.

(** [clearSave()] *)
Definition clearSave (storage : gmap string Item) : bool * gmap string Item :=
  (true, delete VERSION_KEY (delete SAVE_KEY storage)).

(** [exportSave()]: the stored string, [null] when there is none or it is
    empty. *)
Definition exportSave (storage : gmap string Item) : option Item :=
  match storage !! SAVE_KEY with
  | Some Empty => None
  | Some saveData => Some saveData
  | None => None
  end.

(** [importSave(jsonString)].  [JSON.parse] throws on [Empty] and on
    [Garbled]; a number has no [state] and fails the check
    [!parsed.state || !parsed.timestamp], which a save record passes
    when its [timestamp] is not 0.  The version marker is
    [parsed.version || CURRENT_VERSION]. *)
Definition importSave (jsonString : Item) (storage : gmap string Item)
    : bool * gmap string Item :=
  match jsonString with
  | Json parsed =>
      if (timestamp parsed =? 0)%Z then (false, storage)
      else
        let marker :=
          if (version parsed =? 0)%Z then CURRENT_VERSION else version parsed in
        let storage := <[SAVE_KEY := jsonString]> storage in
        let storage := <[VERSION_KEY := Num marker]> storage in
        (true, storage)
  | Num _ => (false, storage)
  | Empty => (false, storage)
  | Garbled => (false, storage)
  end.

End SaveManager.

(** ** gameState.js, continued *)


(** ** game.js

    The engine calls of [BakeryGame]; rendering, logging and timers are
    left out. *)

Module BakeryGame.

(** [checkRecipeUnlocks()].  Reading [recipe.unlocked] throws when the
    recipe the rule names is missing. *)
Definition unlockRules : list (string * (Z * Q)) :=
  [("brownie", (20%Z, 50)); ("croissant", (50%Z, 150));
   ("cake", (100%Z, 500)); ("donut", (30%Z, 75))].

Definition checkRule (entry : string * (Z * Q)) : M unit :=
  fun gs =>
    let '(recipeId, (requirement, requiredMoney)) := entry in
    match recipes gs !! recipeId with
    | None => Throws gs
    | Some recipe =>
        if negb (unlocked recipe)
           && (requirement <=? totalBaked gs)%Z
           && JsMath.geb (money gs) requiredMoney
        then Returns tt (unlockRecipe recipeId gs)
        else Returns tt gs
    end.

Definition checkRecipeUnlocks : M unit :=
  foldr (fun entry rest => run checkRule entry; rest) (ret tt) unlockRules.

(** [handleBake()] *)
Definition handleBake : M unit :=
  fun gs =>
    let recipe :=
      match currentRecipe gs with
      | Some id => Some id
      | None => Some "cookie"
      end in
    bind (bake recipe)
      (fun baked => if baked then checkRecipeUnlocks else ret tt) gs.

(** [hireAutoBaker()] *)
Definition hireAutoBaker (gs : GameState) : bool * GameState :=
  let (hired, gs) := hireAutoBaker gs in
  if hired then (true, recalculateMoneyPerSecond gs) else (false, gs).

(** [purchaseUpgrade(upgradeId)] *)
Definition purchaseUpgrade (upgradeId : string) (gs : GameState) : bool * GameState :=
  let (bought, gs) := purchaseUpgrade upgradeId gs in
  if bought then (true, recalculateMoneyPerSecond gs) else (false, gs).


(** [importSaveData(jsonString)] *)
Definition importSaveData (jsonString : SaveManager.Item)
    (storage : gmap string SaveManager.Item) (gs : GameState)
    : bool * gmap string SaveManager.Item * GameState :=
  let (imported, storage) := SaveManager.importSave jsonString storage in
  if imported
  then (true, storage, SaveManager.restoreState gs (SaveManager.load storage))
  else (false, storage, gs).

(** [initialize()] up to the start of the user interface.  With a save
    the clock is read once, by [getTimeSinceLastSave], as [now1];
    without one it is read twice, by [GameState.initialize], as [now1]
    and [now2]. *)
Definition initialize (now1 now2 : Z) (storage : gmap string SaveManager.Item)
    (gs : GameState) : GameState :=
  let savedState := SaveManager.load storage in
  let gs :=
    match savedState with
    | Some _ =>
        let gs := SaveManager.restoreState gs savedState in
        let timeSinceLastSave :=
          JsMath.div (SaveManager.getTimeSinceLastSave now1 storage) 1000 in
        if JsMath.gtb timeSinceLastSave 0
        then (OfflineProgress.applyOfflineProgress gs timeSinceLastSave).2
        else gs
    | None => initialize now1 now2 gs
    end in
  recalculateMoneyPerSecond gs.

End BakeryGame.

(** ** formatter.js *)

Module Formatter.

(** [formatTime(seconds)] for a whole number of seconds.  The parts are
    pushed in the order hours, minutes, seconds and joined by a blank. *)
Definition formatTime (seconds : Z) : string :=
  if (seconds <? 0)%Z then "0s"
  else
    let hours := (seconds / 3600)%Z in
    let minutes := ((seconds mod 3600) / 60)%Z in
    let secs := (seconds mod 60)%Z in
    let parts : list string := [] in
    let parts :=
      if (0 <? hours)%Z then (parts ++ [pretty hours +:+ "h"])%list else parts in
    let parts :=
      if (0 <? minutes)%Z then (parts ++ [pretty minutes +:+ "m"])%list else parts in
    let parts :=
      if (0 <? secs)%Z || (length parts =? 0)%nat
      then (parts ++ [pretty secs +:+ "s"])%list else parts in
    String.concat " " parts.

End Formatter.

(** ** Runs of the engine

    The operations a session performs on the model, and the state a
    sequence of them leaves.  A call that throws leaves the state it had
    reached. *)

Inductive Op : Type :=
| OpBake (recipe : option string)
| OpBakeRecipe (recipeId : string)
| OpUnlockRecipe (recipeId : string)
| OpPurchaseUpgrade (upgradeId : string)
| OpUpgradeRecipe (recipeId : string)
| OpHireAutoBaker
| OpRecalculateMoneyPerSecond
| OpTick
| OpApplyOfflineProgress (secondsOffline : Q)
| OpCheckMilestones.

Definition exec (op : Op) (gs : GameState) : GameState :=
  match op with
  | OpBake recipe => state_after (bake recipe gs)
  | OpBakeRecipe recipeId => (Recipes.bakeRecipe recipeId gs).2
  | OpUnlockRecipe recipeId => unlockRecipe recipeId gs
  | OpPurchaseUpgrade upgradeId => (purchaseUpgrade upgradeId gs).2
  | OpUpgradeRecipe recipeId => (Recipes.upgradeRecipe recipeId gs).2
  | OpHireAutoBaker => (hireAutoBaker gs).2
  | OpRecalculateMoneyPerSecond => recalculateMoneyPerSecond gs
  | OpTick => (OfflineProgress.tick gs).2
  | OpApplyOfflineProgress secondsOffline =>
      (OfflineProgress.applyOfflineProgress gs secondsOffline).2
  | OpCheckMilestones => state_after (checkMilestones gs)
  end.

Definition execAll (ops : list Op) (gs : GameState) : GameState :=
  foldl (fun gs op => exec op gs) gs ops.

(** [k] calls of [hireAutoBaker], all of which succeed. *)
Fixpoint hireTimes (k : nat) (gs : GameState) : option GameState :=
  match k with
  | O => Some gs
  | S k' =>
      let (ok, gs') := hireAutoBaker gs in
      if ok then hireTimes k' gs' else None
  end.

(** The price after [k] hires, and what [k] hires cost together, when
    the first costs [c]. *)
Definition nextCost (c : Q) : Q := JsMath.ceil (c * (115 # 100)).

Fixpoint costAfter (k : nat) (c : Q) : Q :=
  match k with
  | O => c
  | S k' => costAfter k' (nextCost c)
  end.

Fixpoint totalCost (k : nat) (c : Q) : Q :=
  match k with
  | O => 0
  | S k' => c + totalCost k' (nextCost c)
  end.

(** Whether milestone [id] exists and is completed. *)
Definition isCompleted (id : string) (gs : GameState) : bool :=
  match milestones gs !! id with
  | Some m => completed m
  | None => false
  end.

(** ** Notions the properties are stated with *)

(** What [applyUpgradeBonus] writes into a recipe for a production
    upgrade with bonus [b] at level [lvl]. *)
Definition boosted (b : Q) (lvl : N) (recipe : Recipe) : Recipe :=
  set_currentProduction
    (JsMath.ceil (baseProduction recipe * JsMath.pow b lvl)) recipe.

(** The state one statement of [checkMilestones] leaves when the
    milestone it reads exists, and the state the three leave in a row. *)
Definition afterThreshold (reached : GameState -> bool) (id : string)
    (gs : GameState) : GameState :=
  if reached gs && negb (isCompleted id gs) then completeMilestone id gs else gs.

Definition afterMilestones (gs : GameState) : GameState :=
  afterThreshold thousandDollarsReached "thousandDollars"
    (afterThreshold hundredBakesReached "hundredBakes"
      (afterThreshold firstBakeReached "firstBake" gs)).

Definition hasThresholdMilestones (gs : GameState) : Prop :=
  is_Some (milestones gs !! "firstBake")
  /\ is_Some (milestones gs !! "hundredBakes")
  /\ is_Some (milestones gs !! "thousandDollars").

(** How many of the three threshold milestones are open in [gs] and
    completed in [gs']. *)
Definition opened (id : string) (gs gs' : GameState) : Q :=
  if negb (isCompleted id gs) && isCompleted id gs' then 1 else 0.

Definition newlyCompleted (gs gs' : GameState) : Q :=
  opened "firstBake" gs gs' + opened "hundredBakes" gs gs'
  + opened "thousandDollars" gs gs'.

(** Productions and bonuses are not negative, and neither is the money. *)
Definition wellFormed (gs : GameState) : Prop :=
  0 <= money gs
  /\ map_Forall (fun _ r => 0 <= baseProduction r /\ 0 <= currentProduction r)
       (recipes gs)
  /\ map_Forall (fun _ u => 0 <= bonus u) (upgrades gs).

(** ** Further notions *)

(** What a successful [upgradeRecipe] makes of a recipe. *)
Definition upgraded (recipe : Recipe) : Recipe :=
  set_upgradeCost (nextCost (upgradeCost recipe))
    (set_currentProduction
       (JsMath.ceil (baseProduction recipe
                     * JsMath.pow (12 # 10) (r_level recipe + 1)))
       (set_r_level (r_level recipe + 1)%N recipe)).

(** [n] calls of [upgradeRecipe] on one recipe, all of which succeed. *)
Fixpoint upgradeTimes (n : nat) (recipeId : string) (gs : GameState)
    : option GameState :=
  match n with
  | O => Some gs
  | S n' =>
      let (ok, gs') := Recipes.upgradeRecipe recipeId gs in
      if ok then upgradeTimes n' recipeId gs' else None
  end.

(** The price [purchaseUpgrade] sets for an upgrade of base cost [c]
    that has reached level [lvl]: the product of the doubles [c] and
    [1.1^lvl], rounded, under [Math.ceil]. *)
Definition priceAt (c : Q) (lvl : N) : Q :=
  JsMath.ceil (JsMath.mul c (JsMath.powd (JsMath.double (11 # 10)) lvl)).

(** The invariant of an upgrade: its level does not exceed its maximum
    and its current cost is the one of its level. *)
Definition upgradeInvariant (u : Upgrade) : Prop :=
  (u_level u <= maxLevel u)%N
  /\ u_currentCost u == priceAt (u_baseCost u) (u_level u).

(** [n] ticks in a row. *)
Definition tickTimes (n : nat) (gs : GameState) : GameState :=
  Nat.iter n (fun gs => (OfflineProgress.tick gs).2) gs.

(** A recipe that counts for the income: unlocked and of positive
    level; and the tenth of its production times its level that it
    contributes, as the code multiplies it out. *)
Definition leveled (recipe : Recipe) : bool :=
  unlocked recipe && (0 <? r_level recipe)%N.

Definition tenthOf (recipe : Recipe) : Q :=
  JsMath.mul
    (JsMath.mul (currentProduction recipe) (JsMath.ofN (r_level recipe)))
    (JsMath.double (1 # 10)).

(** The sum over the unlocked recipes of positive level of
    [currentProduction * level * 0.1], added up from 0 in the order of
    the recipes object. *)
Definition recipeIncomeSum (gs : GameState) : Q :=
  foldl JsMath.add 0 (tenthOf <$> List.filter leveled (forInRecipes (recipes gs))).

(** The income rate of the offline calculation:
    [autoBakers * 5] plus that sum. *)
Definition incomeRate (gs : GameState) : Q :=
  JsMath.add (JsMath.ofN (autoBakers gs) * 5) (recipeIncomeSum gs).

(** The same rate in exact arithmetic, as a reader of the formula
    computes it. *)
Definition exactIncomeRate (gs : GameState) : Q :=
  JsMath.ofN (autoBakers gs) * 5
  + foldl Qplus 0
      ((fun recipe =>
          currentProduction recipe * JsMath.ofN (r_level recipe) * (1 # 10))
       <$> List.filter leveled (forInRecipes (recipes gs))).

(** The cached [moneyPerSecond] is up to date: it is what
    [recalculateMoneyPerSecond] would store. *)
Definition cacheCurrent (gs : GameState) : Prop :=
  moneyPerSecond gs == moneyPerSecond (recalculateMoneyPerSecond gs).

(** What one paying tick books into a recipe's [totalProduction]. *)
Definition bookedPerTick (recipe : Recipe) : Q :=
  if leveled recipe && JsMath.gtb (tenthOf recipe) 0 then tenthOf recipe else 0.

(** Whether some rule of the list is for recipe [recipeId] and has its
    two thresholds reached in [gs]. *)
Definition ruleMet (rules : list (string * (Z * Q))) (gs : GameState)
    (recipeId : string) : bool :=
  existsb
    (fun entry =>
       String.eqb entry.1 recipeId
       && (entry.2.1 <=? totalBaked gs)%Z
       && JsMath.geb (money gs) entry.2.2)
    rules.

(** What a pass over the rules makes of a recipe. *)
Definition autoUnlocked (rules : list (string * (Z * Q))) (gs : GameState)
    (recipeId : string) (recipe : Recipe) : Recipe :=
  if negb (unlocked recipe) && ruleMet rules gs recipeId
  then set_unlocked true recipe
  else recipe.

(** [n] calls of [Recipes.bakeRecipe] on one recipe. *)
Definition bakeRecipeTimes (n : nat) (recipeId : string) (gs : GameState)
    : GameState :=
  Nat.iter n (fun gs => (Recipes.bakeRecipe recipeId gs).2) gs.


(** The part of a duration text for [n] units [unit]: none when [n] is
    not positive. *)
Definition shown (n : Z) (unit : string) : list string :=
  if (0 <? n)%Z then [pretty n +:+ unit] else [].

(** The loop of [checkRecipeUnlocks] over a list of rules. *)
Definition checkRules (rules : list (string * (Z * Q))) : M unit :=
  foldr (fun entry rest => run BakeryGame.checkRule entry; rest) (ret tt) rules.

(** * Properties *)

(** ** Numbers and comparisons *)

Lemma ltb_true (a b : Q) : JsMath.ltb a b = true <-> a < b.
Proof.
  unfold JsMath.ltb. rewrite negb_true_iff, <- not_true_iff_false, Qle_bool_iff.
  split; [apply Qnot_le_lt | apply Qlt_not_le].
Qed.

Lemma ltb_false (a b : Q) : JsMath.ltb a b = false <-> b <= a.
Proof. unfold JsMath.ltb. by rewrite negb_false_iff, Qle_bool_iff. Qed.

Lemma gtb_false (a b : Q) : JsMath.gtb a b = false <-> a <= b.
Proof. apply ltb_false. Qed.

Lemma geb_true (a b : Q) : JsMath.geb a b = true <-> b <= a.
Proof. apply Qle_bool_iff. Qed.

Lemma leb_false (a b : Q) : JsMath.leb a b = false <-> b < a.
Proof.
  unfold JsMath.leb. rewrite <- not_true_iff_false, Qle_bool_iff.
  split; [apply Qnot_le_lt | apply Qlt_not_le].
Qed.

Lemma ofN_nonneg (n : N) : 0 <= JsMath.ofN n.
Proof.
  unfold JsMath.ofN. change 0 with (inject_Z 0).
  rewrite <- Zle_Qle. lia.
Qed.

Lemma ceil_nonneg (x : Q) : 0 <= x -> 0 <= JsMath.ceil x.
Proof.
  intros Hx. unfold JsMath.ceil. pose proof (Qle_ceiling x). lra.
Qed.

Lemma pow_nonneg (x : Q) (n : N) : 0 <= x -> 0 <= JsMath.pow x n.
Proof. intros Hx. by apply Qpower_0_le. Qed.

Lemma floor_nonneg (x : Q) : 0 <= x -> 0 <= JsMath.floor x.
Proof.
  intros Hx. unfold JsMath.floor. change 0 with (inject_Z 0).
  rewrite <- Zle_Qle. change 0%Z with (Qfloor 0). by apply Qfloor_resp_le.
Qed.

Lemma geb_grows (x : Q) :
  JsMath.geb x 1000 = true -> JsMath.geb (x + 50) 1000 = true.
Proof. rewrite !geb_true. lra. Qed.

(** ** Doubles *)

Lemma pow2_pos (z : Z) : 0 < 2 ^ z.
Proof. by apply Qpower_0_lt. Qed.

Lemma pow2_Z (z : Z) : (0 <= z)%Z -> inject_Z (2 ^ z) == 2 ^ z.
Proof. intros Hz. by rewrite Zpower_Qpower. Qed.

Lemma pow2_minus (n m : Z) : 2 ^ (n - m) == 2 ^ n / 2 ^ m.
Proof. rewrite Qpower_minus by discriminate. reflexivity. Qed.

Lemma pow2_succ (n : Z) : 2 ^ (n + 1) == 2 ^ n * 2.
Proof. rewrite Qpower_plus by discriminate. reflexivity. Qed.

Lemma frac_bounds (a : Q) :
  0 < a ->
  let L := Z.log2 (Qnum a) in
  let M := Z.log2 (Zpos (Qden a)) in
  2 ^ (L - M - 1) <= a /\ a < 2 ^ (L - M + 1).
Proof.
  intros Ha L M. destruct a as [n d]. cbn [Qnum Qden] in *.
  assert (Hn : (0 < n)%Z) by (unfold Qlt in Ha; cbn in Ha; lia).
  destruct (Z.log2_spec n Hn) as [Hn1 Hn2]. fold L in Hn1, Hn2.
  destruct (Z.log2_spec (Zpos d) ltac:(lia)) as [Hd1 Hd2]. fold M in Hd1, Hd2.
  assert (HL : (0 <= L)%Z) by apply Z.log2_nonneg.
  assert (HM : (0 <= M)%Z) by apply Z.log2_nonneg.
  rewrite Z.pow_succ_r in Hn2, Hd2 by assumption.
  rewrite Zle_Qle in Hn1, Hd1. rewrite Zlt_Qlt in Hn2, Hd2.
  rewrite inject_Z_mult in Hn2, Hd2.
  rewrite (pow2_Z L HL) in Hn1, Hn2. rewrite (pow2_Z M HM) in Hd1, Hd2.
  assert (Hq : n # d == inject_Z n / inject_Z (Zpos d)) by apply Qmake_Qdiv.
  pose proof (pow2_pos L) as PL. pose proof (pow2_pos M) as PM.
  assert (Hdpos : 0 < inject_Z (Z.pos d)) by (rewrite <- (Zlt_Qlt 0); lia).
  replace (L - M - 1)%Z with (L - (M + 1))%Z by lia.
  replace (L - M + 1)%Z with (L + 1 - M)%Z by lia.
  rewrite !pow2_minus, !pow2_succ, Hq.
  change (inject_Z 2) with 2 in *.
  revert Hn1 Hn2 Hd1 Hd2 PL PM Hdpos.
  generalize (inject_Z n), (inject_Z (Z.pos d)), (2 ^ L), (2 ^ M).
  intros x y pl pm Hn1 Hn2 Hd1 Hd2 PL PM Hy. split.
  - apply Qle_shift_div_l; [exact Hy |].
    assert (E : pl / (pm * 2) * y == pl * y / (pm * 2)) by (field; lra).
    rewrite E.
    apply Qle_shift_div_r; [lra |]. nra.
  - apply Qlt_shift_div_r; [exact Hy |].
    assert (E : pl * 2 / pm * y == pl * 2 * y / pm) by (field; lra).
    rewrite E.
    apply Qlt_shift_div_l; [exact PM |]. nra.
Qed.

Lemma binade_spec (a : Q) :
  0 < a -> 2 ^ JsMath.binade a <= a /\ a < 2 ^ (JsMath.binade a + 1).
Proof.
  intros Ha. destruct (frac_bounds a Ha) as [Hlow Hhigh].
  unfold JsMath.binade.
  destruct (Qle_bool _ a) eqn:Hcmp.
  - apply Qle_bool_iff in Hcmp. by split.
  - split; [exact Hlow |].
    replace (_ - 1 + 1)%Z with (Z.log2 (Qnum a) - Z.log2 (Z.pos (Qden a)))%Z by lia.
    apply Qnot_le_lt. intros Hle. apply Qle_bool_iff in Hle. congruence.
Qed.

Lemma roundEven_bounds (x : Q) :
  (Qfloor x <= JsMath.roundEven x <= Qfloor x + 1)%Z.
Proof.
  unfold JsMath.roundEven.
  destruct (Qcompare _ _); [destruct (Z.even _) | |]; lia.
Qed.

Lemma roundEven_mono (x y : Q) :
  x <= y -> (JsMath.roundEven x <= JsMath.roundEven y)%Z.
Proof.
  intros Hxy. pose proof (Qfloor_resp_le x y Hxy) as Hf.
  destruct (Z.eq_dec (Qfloor x) (Qfloor y)) as [Heq | Hne].
  - unfold JsMath.roundEven. rewrite <- Heq.
    destruct (Qcompare_spec (x - inject_Z (Qfloor x)) (1 # 2)) as [Hx | Hx | Hx];
      destruct (Qcompare_spec (y - inject_Z (Qfloor x)) (1 # 2)) as [Hy | Hy | Hy];
      try destruct (Z.even _); try lia; exfalso; lra.
  - pose proof (roundEven_bounds x). pose proof (roundEven_bounds y). lia.
Qed.

Lemma roundEven_ge (x : Q) (n : Z) :
  inject_Z n <= x -> (n <= JsMath.roundEven x)%Z.
Proof.
  intros Hx. pose proof (roundEven_bounds x) as [Hlow _].
  apply Qfloor_resp_le in Hx. rewrite Qfloor_Z in Hx. lia.
Qed.

Lemma roundEven_le (x : Q) (n : Z) :
  x <= inject_Z n -> (JsMath.roundEven x <= n)%Z.
Proof.
  intros Hx. pose proof (roundEven_mono x (inject_Z n) Hx) as Hm.
  assert (Hn : JsMath.roundEven (inject_Z n) = n); [| lia].
  unfold JsMath.roundEven. rewrite Qfloor_Z.
  destruct (Qcompare_spec (inject_Z n - inject_Z n) (1 # 2)) as [H | H | H];
    try reflexivity; exfalso; lra.
Qed.

Lemma scaled_bounds (a : Q) :
  0 < a ->
  2 ^ 52 <= a / 2 ^ (JsMath.binade a - 52) /\
  a / 2 ^ (JsMath.binade a - 52) <= 2 ^ 53.
Proof.
  intros Ha. destruct (binade_spec a Ha) as [Hlow Hhigh].
  pose proof (pow2_pos (JsMath.binade a - 52)) as He.
  assert (E1 : 2 ^ JsMath.binade a == 2 ^ 52 * 2 ^ (JsMath.binade a - 52)).
  { rewrite <- Qpower_plus by discriminate. f_equiv. lia. }
  assert (E2 : 2 ^ (JsMath.binade a + 1) == 2 ^ 53 * 2 ^ (JsMath.binade a - 52)).
  { rewrite <- Qpower_plus by discriminate. f_equiv. lia. }
  split.
  - apply Qle_shift_div_l; [exact He |]. by rewrite <- E1.
  - apply Qle_shift_div_r; [exact He |]. rewrite <- E2. by apply Qlt_le_weak.
Qed.

Lemma roundAt_bounds (a : Q) :
  0 < a -> 2 ^ JsMath.binade a <= JsMath.roundAt a <= 2 ^ (JsMath.binade a + 1).
Proof.
  intros Ha. destruct (scaled_bounds a Ha) as [Hlow Hhigh].
  pose proof (pow2_pos (JsMath.binade a - 52)) as He.
  assert (E1 : 2 ^ JsMath.binade a == 2 ^ 52 * 2 ^ (JsMath.binade a - 52)).
  { rewrite <- Qpower_plus by discriminate. f_equiv. lia. }
  assert (E2 : 2 ^ (JsMath.binade a + 1) == 2 ^ 53 * 2 ^ (JsMath.binade a - 52)).
  { rewrite <- Qpower_plus by discriminate. f_equiv. lia. }
  unfold JsMath.roundAt. rewrite E1, E2. split.
  - apply Qmult_le_compat_r; [| by apply Qlt_le_weak].
    change (2 ^ 52) with (inject_Z (2 ^ 52)). rewrite <- Zle_Qle.
    by apply roundEven_ge.
  - apply Qmult_le_compat_r; [| by apply Qlt_le_weak].
    change (2 ^ 53) with (inject_Z (2 ^ 53)). rewrite <- Zle_Qle.
    by apply roundEven_le.
Qed.

Lemma pow2_mono (n m : Z) : (n <= m)%Z -> 2 ^ n <= 2 ^ m.
Proof.
  intros Hnm. replace m with (n + (m - n))%Z by lia.
  rewrite Qpower_plus by discriminate.
  assert (1 <= 2 ^ (m - n)).
  { destruct (m - n)%Z eqn:E; try lia; [apply Qle_refl |].
    rewrite <- E. rewrite <- pow2_Z by lia. change 1 with (inject_Z 1).
    rewrite <- Zle_Qle. apply (Z.pow_le_mono_r 2 0); lia. }
  pose proof (pow2_pos n). nra.
Qed.

Lemma roundAt_mono (a b : Q) : 0 < a -> a <= b -> JsMath.roundAt a <= JsMath.roundAt b.
Proof.
  intros Ha Hab. assert (Hb : 0 < b) by lra.
  destruct (binade_spec a Ha) as [La Ua]. destruct (binade_spec b Hb) as [Lb Ub].
  destruct (Z_lt_le_dec (JsMath.binade a) (JsMath.binade b)) as [Hlt | Hge].
  - destruct (roundAt_bounds a Ha) as [_ H1]. destruct (roundAt_bounds b Hb) as [H2 _].
    pose proof (pow2_mono (JsMath.binade a + 1) (JsMath.binade b) ltac:(lia)). lra.
  - assert (Heq : JsMath.binade a = JsMath.binade b).
    { destruct (Z_lt_le_dec (JsMath.binade b) (JsMath.binade a)) as [Hlt | Hle]; [| lia].
      pose proof (pow2_mono (JsMath.binade b + 1) (JsMath.binade a) ltac:(lia)). lra. }
    unfold JsMath.roundAt. rewrite Heq.
    pose proof (pow2_pos (JsMath.binade b - 52)) as He.
    apply Qmult_le_compat_r; [| by apply Qlt_le_weak].
    rewrite <- Zle_Qle. apply roundEven_mono.
    apply Qmult_le_compat_r; [exact Hab |]. apply Qlt_le_weak. by apply Qinv_lt_0_compat.
Qed.

Lemma double_of_pos (x : Q) : 0 < x -> JsMath.double x = JsMath.roundAt (Qred x).
Proof.
  intros Hx. unfold JsMath.double.
  assert (Hred : 0 < Qred x) by (by rewrite Qred_correct).
  assert (Habs : Qabs (Qred x) = Qred x).
  { destruct (Qred x) as [[|p|p] d]; try reflexivity; by exfalso. }
  rewrite Habs, (proj2 (Qle_bool_iff 0 (Qred x)) (Qlt_le_weak _ _ Hred)).
  destruct (Qred x) as [[|p|p] d]; try reflexivity; by exfalso.
Qed.

Lemma double_of_neg (x : Q) : x < 0 -> JsMath.double x = - JsMath.roundAt (- Qred x).
Proof.
  intros Hx. unfold JsMath.double.
  assert (Hred : Qred x < 0) by (by rewrite Qred_correct).
  assert (Habs : Qabs (Qred x) = - Qred x).
  { destruct (Qred x) as [[|p|p] d]; try reflexivity; by exfalso. }
  assert (Hb : Qle_bool 0 (Qred x) = false).
  { destruct (Qle_bool 0 (Qred x)) eqn:E; [| reflexivity].
    apply Qle_bool_iff in E. exfalso. lra. }
  rewrite Habs, Hb.
  destruct (Qred x) as [[|p|p] d]; try reflexivity; by exfalso.
Qed.

Lemma double_of_zero (x : Q) : x == 0 -> JsMath.double x = 0.
Proof.
  intros Hx. unfold JsMath.double.
  assert (Hred : Qred x == 0) by (by rewrite Qred_correct).
  destruct (Qred x) as [[|p|p] d]; try reflexivity; by exfalso.
Qed.

Lemma roundAt_pos (a : Q) : 0 < a -> 0 < JsMath.roundAt a.
Proof.
  intros Ha. destruct (roundAt_bounds a Ha) as [Hlow _].
  pose proof (pow2_pos (JsMath.binade a)). lra.
Qed.

Lemma double_pos (x : Q) : 0 < x -> 0 < JsMath.double x.
Proof.
  intros Hx. rewrite (double_of_pos x Hx). apply roundAt_pos. by rewrite Qred_correct.
Qed.

Lemma double_neg (x : Q) : x < 0 -> JsMath.double x < 0.
Proof.
  intros Hx. rewrite (double_of_neg x Hx).
  assert (0 < JsMath.roundAt (- Qred x)); [| lra].
  apply roundAt_pos. rewrite Qred_correct. lra.
Qed.

Lemma double_nonneg (x : Q) : 0 <= x -> 0 <= JsMath.double x.
Proof.
  intros Hx. destruct (Qlt_le_dec 0 x) as [Hpos | Hle].
  - apply Qlt_le_weak. by apply double_pos.
  - rewrite (double_of_zero x) by lra. apply Qle_refl.
Qed.

Lemma double_nonpos (x : Q) : x <= 0 -> JsMath.double x <= 0.
Proof.
  intros Hx. destruct (Qlt_le_dec x 0) as [Hneg | Hle].
  - apply Qlt_le_weak. by apply double_neg.
  - rewrite (double_of_zero x) by lra. apply Qle_refl.
Qed.

Lemma double_mono (x y : Q) : x <= y -> JsMath.double x <= JsMath.double y.
Proof.
  intros Hxy.
  destruct (Qlt_le_dec 0 x) as [Hx | Hx].
  - rewrite (double_of_pos x Hx), (double_of_pos y) by lra.
    apply roundAt_mono; rewrite !Qred_correct; assumption.
  - destruct (Qlt_le_dec x 0) as [Hx' | Hx'].
    + destruct (Qlt_le_dec y 0) as [Hy | Hy].
      * rewrite (double_of_neg x Hx'), (double_of_neg y Hy).
        apply Qopp_le_compat.
        apply roundAt_mono; rewrite !Qred_correct; lra.
      * pose proof (double_neg x Hx'). pose proof (double_nonneg y Hy). lra.
    + rewrite (double_of_zero x) by lra. apply double_nonneg. lra.
Qed.

Lemma roundEven_whole (y : Q) (k : Z) : y == inject_Z k -> JsMath.roundEven y = k.
Proof.
  intros Hy. unfold JsMath.roundEven.
  assert (Hf : Qfloor y = k) by (rewrite Hy; apply Qfloor_Z).
  rewrite Hf.
  destruct (Qcompare_spec (y - inject_Z k) (1 # 2)) as [H | H | H];
    try reflexivity; exfalso; lra.
Qed.

Lemma roundAt_whole (a : Q) (z : Z) :
  a == inject_Z z -> (0 < z <= 2 ^ 53)%Z -> JsMath.roundAt a == inject_Z z.
Proof.
  intros Ha [Hpos Hle].
  assert (Hapos : 0 < a) by (rewrite Ha, <- (Zlt_Qlt 0); exact Hpos).
  destruct (binade_spec a Hapos) as [Hlow Hhigh].
  assert (Hb : (JsMath.binade a <= 53)%Z).
  { destruct (Z_lt_le_dec 53 (JsMath.binade a)) as [Hbig | Hok]; [| exact Hok].
    pose proof (pow2_mono 54 (JsMath.binade a) ltac:(lia)) as Hmono.
    assert (Hz : a <= 2 ^ 53).
    { rewrite Ha. change (2 ^ 53) with (inject_Z (2 ^ 53)). by rewrite <- Zle_Qle. }
    assert (2 ^ 53 < 2 ^ 54) by reflexivity. lra. }
  unfold JsMath.roundAt.
  destruct (Z_le_gt_dec (JsMath.binade a) 52) as [Hsmall | Hbig].
  - set (e := (52 - JsMath.binade a)%Z).
    assert (He : (0 <= e)%Z) by lia.
    assert (Hinv : 2 ^ (JsMath.binade a - 52) == / inject_Z (2 ^ e)).
    { rewrite pow2_Z by exact He. rewrite <- Qpower_opp. f_equiv. lia. }
    assert (Hne : ~ inject_Z (2 ^ e) == 0).
    { rewrite pow2_Z by exact He. pose proof (pow2_pos e). lra. }
    rewrite (roundEven_whole _ (z * 2 ^ e)).
    + rewrite Hinv, inject_Z_mult. field. exact Hne.
    + rewrite Hinv, inject_Z_mult, Ha. field. exact Hne.
  - assert (Hb53 : JsMath.binade a = 53%Z) by lia.
    rewrite Hb53 in *. change (53 - 52)%Z with 1%Z.
    assert (Hz : z = (2 ^ 53)%Z).
    { apply Z.le_antisymm; [exact Hle |].
      rewrite Zle_Qle. rewrite <- Ha. exact Hlow. }
    rewrite (roundEven_whole _ (2 ^ 52)).
    + rewrite Hz. reflexivity.
    + rewrite Ha, Hz. reflexivity.
Qed.

Lemma double_whole (x : Q) (z : Z) :
  x == inject_Z z -> (Z.abs z <= 2 ^ 53)%Z -> JsMath.double x == inject_Z z.
Proof.
  intros Hx Hz.
  destruct (Z.lt_trichotomy z 0) as [Hneg | [-> | Hpos]].
  - assert (Hx' : x < 0) by (rewrite Hx, <- (Zlt_Qlt _ 0); exact Hneg).
    rewrite (double_of_neg x Hx').
    rewrite (roundAt_whole _ (- z)); [rewrite inject_Z_opp; ring | | lia].
    rewrite Qred_correct, Hx, inject_Z_opp. reflexivity.
  - by rewrite (double_of_zero x Hx).
  - assert (Hx' : 0 < x) by (rewrite Hx, <- (Zlt_Qlt 0); exact Hpos).
    rewrite (double_of_pos x Hx').
    apply roundAt_whole; [by rewrite Qred_correct | lia].
Qed.

Lemma double_proper (x y : Q) : x == y -> JsMath.double x = JsMath.double y.
Proof. intros Hxy. unfold JsMath.double. by rewrite (Qred_complete x y Hxy). Qed.

Lemma add_nonneg (x y : Q) : 0 <= x -> 0 <= y -> 0 <= JsMath.add x y.
Proof. intros Hx Hy. apply double_nonneg. lra. Qed.

Lemma mul_nonneg (x y : Q) : 0 <= x -> 0 <= y -> 0 <= JsMath.mul x y.
Proof. intros Hx Hy. apply double_nonneg. by apply Qmult_le_0_compat. Qed.

Lemma div_nonneg (x y : Q) : 0 <= x -> 0 < y -> 0 <= JsMath.div x y.
Proof.
  intros Hx Hy. apply double_nonneg.
  apply Qle_shift_div_l; [exact Hy | lra].
Qed.

Lemma mul_zero_l (x y : Q) : x == 0 -> JsMath.mul x y = 0.
Proof.
  intros Hx. unfold JsMath.mul.
  rewrite (double_proper (x * y) 0) by (rewrite Hx; ring). reflexivity.
Qed.

Lemma tenthOf_nonneg (r : Recipe) : 0 <= currentProduction r -> 0 <= tenthOf r.
Proof.
  intros Hcp. unfold tenthOf.
  apply mul_nonneg; [apply mul_nonneg; [exact Hcp | apply ofN_nonneg] |].
  by apply double_nonneg.
Qed.

(** ** The order of the recipes *)

Lemma forInKeys_dom (rs1 rs2 : gmap string Recipe) :
  (forall id : string, is_Some (rs1 !! id) <-> is_Some (rs2 !! id)) ->
  forInKeys rs1 = forInKeys rs2.
Proof.
  intros Hdom. unfold forInKeys. f_equal.
  - apply filter_ext. intros id. apply bool_decide_ext, Hdom.
  - f_equal.
    assert (Hunit : (fun _ : Recipe => tt) <$> rs1 = (fun _ : Recipe => tt) <$> rs2).
    { apply map_eq. intros id. rewrite !lookup_fmap. specialize (Hdom id).
      destruct (rs1 !! id), (rs2 !! id); try reflexivity;
        exfalso; destruct Hdom as [H1 H2];
        [destruct (H1 ltac:(by eexists)) | destruct (H2 ltac:(by eexists))];
        discriminate. }
    apply (f_equal (fun m => (map_to_list m).*1)) in Hunit.
    rewrite !map_to_list_fmap, <- !list_fmap_compose in Hunit.
    exact Hunit.
Qed.

Lemma forInRecipes_elem (rs : gmap string Recipe) (r : Recipe) :
  In r (forInRecipes rs) -> exists id : string, rs !! id = Some r.
Proof.
  unfold forInRecipes. rewrite <- list_elem_of_In, list_elem_of_omap.
  intros (id & _ & Hr). by exists id.
Qed.

Lemma forInRecipes_related (P : Recipe -> Recipe -> Prop)
    (rs1 rs2 : gmap string Recipe) :
  (forall id : string, option_Forall2 P (rs1 !! id) (rs2 !! id)) ->
  Forall2 P (forInRecipes rs1) (forInRecipes rs2).
Proof.
  intros Hrel. unfold forInRecipes.
  rewrite (forInKeys_dom rs1 rs2).
  - induction (forInKeys rs2) as [|id ids IH]; [constructor |].
    cbn [omap list_omap]. specialize (Hrel id).
    destruct Hrel; [by constructor | exact IH].
  - intros id. specialize (Hrel id).
    destruct Hrel; split; intros [? ?]; by try eexists.
Qed.

Lemma addRecipeIncome_related (start : Q) (rs1 rs2 : gmap string Recipe) :
  (forall id : string,
     option_Forall2
       (fun r1 r2 => leveled r1 = leveled r2 /\ tenthOf r1 = tenthOf r2)
       (rs1 !! id) (rs2 !! id)) ->
  addRecipeIncome start rs1 = addRecipeIncome start rs2.
Proof.
  intros Hrel. unfold addRecipeIncome.
  pose proof (forInRecipes_related _ rs1 rs2 Hrel) as Hlist.
  revert start. induction Hlist as [|r1 r2 l1 l2 [Hlev Hten] _ IH]; intros start;
    [reflexivity |].
  cbn [foldl]. fold (leveled r1). fold (leveled r2).
  fold (tenthOf r1). fold (tenthOf r2). rewrite Hlev, Hten. apply IH.
Qed.

Lemma addRecipeIncome_sum (start : Q) (rs : gmap string Recipe) :
  addRecipeIncome start rs
  = foldl JsMath.add start (tenthOf <$> List.filter leveled (forInRecipes rs)).
Proof.
  unfold addRecipeIncome. revert start.
  induction (forInRecipes rs) as [|r l IH]; intros start; [reflexivity |].
  cbn [foldl List.filter]. fold (leveled r). fold (tenthOf r).
  destruct (leveled r); [cbn [fmap list_fmap foldl] |]; apply IH.
Qed.

Lemma addRecipeIncome_nonneg (start : Q) (rs : gmap string Recipe) :
  0 <= start ->
  map_Forall (fun _ r => 0 <= baseProduction r /\ 0 <= currentProduction r) rs ->
  0 <= addRecipeIncome start rs.
Proof.
  intros Hstart Hall. unfold addRecipeIncome.
  assert (Hlist : Forall (fun r => 0 <= currentProduction r) (forInRecipes rs)).
  { apply List.Forall_forall. intros r Hin.
    destruct (forInRecipes_elem rs r Hin) as [id Hr]. by destruct (Hall id r Hr). }
  revert start Hstart. induction Hlist as [|r l Hcp _ IH]; intros start Hstart;
    [exact Hstart |].
  cbn [foldl]. apply IH. fold (tenthOf r).
  destruct (unlocked r && (0 <? r_level r)%N); [| exact Hstart].
  apply add_nonneg; [exact Hstart | by apply tenthOf_nonneg].
Qed.

Lemma addRecipeIncome_idle (start : Q) (rs : gmap string Recipe) :
  map_Forall (fun _ r => leveled r = false) rs ->
  addRecipeIncome start rs = start.
Proof.
  intros Hall. unfold addRecipeIncome.
  assert (Hlist : Forall (fun r => leveled r = false) (forInRecipes rs)).
  { apply List.Forall_forall. intros r Hin.
    destruct (forInRecipes_elem rs r Hin) as [id Hr]. exact (Hall id r Hr). }
  revert start. induction Hlist as [|r l Hr _ IH]; intros start; [reflexivity |].
  cbn [foldl]. fold (leveled r). rewrite Hr. apply IH.
Qed.

Lemma incomeRate_code (gs : GameState) :
  JsMath.add (JsMath.ofN (autoBakers gs) * 5) (addRecipeIncome 0 (recipes gs))
  = incomeRate gs.
Proof. unfold incomeRate, recipeIncomeSum. by rewrite addRecipeIncome_sum. Qed.

(** ** Baking *)

Lemma bakeTarget_cookie (gs : GameState) : bakeTarget (Some "cookie") gs = "cookie".
Proof. unfold bakeTarget. by destruct (recipes gs !! "cookie"). Qed.

Lemma bakeTarget_present (gs : GameState) (recipeId : string) (r : Recipe) :
  recipes gs !! recipeId = Some r -> bakeTarget (Some recipeId) gs = recipeId.
Proof. intros Hr. unfold bakeTarget. by rewrite Hr. Qed.

Lemma bakeTarget_missing (gs : GameState) (recipeId : string) :
  recipes gs !! recipeId = None -> bakeTarget (Some recipeId) gs = "cookie".
Proof. intros Hr. unfold bakeTarget. by rewrite Hr. Qed.

Lemma bake_falsy_is_cookie (gs : GameState) : bake None gs = bake (Some "cookie") gs.
Proof. unfold bake. by rewrite bakeTarget_cookie. Qed.

(** C1, amended.  [Recipes.bakeRecipe] returns false and leaves the whole
    state as it was when the recipe id names no recipe or names a locked
    recipe.  [GameState.bake] returns false and leaves the whole state as
    it was when it is handed a locked recipe; handed no recipe (or a
    reference that denotes none) it does not fail but bakes the cookie
    recipe instead. *)
Theorem bake_locked_or_absent (gs : GameState) :
  (forall recipeId : string,
      recipes gs !! recipeId = None
      \/ (exists r, recipes gs !! recipeId = Some r /\ unlocked r = false) ->
      Recipes.bakeRecipe recipeId gs = (false, gs))
  /\ (forall (recipeId : string) (r : Recipe),
        recipes gs !! recipeId = Some r -> unlocked r = false ->
        bake (Some recipeId) gs = Returns false gs)
  /\ bake None gs = bake (Some "cookie") gs
  /\ (forall recipeId : string,
        recipes gs !! recipeId = None ->
        bake (Some recipeId) gs = bake (Some "cookie") gs).
Proof.
  split; [| split; [| split]].
  - intros recipeId [Hnone | (r & Hr & Hlocked)]; unfold Recipes.bakeRecipe.
    + by rewrite Hnone.
    + by rewrite Hr, Hlocked.
  - intros recipeId r Hr Hlocked. unfold bake.
    by rewrite (bakeTarget_present gs recipeId r Hr), Hr, Hlocked.
  - apply bake_falsy_is_cookie.
  - intros recipeId Hnone. rewrite <- bake_falsy_is_cookie.
    unfold bake. by rewrite (bakeTarget_missing gs recipeId Hnone).
Qed.

Lemma bake_locked_or_absent_witness :
  let gs := fresh 0 in
  (recipes gs !! "cake" = None
   \/ (exists r, recipes gs !! "cake" = Some r /\ unlocked r = false))
  /\ Recipes.bakeRecipe "cake" gs = (false, gs)
  /\ recipes gs !! "pie" = None
  /\ bake (Some "pie") gs = bake (Some "cookie") gs.
Proof.
  intros gs.
  assert (Hcake : recipes gs !! "cake" = None
            \/ (exists r, recipes gs !! "cake" = Some r /\ unlocked r = false)).
  { right. eexists. split; [vm_compute; reflexivity | reflexivity]. }
  assert (Hpie : recipes gs !! "pie" = None) by (vm_compute; reflexivity).
  split; [exact Hcake |].
  split; [exact (proj1 (bake_locked_or_absent gs) "cake" Hcake) |].
  split; [exact Hpie |].
  exact (proj2 (proj2 (proj2 (bake_locked_or_absent gs))) "pie" Hpie).
Defined.

(** C1 as stated fails for [GameState.bake]: on a fresh model a bake with
    no recipe returns true and credits the cookie and the first-bake
    bonus. *)
Lemma bake_absent_succeeds :
  exists gs' : GameState,
    bake None (fresh 0) = Returns true gs'
    /\ money (fresh 0) == 10 /\ money gs' == 61
    /\ totalBaked (fresh 0) = 0%Z /\ totalBaked gs' = 1%Z
    /\ bake None (fresh 0) <> Returns false (fresh 0).
Proof.
  exists (state_after (bake None (fresh 0))).
  split; [vm_compute; reflexivity |].
  do 4 (split; [vm_compute; reflexivity |]).
  vm_compute. discriminate.
Qed.

(** C10.  A successful [Recipes.bakeRecipe] credits the recipe's
    production and nothing else: the milestones are exactly as before, so
    no flag is set and no bonus of 50 is paid, also when the bake reaches
    a threshold.  On a fresh model it takes [totalBaked] to 1 and leaves
    [firstBake] open with 11 in the till, where [GameState.bake]
    completes [firstBake] and leaves 61. *)
Theorem bakeRecipe_skips_milestones :
  (forall (gs gs' : GameState) (recipeId : string),
      Recipes.bakeRecipe recipeId gs = (true, gs') ->
      milestones gs' = milestones gs
      /\ exists r : Recipe,
          recipes gs !! recipeId = Some r
          /\ money gs' = money gs + currentProduction r
          /\ totalMoneyEarned gs' = totalMoneyEarned gs + currentProduction r
          /\ totalBaked gs' = (totalBaked gs + 1)%Z)
  /\ (forall now : Z,
        exists gs1 gs2 : GameState,
          Recipes.bakeRecipe "cookie" (fresh now) = (true, gs1)
          /\ bake (Some "cookie") (fresh now) = Returns true gs2
          /\ totalBaked gs1 = 1%Z /\ totalBaked gs2 = 1%Z
          /\ isCompleted "firstBake" gs1 = false /\ money gs1 == 11
          /\ isCompleted "firstBake" gs2 = true /\ money gs2 == 61).
Proof.
  split.
  - intros gs gs' recipeId. unfold Recipes.bakeRecipe.
    destruct (recipes gs !! recipeId) as [r|] eqn:Hr; [| discriminate].
    destruct (unlocked r); cbn [negb]; [| discriminate].
    intros [= <-]. split; [reflexivity |].
    exists r. by cbn.
  - intros now.
    exists (Recipes.bakeRecipe "cookie" (fresh now)).2,
           (state_after (bake (Some "cookie") (fresh now))).
    split; [vm_compute; reflexivity |].
    split; [vm_compute; reflexivity |].
    do 5 (split; [vm_compute; reflexivity |]).
    vm_compute; reflexivity.
Qed.

Lemma bakeRecipe_skips_milestones_witness :
  exists gs' : GameState,
    Recipes.bakeRecipe "cookie" (fresh 0) = (true, gs')
    /\ milestones gs' = milestones (fresh 0)
    /\ totalBaked gs' = (totalBaked (fresh 0) + 1)%Z.
Proof.
  exists (Recipes.bakeRecipe "cookie" (fresh 0)).2.
  assert (H : Recipes.bakeRecipe "cookie" (fresh 0)
              = (true, (Recipes.bakeRecipe "cookie" (fresh 0)).2))
    by (vm_compute; reflexivity).
  split; [exact H |].
  destruct (proj1 bakeRecipe_skips_milestones _ _ _ H) as (Hm & r & _ & _ & _ & Hb).
  split; [exact Hm | exact Hb].
Defined.

(** ** Passive income *)

(** C8, amended.  [hireAutoBaker] does recompute the cached
    [moneyPerSecond] itself: after a successful call, which adds one
    auto-baker and leaves the recipes alone, the field holds the income
    formula evaluated on the new state, whatever it held before, and a
    further [recalculateMoneyPerSecond] by the caller changes nothing. *)
Theorem hireAutoBaker_recomputes_income (gs : GameState) :
  autoBakerCost gs <= money gs ->
  exists gs' : GameState,
    hireAutoBaker gs = (true, gs')
    /\ autoBakers gs' = (autoBakers gs + 1)%N
    /\ recipes gs' = recipes gs
    /\ moneyPerSecond gs'
       = addRecipeIncome (JsMath.ofN (autoBakers gs') * 5) (recipes gs')
    /\ (forall stale : Q,
          moneyPerSecond (hireAutoBaker (set_moneyPerSecond stale gs)).2
          = moneyPerSecond gs')
    /\ recalculateMoneyPerSecond gs' = gs'.
Proof.
  intros Hafford. apply ltb_false in Hafford.
  unfold hireAutoBaker. rewrite Hafford.
  eexists. split; [reflexivity |].
  do 3 (split; [reflexivity |]). split; [| reflexivity].
  intros stale.
  change (money (set_moneyPerSecond stale gs)) with (money gs).
  change (autoBakerCost (set_moneyPerSecond stale gs)) with (autoBakerCost gs).
  rewrite Hafford. reflexivity.
Qed.

Lemma hireAutoBaker_recomputes_income_witness :
  let gs := set_money 50 (fresh 0) in
  autoBakerCost gs <= money gs
  /\ exists gs' : GameState,
      hireAutoBaker gs = (true, gs')
      /\ moneyPerSecond gs' == 5
      /\ recalculateMoneyPerSecond gs' = gs'.
Proof.
  intros gs.
  assert (H : autoBakerCost gs <= money gs) by (vm_compute; discriminate).
  split; [exact H |].
  destruct (hireAutoBaker_recomputes_income gs H)
    as (gs' & Hhire & _ & _ & _ & _ & Hfix).
  exists gs'. split; [exact Hhire |]. split; [| exact Hfix].
  assert (Hgs' : gs' = (hireAutoBaker gs).2) by by rewrite Hhire.
  rewrite Hgs'. vm_compute. reflexivity.
Defined.

(** C8 as stated fails: hiring the first auto-baker with exactly 50 in
    the till moves [moneyPerSecond] from 0 to 5 within the call. *)
Lemma hireAutoBaker_changes_moneyPerSecond :
  let gs := set_money 50 (fresh 0) in
  exists gs' : GameState,
    hireAutoBaker gs = (true, gs')
    /\ autoBakerCost gs <= money gs
    /\ moneyPerSecond gs == 0 /\ moneyPerSecond gs' == 5
    /\ ~ moneyPerSecond gs' == moneyPerSecond gs.
Proof.
  intros gs. exists (hireAutoBaker gs).2.
  split; [vm_compute; reflexivity |].
  split; [vm_compute; discriminate |].
  split; [vm_compute; reflexivity |].
  split; [vm_compute; reflexivity |].
  vm_compute. discriminate.
Qed.

(** ** Milestones *)

Section Threshold.

Variable reached : GameState -> bool.
Variable id : string.
Variable gs : GameState.
Hypothesis present : is_Some (milestones gs !! id).

Lemma checkThreshold_present :
  checkThreshold reached id gs = Returns tt (afterThreshold reached id gs).
Proof using present.
  unfold checkThreshold, afterThreshold, isCompleted.
  destruct present as [m ->].
  by destruct (reached gs), (completed m).
Qed.

Lemma afterThreshold_same :
  isCompleted id (afterThreshold reached id gs)
  = isCompleted id gs || reached gs.
Proof using present.
  unfold afterThreshold, isCompleted, completeMilestone.
  destruct present as [m Hm]. rewrite Hm.
  destruct (reached gs), (completed m) eqn:Hc; cbn; rewrite ?Hm, ?Hc; try done.
  by rewrite lookup_insert_eq.
Qed.

Lemma afterThreshold_other (id' : string) :
  id' <> id ->
  milestones (afterThreshold reached id gs) !! id' = milestones gs !! id'.
Proof using Type.
  clear present. intros Hne. unfold afterThreshold, completeMilestone.
  destruct (reached gs && negb (isCompleted id gs)); [| done].
  destruct (milestones gs !! id); [| done].
  cbn. by rewrite lookup_insert_ne.
Qed.

Lemma afterThreshold_money :
  let gs' := afterThreshold reached id gs in
  let fired := reached gs && negb (isCompleted id gs) in
  money gs' = (if fired then money gs + 50 else money gs)
  /\ totalMoneyEarned gs'
     = (if fired then totalMoneyEarned gs + 50 else totalMoneyEarned gs)
  /\ totalBaked gs' = totalBaked gs.
Proof using present.
  unfold afterThreshold, completeMilestone.
  destruct present as [m Hm]. rewrite Hm.
  by destruct (reached gs && negb (isCompleted id gs)).
Qed.

Lemma afterThreshold_idle :
  reached gs && negb (isCompleted id gs) = false ->
  afterThreshold reached id gs = gs.
Proof using Type.
  clear present. unfold afterThreshold. by intros ->.
Qed.

End Threshold.

Lemma afterThreshold_present (reached : GameState -> bool) (id id' : string)
    (gs : GameState) :
  is_Some (milestones gs !! id') ->
  is_Some (milestones (afterThreshold reached id gs) !! id').
Proof.
  intros Hsome. unfold afterThreshold, completeMilestone.
  destruct (reached gs && negb (isCompleted id gs)); [| done].
  destruct (milestones gs !! id) as [m|] eqn:Hm; [| done].
  cbn. destruct (decide (id = id')) as [<- | Hne].
  - rewrite lookup_insert_eq. by eexists.
  - by rewrite lookup_insert_ne.
Qed.

Lemma afterThreshold_isCompleted_other (reached : GameState -> bool)
    (id id' : string) (gs : GameState) :
  id' <> id ->
  isCompleted id' (afterThreshold reached id gs) = isCompleted id' gs.
Proof.
  intros Hne. unfold isCompleted. by rewrite afterThreshold_other.
Qed.

Lemma checkMilestones_present (gs : GameState) :
  hasThresholdMilestones gs ->
  checkMilestones gs = Returns tt (afterMilestones gs).
Proof.
  intros (H1 & H2 & H3). unfold checkMilestones, bind, afterMilestones.
  rewrite checkThreshold_present by done.
  rewrite checkThreshold_present by by apply afterThreshold_present.
  rewrite checkThreshold_present by by do 2 apply afterThreshold_present.
  reflexivity.
Qed.

Lemma afterMilestones_present (gs : GameState) :
  hasThresholdMilestones gs -> hasThresholdMilestones (afterMilestones gs).
Proof.
  intros (H1 & H2 & H3). unfold afterMilestones.
  repeat split; by do 3 apply afterThreshold_present.
Qed.

Lemma afterMilestones_facts (gs : GameState) :
  hasThresholdMilestones gs ->
  let gs' := afterMilestones gs in
  isCompleted "firstBake" gs'
  = isCompleted "firstBake" gs || firstBakeReached gs'
  /\ isCompleted "hundredBakes" gs'
     = isCompleted "hundredBakes" gs || hundredBakesReached gs'
  /\ isCompleted "thousandDollars" gs'
     = isCompleted "thousandDollars" gs || thousandDollarsReached gs'
  /\ money gs' == money gs + 50 * newlyCompleted gs gs'
  /\ totalMoneyEarned gs' == totalMoneyEarned gs + 50 * newlyCompleted gs gs'
  /\ totalBaked gs' = totalBaked gs.
Proof.
  intros (H1 & H2 & H3) gs'.
  set (gs1 := afterThreshold firstBakeReached "firstBake" gs).
  set (gs2 := afterThreshold hundredBakesReached "hundredBakes" gs1).
  assert (P2 : is_Some (milestones gs1 !! "hundredBakes"))
    by by apply afterThreshold_present.
  assert (P3 : is_Some (milestones gs2 !! "thousandDollars"))
    by by do 2 apply afterThreshold_present.
  destruct (afterThreshold_money firstBakeReached _ gs H1) as (M1 & E1 & B1).
  destruct (afterThreshold_money hundredBakesReached _ gs1 P2) as (M2 & E2 & B2).
  destruct (afterThreshold_money thousandDollarsReached _ gs2 P3) as (M3 & E3 & B3).
  pose proof (afterThreshold_same firstBakeReached _ gs H1) as C1.
  pose proof (afterThreshold_same hundredBakesReached _ gs1 P2) as C2.
  pose proof (afterThreshold_same thousandDollarsReached _ gs2 P3) as C3.
  fold gs1 in M1, E1, B1, C1. fold gs2 in M2, E2, B2, C2.
  change (afterThreshold thousandDollarsReached "thousandDollars" gs2)
    with gs' in M3, E3, B3, C3.
  assert (F1 : isCompleted "firstBake" gs' = isCompleted "firstBake" gs1).
  { subst gs' gs2. unfold afterMilestones. fold gs1.
    by rewrite !afterThreshold_isCompleted_other. }
  assert (F2 : isCompleted "hundredBakes" gs' = isCompleted "hundredBakes" gs2).
  { subst gs'. unfold afterMilestones. fold gs1 gs2.
    by rewrite afterThreshold_isCompleted_other. }
  assert (G2 : isCompleted "hundredBakes" gs1 = isCompleted "hundredBakes" gs).
  { subst gs1. by rewrite afterThreshold_isCompleted_other. }
  assert (G3 : isCompleted "thousandDollars" gs2 = isCompleted "thousandDollars" gs).
  { subst gs2 gs1. by rewrite !afterThreshold_isCompleted_other. }
  assert (R1 : firstBakeReached gs' = firstBakeReached gs).
  { unfold firstBakeReached. by rewrite B3, B2, B1. }
  assert (R2 : hundredBakesReached gs' = hundredBakesReached gs).
  { unfold hundredBakesReached. by rewrite B3, B2, B1. }
  assert (R2' : hundredBakesReached gs1 = hundredBakesReached gs).
  { unfold hundredBakesReached. by rewrite B1. }
  assert (R3 : isCompleted "thousandDollars" gs || thousandDollarsReached gs'
               = isCompleted "thousandDollars" gs || thousandDollarsReached gs2).
  { unfold thousandDollarsReached at 1. rewrite E3, G3.
    destruct (isCompleted "thousandDollars" gs); [done |]. cbn.
    rewrite andb_true_r.
    destruct (thousandDollarsReached gs2) eqn:Hr; [| exact Hr].
    by apply geb_grows. }
  split; [by rewrite F1, C1, R1 |].
  split; [by rewrite F2, C2, G2, R2, R2' |].
  split; [by rewrite C3, G3, R3 |].
  assert (Hcount :
    newlyCompleted gs gs'
    == (if firstBakeReached gs && negb (isCompleted "firstBake" gs) then 1 else 0)
       + (if hundredBakesReached gs1 && negb (isCompleted "hundredBakes" gs1)
          then 1 else 0)
       + (if thousandDollarsReached gs2 && negb (isCompleted "thousandDollars" gs2)
          then 1 else 0)).
  { unfold newlyCompleted, opened.
    rewrite F1, C1, F2, C2, C3, G2, G3.
    destruct (isCompleted "firstBake" gs), (firstBakeReached gs),
      (isCompleted "hundredBakes" gs), (hundredBakesReached gs1),
      (isCompleted "thousandDollars" gs), (thousandDollarsReached gs2);
      reflexivity. }
  split; [| split; [| by rewrite B3, B2, B1]].
  - rewrite Hcount, M3, M2, M1.
    destruct (firstBakeReached gs && _), (hundredBakesReached gs1 && _),
      (thousandDollarsReached gs2 && _); ring.
  - rewrite Hcount, E3, E2, E1.
    destruct (firstBakeReached gs && _), (hundredBakesReached gs1 && _),
      (thousandDollarsReached gs2 && _); ring.
Qed.

Lemma afterMilestones_idempotent (gs : GameState) :
  hasThresholdMilestones gs ->
  afterMilestones (afterMilestones gs) = afterMilestones gs.
Proof.
  intros Hgs.
  destruct (afterMilestones_facts gs Hgs) as (C1 & C2 & C3 & _).
  unfold afterMilestones at 1.
  rewrite (afterThreshold_idle firstBakeReached "firstBake").
  2: { rewrite C1. by destruct (isCompleted "firstBake" gs), (firstBakeReached _). }
  rewrite (afterThreshold_idle hundredBakesReached "hundredBakes").
  2: { rewrite C2.
       by destruct (isCompleted "hundredBakes" gs), (hundredBakesReached _). }
  rewrite (afterThreshold_idle thousandDollarsReached "thousandDollars").
  2: { rewrite C3.
       by destruct (isCompleted "thousandDollars" gs), (thousandDollarsReached _). }
  reflexivity.
Qed.

Lemma checkThreshold_keeps (reached : GameState -> bool) (id id' : string)
    (gs : GameState) :
  id' <> id ->
  milestones (state_after (checkThreshold reached id gs)) !! id'
  = milestones gs !! id'.
Proof.
  intros Hne. unfold checkThreshold.
  destruct (reached gs); [| done].
  destruct (milestones gs !! id) as [m|] eqn:Hm; [| done].
  destruct (completed m); [done |].
  cbn. unfold completeMilestone. rewrite Hm. cbn.
  by rewrite lookup_insert_ne.
Qed.

Lemma state_after_bind {A B : Type} (c : M A) (k : A -> M B) (gs : GameState) :
  state_after (bind c k gs)
  = match c gs with
    | Returns a gs' => state_after (k a gs')
    | Throws gs' => gs'
    end.
Proof. unfold bind. by destruct (c gs). Qed.

Lemma checkMilestones_keeps (id' : string) (gs : GameState) :
  id' <> "firstBake" -> id' <> "hundredBakes" -> id' <> "thousandDollars" ->
  milestones (state_after (checkMilestones gs)) !! id' = milestones gs !! id'.
Proof.
  intros N1 N2 N3. unfold checkMilestones.
  rewrite state_after_bind.
  pose proof (checkThreshold_keeps firstBakeReached
                "firstBake" id' gs N1) as K1.
  destruct (checkThreshold _ "firstBake" gs) as [[] gs1 | gs1]; cbn in K1;
    [| exact K1].
  rewrite state_after_bind.
  pose proof (checkThreshold_keeps hundredBakesReached
                "hundredBakes" id' gs1 N2) as K2.
  destruct (checkThreshold _ "hundredBakes" gs1) as [[] gs2 | gs2]; cbn in K2;
    [| by rewrite K2].
  rewrite checkThreshold_keeps by done. by rewrite K2.
Qed.

Lemma bake_keeps (id' : string) (recipe : option string) (gs : GameState) :
  id' <> "firstBake" -> id' <> "hundredBakes" -> id' <> "thousandDollars" ->
  milestones (state_after (bake recipe gs)) !! id' = milestones gs !! id'.
Proof.
  intros N1 N2 N3. unfold bake.
  destruct (recipes gs !! bakeTarget recipe gs) as [r|]; [| done].
  destruct (unlocked r); cbn [negb]; [| done].
  rewrite state_after_bind.
  match goal with
  | |- context [checkMilestones ?s] =>
      pose proof (checkMilestones_keeps id' s N1 N2 N3) as K;
      destruct (checkMilestones s) as [[] gs1 | gs1]
  end; exact K.
Qed.

(** Every other operation leaves the whole [milestones] object alone. *)
Lemma exec_milestones (op : Op) (gs : GameState) :
  match op with
  | OpBake _ | OpCheckMilestones => True
  | _ => milestones (exec op gs) = milestones gs
  end.
Proof.
  destruct op; cbn [exec]; try exact I.
  - unfold Recipes.bakeRecipe.
    destruct (recipes gs !! recipeId) as [r|]; [| done]. by destruct (unlocked r).
  - unfold unlockRecipe. by destruct (recipes gs !! recipeId).
  - unfold purchaseUpgrade.
    destruct (upgrades gs !! upgradeId) as [u|]; [| done].
    destruct (maxLevel u <=? u_level u)%N; [done |].
    destruct (JsMath.ltb _ _); [done |].
    unfold applyUpgradeBonus. by destruct (u_type _).
  - unfold Recipes.upgradeRecipe.
    destruct (recipes gs !! recipeId) as [r|]; [| done].
    destruct (unlocked r); [| done]. by destruct (JsMath.ltb _ _).
  - unfold hireAutoBaker. by destruct (JsMath.ltb _ _).
  - done.
  - unfold OfflineProgress.tick. by destruct (JsMath.gtb _ _).
  - unfold OfflineProgress.applyOfflineProgress. by destruct (JsMath.leb _ _).
Qed.

Lemma exec_keeps (id' : string) (op : Op) (gs : GameState) :
  id' <> "firstBake" -> id' <> "hundredBakes" -> id' <> "thousandDollars" ->
  milestones (exec op gs) !! id' = milestones gs !! id'.
Proof.
  intros N1 N2 N3. pose proof (exec_milestones op gs) as Hop.
  destruct op; try (by rewrite Hop).
  - by apply bake_keeps.
  - by apply checkMilestones_keeps.
Qed.

Lemma execAll_keeps (id' : string) (ops : list Op) :
  id' <> "firstBake" -> id' <> "hundredBakes" -> id' <> "thousandDollars" ->
  forall gs : GameState,
    milestones (execAll ops gs) !! id' = milestones gs !! id'.
Proof.
  intros N1 N2 N3. induction ops as [|op ops IH]; intros gs; [done |].
  cbn [execAll foldl]. fold (execAll ops (exec op gs)).
  by rewrite IH, exec_keeps.
Qed.

(** A completed milestone stays completed. *)
Lemma checkThreshold_monotone (reached : GameState -> bool) (id id' : string)
    (gs : GameState) :
  isCompleted id' gs = true ->
  isCompleted id' (state_after (checkThreshold reached id gs)) = true.
Proof.
  intros Hdone. unfold checkThreshold.
  destruct (reached gs); [| done].
  destruct (milestones gs !! id) as [m|] eqn:Hm; [| done].
  destruct (completed m); [done |].
  cbn. unfold completeMilestone. rewrite Hm. unfold isCompleted. cbn.
  destruct (decide (id = id')) as [<- | Hne].
  - by rewrite lookup_insert_eq.
  - rewrite lookup_insert_ne by done. exact Hdone.
Qed.

Lemma checkMilestones_monotone (id' : string) (gs : GameState) :
  isCompleted id' gs = true ->
  isCompleted id' (state_after (checkMilestones gs)) = true.
Proof.
  intros Hdone. unfold checkMilestones.
  rewrite state_after_bind.
  pose proof (checkThreshold_monotone firstBakeReached "firstBake" id' gs Hdone)
    as K1.
  destruct (checkThreshold _ "firstBake" gs) as [[] gs1 | gs1]; cbn in K1;
    [| exact K1].
  rewrite state_after_bind.
  pose proof (checkThreshold_monotone hundredBakesReached "hundredBakes" id' gs1 K1)
    as K2.
  destruct (checkThreshold _ "hundredBakes" gs1) as [[] gs2 | gs2]; cbn in K2;
    [| exact K2].
  by apply checkThreshold_monotone.
Qed.

Lemma exec_monotone (id' : string) (op : Op) (gs : GameState) :
  isCompleted id' gs = true -> isCompleted id' (exec op gs) = true.
Proof.
  intros Hdone. pose proof (exec_milestones op gs) as Hop.
  destruct op; try (unfold isCompleted in *; by rewrite Hop).
  - cbn [exec]. unfold bake.
    destruct (recipes gs !! bakeTarget recipe gs) as [r|]; [| done].
    destruct (unlocked r); cbn [negb]; [| done].
    rewrite state_after_bind.
    match goal with
    | |- context [checkMilestones ?s] =>
        pose proof (checkMilestones_monotone id' s Hdone) as K;
        destruct (checkMilestones s) as [[] gs1 | gs1]
    end; exact K.
  - by apply checkMilestones_monotone.
Qed.

Lemma execAll_monotone (id' : string) (ops : list Op) :
  forall gs : GameState,
    isCompleted id' gs = true -> isCompleted id' (execAll ops gs) = true.
Proof.
  induction ops as [|op ops IH]; intros gs Hdone; [done |].
  apply IH. by apply exec_monotone.
Qed.

(** C7.  On a model that has the three threshold milestones,
    [checkMilestones] returns, and in the state it leaves each of them
    is completed exactly when it was completed before or its threshold
    (1 bake, 100 bakes, 1000 earned) is reached; [money] and
    [totalMoneyEarned] have grown by 50 for every milestone that went
    from open to completed and by nothing else; and a second
    [checkMilestones] changes nothing.  No operation reopens a completed
    milestone, so no bonus is paid twice.  On a fresh model (money 10) a
    bake of the cookie recipe returns true and leaves [totalBaked] at 1,
    [firstBake] completed and 61 in the till. *)
Theorem milestones_granted_once :
  (forall gs : GameState,
      hasThresholdMilestones gs ->
      exists gs' : GameState,
        checkMilestones gs = Returns tt gs'
        /\ isCompleted "firstBake" gs'
           = isCompleted "firstBake" gs || (1 <=? totalBaked gs')%Z
        /\ isCompleted "hundredBakes" gs'
           = isCompleted "hundredBakes" gs || (100 <=? totalBaked gs')%Z
        /\ isCompleted "thousandDollars" gs'
           = isCompleted "thousandDollars" gs
             || JsMath.geb (totalMoneyEarned gs') 1000
        /\ money gs' == money gs + 50 * newlyCompleted gs gs'
        /\ totalMoneyEarned gs'
           == totalMoneyEarned gs + 50 * newlyCompleted gs gs'
        /\ totalBaked gs' = totalBaked gs
        /\ checkMilestones gs' = Returns tt gs')
  /\ (forall (id : string) (ops : list Op) (gs : GameState),
        isCompleted id gs = true -> isCompleted id (execAll ops gs) = true)
  /\ (forall now : Z,
        exists gs' : GameState,
          bake (Some "cookie") (fresh now) = Returns true gs'
          /\ money (fresh now) == 10
          /\ totalBaked gs' = 1%Z
          /\ isCompleted "firstBake" gs' = true
          /\ isCompleted "hundredBakes" gs' = false
          /\ isCompleted "thousandDollars" gs' = false
          /\ money gs' == 61
          /\ totalMoneyEarned gs' == 61).
Proof.
  split; [| split].
  - intros gs Hgs. exists (afterMilestones gs).
    split; [by apply checkMilestones_present |].
    destruct (afterMilestones_facts gs Hgs) as (C1 & C2 & C3 & M & E & B).
    do 6 (split; [assumption |]).
    rewrite checkMilestones_present by by apply afterMilestones_present.
    by rewrite afterMilestones_idempotent.
  - intros id ops gs. apply execAll_monotone.
  - intros now. exists (state_after (bake (Some "cookie") (fresh now))).
    split; [vm_compute; reflexivity |].
    do 6 (split; [vm_compute; reflexivity |]).
    vm_compute; reflexivity.
Qed.

Lemma milestones_granted_once_witness :
  let gs := (Recipes.bakeRecipe "cookie" (fresh 0)).2 in
  hasThresholdMilestones gs
  /\ exists gs' : GameState,
      checkMilestones gs = Returns tt gs'
      /\ isCompleted "firstBake" gs = false
      /\ isCompleted "firstBake" gs' = true
      /\ money gs' == money gs + 50
      /\ checkMilestones gs' = Returns tt gs'.
Proof.
  intros gs.
  assert (Hgs : hasThresholdMilestones gs).
  { repeat split; eexists; vm_compute; reflexivity. }
  split; [exact Hgs |].
  destruct (proj1 milestones_granted_once gs Hgs)
    as (gs' & Hcheck & C1 & C2 & C3 & M & _ & B & Hagain).
  exists gs'. split; [exact Hcheck |].
  assert (Hgs' : gs' = afterMilestones gs).
  { rewrite (checkMilestones_present gs Hgs) in Hcheck. congruence. }
  split; [vm_compute; reflexivity |].
  split; [rewrite Hgs'; vm_compute; reflexivity |].
  split; [rewrite Hgs'; vm_compute; reflexivity |].
  exact Hagain.
Defined.

(** ** The milestone no operation completes *)

(** C9.  Whatever operations a session runs on a freshly initialized
    model, the [allRecipesUnlocked] milestone is there and is not
    completed; this is so also in the state where all five recipes are
    unlocked. *)
Theorem allRecipesUnlocked_never_completed :
  (forall (now : Z) (ops : list Op),
      completed <$> milestones (execAll ops (fresh now)) !! "allRecipesUnlocked"
      = Some false)
  /\ (forall now : Z,
        exists ops : list Op,
          let gs := execAll ops (fresh now) in
          size (recipes gs) = 5%nat
          /\ map_Forall (fun _ r => unlocked r = true) (recipes gs)
          /\ completed <$> milestones gs !! "allRecipesUnlocked" = Some false).
Proof.
  assert (Hkeep : forall now ops,
            completed <$> milestones (execAll ops (fresh now)) !! "allRecipesUnlocked"
            = Some false).
  { intros now ops. by rewrite execAll_keeps. }
  split; [exact Hkeep |].
  intros now.
  exists [OpUnlockRecipe "brownie"; OpUnlockRecipe "croissant";
          OpUnlockRecipe "cake"; OpUnlockRecipe "donut"].
  split; [vm_compute; reflexivity |].
  split; [| apply Hkeep].
  apply map_Forall_to_list. vm_compute.
  repeat constructor.
Qed.

(** ** Purchases *)

Lemma purchaseUpgrade_ok (gs : GameState) (upgradeId : string) (u : Upgrade) :
  upgrades gs !! upgradeId = Some u ->
  (u_level u < maxLevel u)%N ->
  u_currentCost u <= money gs ->
  exists (gs' : GameState) (u' : Upgrade),
    purchaseUpgrade upgradeId gs = (true, gs')
    /\ money gs' = money gs - u_currentCost u
    /\ upgrades gs' !! upgradeId = Some u'
    /\ u_level u' = (u_level u + 1)%N
    /\ u_currentCost u' = priceAt (u_baseCost u) (u_level u')
    /\ (u_type u = production ->
        forall recipeId : string,
          recipes gs' !! recipeId
          = boosted (bonus u) (u_level u') <$> recipes gs !! recipeId)
    /\ (u_type u <> production -> recipes gs' = recipes gs).
Proof.
  destruct u as [uid uname uicon ulevel umax ubase ucost udescr ubonus utype].
  cbn. intros Hu Hlevel Hafford.
  unfold purchaseUpgrade. rewrite Hu. cbn.
  apply N.leb_gt in Hlevel. rewrite Hlevel.
  apply ltb_false in Hafford. rewrite Hafford.
  unfold applyUpgradeBonus.
  destruct utype; cbn; eexists _, _; (split; [reflexivity |]); cbn; (split; [reflexivity |]);
    (split; [apply lookup_insert_eq |]);
    (split; [reflexivity |]); (split; [reflexivity |]);
    (split; [| congruence || reflexivity]); try discriminate.
  intros _ recipeId. by rewrite lookup_fmap.
Qed.

(** X7.  A purchase of an upgrade below its maximum level that the
    player can afford debits exactly the current cost, raises the
    upgrade's level by one, reprices it at the ceiling of the rounded
    product of the base cost and [1.1^level] and, for a production
    upgrade, rewrites the current production of every recipe to
    [ceil(baseProduction * bonus^level)] with the level of the upgrade;
    other upgrade types leave the recipes alone.  Buying [betterOven]
    with 100 in the till leaves 0, level 1 and every recipe at
    [ceil(baseProduction * 1.05)]: 2, 3, 6, 16 and 4. *)
Theorem purchaseUpgrade_success :
  (forall (gs : GameState) (upgradeId : string) (u : Upgrade),
      upgrades gs !! upgradeId = Some u ->
      (u_level u < maxLevel u)%N ->
      u_currentCost u <= money gs ->
      exists (gs' : GameState) (u' : Upgrade),
        purchaseUpgrade upgradeId gs = (true, gs')
        /\ money gs' = money gs - u_currentCost u
        /\ upgrades gs' !! upgradeId = Some u'
        /\ u_level u' = (u_level u + 1)%N
        /\ u_currentCost u' = priceAt (u_baseCost u) (u_level u')
        /\ (u_type u = production ->
            forall recipeId : string,
              recipes gs' !! recipeId
              = boosted (bonus u) (u_level u') <$> recipes gs !! recipeId)
        /\ (u_type u <> production -> recipes gs' = recipes gs))
  /\ (forall now : Z,
        exists (gs' : GameState) (u' : Upgrade),
          purchaseUpgrade "betterOven" (set_money 100 (fresh now)) = (true, gs')
          /\ money gs' == 0
          /\ upgrades gs' !! "betterOven" = Some u'
          /\ u_level u' = 1%N
          /\ (forall (recipeId : string) (r' : Recipe),
                recipes gs' !! recipeId = Some r' ->
                currentProduction r'
                = JsMath.ceil (baseProduction r' * JsMath.pow (105 # 100) 1))
          /\ (fun recipeId => currentProduction <$> recipes gs' !! recipeId)
               <$> ["cookie"; "brownie"; "croissant"; "cake"; "donut"]
             = [Some 2; Some 3; Some 6; Some 16; Some 4]).
Proof.
  split; [exact purchaseUpgrade_ok |].
  intros now. set (gs := set_money 100 (fresh now)).
  assert (Hu : upgrades gs !! "betterOven"
               = Some (newUpgrade "betterOven" "Better Oven" "🔥" 10 100
                         "+5% production per level" (105 # 100) production))
    by (vm_compute; reflexivity).
  destruct (purchaseUpgrade_ok gs "betterOven" _ Hu)
    as (gs' & u' & Hbuy & Hmoney & Hu' & Hlevel & Hcost & Hprod & _);
    [reflexivity | vm_compute; discriminate |].
  exists gs', u'. split; [exact Hbuy |].
  split; [rewrite Hmoney; reflexivity |].
  split; [exact Hu' |]. split; [exact Hlevel |].
  specialize (Hprod eq_refl). rewrite Hlevel in Hprod.
  split.
  - intros recipeId r' Hr'. rewrite Hprod in Hr'.
    apply fmap_Some in Hr' as (r & _ & ->). reflexivity.
  - cbn [fmap list_fmap]. rewrite !Hprod. vm_compute. reflexivity.
Qed.

Lemma purchaseUpgrade_success_witness :
  let gs := set_money 250 (fresh 0) in
  exists (u : Upgrade) (gs' : GameState),
    upgrades gs !! "marketingCampaign" = Some u
    /\ (u_level u < maxLevel u)%N
    /\ u_currentCost u <= money gs
    /\ purchaseUpgrade "marketingCampaign" gs = (true, gs')
    /\ money gs' = money gs - u_currentCost u.
Proof.
  intros gs.
  pose (u := newUpgrade "marketingCampaign" "Marketing Campaign" "📢" 5 200
               "+20% reputation gain per level" (120 # 100) reputation_type).
  assert (Hu : upgrades gs !! "marketingCampaign" = Some u)
    by (vm_compute; reflexivity).
  assert (Hlevel : (u_level u < maxLevel u)%N) by reflexivity.
  assert (Hafford : u_currentCost u <= money gs) by (vm_compute; discriminate).
  destruct (proj1 purchaseUpgrade_success gs "marketingCampaign" u Hu Hlevel Hafford)
    as (gs' & u' & Hbuy & Hmoney & _).
  exists u, gs'. auto.
Defined.

(** C6.  The claim is right about the intention and the code misses
    it: the comment in [purchaseUpgrade] promises a 10% increase per
    level, and the formula of the claim, [ceil(baseCost * 1.1^level)],
    gives 110 for [betterOven] at level 1.  The code computes the
    product in doubles, where [100 * 1.1] is 110.00000000000001, and
    stores 111.  The rest of the scenario is as the claim says: money
    0, level 1, productions 2, 3, 6, 16 and 4. *)
Theorem purchaseUpgrade_overprices :
  let gs := set_money 100 (fresh 0) in
  exists (gs' : GameState) (u' : Upgrade),
    purchaseUpgrade "betterOven" gs = (true, gs')
    /\ money gs' == 0
    /\ upgrades gs' !! "betterOven" = Some u'
    /\ u_level u' = 1%N
    /\ (fun recipeId => currentProduction <$> recipes gs' !! recipeId)
         <$> ["cookie"; "brownie"; "croissant"; "cake"; "donut"]
       = [Some 2; Some 3; Some 6; Some 16; Some 4]
    /\ JsMath.mul (u_baseCost u') (JsMath.powd (JsMath.double (11 # 10)) 1)
       == 7740561859543041 # 70368744177664
    /\ u_currentCost u' == 111
    /\ JsMath.ceil (u_baseCost u' * JsMath.pow (11 # 10) (u_level u')) == 110.
Proof.
  intros gs.
  exists (purchaseUpgrade "betterOven" gs).2,
    (set_u_currentCost 111
       (set_u_level 1
          (newUpgrade "betterOven" "Better Oven" "🔥" 10 100
             "+5% production per level" (105 # 100) production))).
  split; [vm_compute; reflexivity |].
  split; [vm_compute; reflexivity |].
  split; [vm_compute; reflexivity |].
  split; [reflexivity |].
  split; [vm_compute; reflexivity |].
  split; [vm_compute; reflexivity |].
  split; vm_compute; reflexivity.
Qed.

(** ** Money along a session

    Productions and bonuses are never negative, so credits never lower
    the money, and debits are guarded by the affordability checks. *)

Lemma purchaseUpgrade_money (gs : GameState) (upgradeId : string) :
  money (purchaseUpgrade upgradeId gs).2 = money gs
  \/ exists u : Upgrade,
      upgrades gs !! upgradeId = Some u
      /\ u_currentCost u <= money gs
      /\ money (purchaseUpgrade upgradeId gs).2 = money gs - u_currentCost u.
Proof.
  unfold purchaseUpgrade.
  destruct (upgrades gs !! upgradeId) as [u|]; [| by left].
  destruct (maxLevel u <=? u_level u)%N; [by left |].
  destruct (JsMath.ltb (money gs) (u_currentCost u)) eqn:Hcmp; [by left |].
  right. exists u. apply ltb_false in Hcmp.
  split; [reflexivity |]. split; [exact Hcmp |].
  unfold applyUpgradeBonus. by destruct (u_type _).
Qed.

Lemma upgradeRecipe_money (gs : GameState) (recipeId : string) :
  money (Recipes.upgradeRecipe recipeId gs).2 = money gs
  \/ exists r : Recipe,
      recipes gs !! recipeId = Some r
      /\ upgradeCost r <= money gs
      /\ money (Recipes.upgradeRecipe recipeId gs).2 = money gs - upgradeCost r.
Proof.
  unfold Recipes.upgradeRecipe.
  destruct (recipes gs !! recipeId) as [r|]; [| by left].
  destruct (unlocked r); cbn [negb]; [| by left].
  destruct (JsMath.ltb (money gs) (upgradeCost r)) eqn:Hcmp; [by left |].
  right. exists r. apply ltb_false in Hcmp. by repeat split.
Qed.

Lemma hireAutoBaker_money (gs : GameState) :
  money (hireAutoBaker gs).2 = money gs
  \/ (autoBakerCost gs <= money gs
      /\ money (hireAutoBaker gs).2 = money gs - autoBakerCost gs).
Proof.
  unfold hireAutoBaker.
  destruct (JsMath.ltb (money gs) (autoBakerCost gs)) eqn:Hcmp; [by left |].
  right. apply ltb_false in Hcmp. by split.
Qed.

Lemma checkThreshold_frame (reached : GameState -> bool) (id : string)
    (gs : GameState) :
  let gs' := state_after (checkThreshold reached id gs) in
  recipes gs' = recipes gs /\ upgrades gs' = upgrades gs /\ money gs <= money gs'.
Proof.
  unfold checkThreshold.
  destruct (reached gs); [| by repeat split; try apply Qle_refl].
  destruct (milestones gs !! id) as [m|] eqn:Hm;
    [| by repeat split; try apply Qle_refl].
  destruct (completed m); [by repeat split; try apply Qle_refl |].
  cbn. unfold completeMilestone. rewrite Hm. cbn.
  repeat split. lra.
Qed.

Lemma checkMilestones_frame (gs : GameState) :
  let gs' := state_after (checkMilestones gs) in
  recipes gs' = recipes gs /\ upgrades gs' = upgrades gs /\ money gs <= money gs'.
Proof.
  unfold checkMilestones. rewrite state_after_bind.
  pose proof (checkThreshold_frame firstBakeReached
                "firstBake" gs) as (R1 & U1 & M1).
  destruct (checkThreshold _ "firstBake" gs) as [[] gs1 | gs1]; cbn in R1, U1, M1;
    [| done].
  rewrite state_after_bind.
  pose proof (checkThreshold_frame hundredBakesReached
                "hundredBakes" gs1) as (R2 & U2 & M2).
  destruct (checkThreshold _ "hundredBakes" gs1) as [[] gs2 | gs2];
    cbn in R2, U2, M2.
  - pose proof (checkThreshold_frame
                  thousandDollarsReached
                  "thousandDollars" gs2) as (R3 & U3 & M3).
    cbn in R3, U3, M3. cbn.
    split; [congruence |]. split; [congruence | lra].
  - split; [congruence |]. split; [congruence | lra].
Qed.

Lemma wellFormed_credit (gs : GameState) (key : string) (r r' : Recipe) :
  wellFormed gs ->
  recipes gs !! key = Some r ->
  baseProduction r' = baseProduction r ->
  currentProduction r' = currentProduction r ->
  0 <= money gs + currentProduction r
  /\ map_Forall (fun _ r => 0 <= baseProduction r /\ 0 <= currentProduction r)
       (<[key := r']> (recipes gs)).
Proof.
  intros (Hmoney & Hrs & _) Hr Hbase Hcp.
  destruct (Hrs key r Hr) as [Hb Hc].
  split; [lra |].
  apply map_Forall_insert_2; [| exact Hrs].
  by rewrite Hbase, Hcp.
Qed.

Lemma bake_wellFormed (recipe : option string) (gs : GameState) :
  wellFormed gs -> wellFormed (state_after (bake recipe gs)).
Proof.
  intros Hgs. unfold bake.
  destruct (recipes gs !! bakeTarget recipe gs) as [r|] eqn:Hr; [| done].
  destruct (unlocked r); cbn [negb]; [| done].
  rewrite state_after_bind.
  match goal with
  | |- context [checkMilestones ?s] =>
      pose proof (checkMilestones_frame s) as (R & U & Mo);
      destruct (checkMilestones s) as [[] gs1 | gs1]
  end; cbn in R, U, Mo; cbn [state_after ret];
    (destruct (wellFormed_credit gs _ r
                 (set_totalProduction (totalProduction r + currentProduction r)
                    (set_bakeCount (bakeCount r + 1)%N r)) Hgs Hr eq_refl eq_refl)
       as [Hm Hrs]);
    (split; [lra |]); (split; [by rewrite R |]);
    rewrite U; apply Hgs.
Qed.

Lemma exec_wellFormed (op : Op) (gs : GameState) :
  wellFormed gs -> wellFormed (exec op gs).
Proof.
  intros Hgs. pose proof Hgs as (Hmoney & Hrs & Hus).
  destruct op; cbn [exec].
  - by apply bake_wellFormed.
  - unfold Recipes.bakeRecipe.
    destruct (recipes gs !! recipeId) as [r|] eqn:Hr; [| done].
    destruct (unlocked r); cbn [negb]; [| done].
    destruct (wellFormed_credit gs _ r
                (set_totalProduction (totalProduction r + currentProduction r)
                   (set_bakeCount (bakeCount r + 1)%N r)) Hgs Hr eq_refl eq_refl)
      as [Hm Hrs'].
    split; [exact Hm |]. split; [exact Hrs' | exact Hus].
  - unfold unlockRecipe.
    destruct (recipes gs !! recipeId) as [r|] eqn:Hr; [| done].
    split; [done |]. split; [| done].
    apply map_Forall_insert_2; [| done]. exact (Hrs _ _ Hr).
  - pose proof (purchaseUpgrade_money gs upgradeId) as Hdebit.
    split; [destruct Hdebit as [-> | (u & _ & Hcost & ->)]; [done | lra] |].
    clear Hdebit. unfold purchaseUpgrade.
    destruct (upgrades gs !! upgradeId) as [u|] eqn:Hu; [| done].
    destruct (maxLevel u <=? u_level u)%N; [done |].
    destruct (JsMath.ltb _ _); [done |].
    pose proof (Hus _ _ Hu) as Hbonus.
    assert (Hus' : map_Forall (fun _ u => 0 <= bonus u)
                     (<[upgradeId :=
                          set_u_currentCost
                            (priceAt (u_baseCost u) (u_level u + 1))
                            (set_u_level (u_level u + 1)%N u)]> (upgrades gs)))
      by by apply map_Forall_insert_2.
    unfold applyUpgradeBonus. destruct u as [? ? ? ? ? ? ? ? ubonus []]; cbn in *;
      (split; [| exact Hus']); [| done ..].
    apply map_Forall_fmap. intros key r Hr. cbn.
    destruct (Hrs key r Hr) as [Hb _]. split; [exact Hb |].
    apply ceil_nonneg, Qmult_le_0_compat; [exact Hb |]. by apply pow_nonneg.
  - pose proof (upgradeRecipe_money gs recipeId) as Hdebit.
    split; [destruct Hdebit as [-> | (r & _ & Hcost & ->)]; [done | lra] |].
    clear Hdebit. unfold Recipes.upgradeRecipe.
    destruct (recipes gs !! recipeId) as [r|] eqn:Hr; [| done].
    destruct (unlocked r); cbn [negb]; [| done].
    destruct (JsMath.ltb _ _); [done |].
    split; [| done]. cbn.
    destruct (Hrs _ _ Hr) as [Hb _].
    apply map_Forall_insert_2; [| done]. cbn. split; [exact Hb |].
    apply ceil_nonneg, Qmult_le_0_compat; [exact Hb |]. by apply pow_nonneg.
  - pose proof (hireAutoBaker_money gs) as Hdebit.
    split; [destruct Hdebit as [-> | (Hcost & ->)]; [done | lra] |].
    unfold hireAutoBaker. by destruct (JsMath.ltb _ _).
  - done.
  - unfold OfflineProgress.tick.
    destruct (JsMath.gtb (moneyPerSecond gs) 0) eqn:Hpos; [| done].
    apply ltb_true in Hpos.
    split; [cbn; lra |]. split; [cbn | done].
    apply map_Forall_fmap. intros key r Hr. cbn.
    destruct (unlocked r && _); [| exact (Hrs _ _ Hr)].
    destruct (JsMath.gtb _ 0); exact (Hrs _ _ Hr).
  - unfold OfflineProgress.applyOfflineProgress.
    destruct (JsMath.leb secondsOffline 0) eqn:Hsecs; [done |].
    apply leb_false in Hsecs.
    split; [cbn | done].
    assert (0 <= JsMath.min secondsOffline OfflineProgress.MAX_OFFLINE_TIME).
    { unfold JsMath.min. destruct (Qle_bool _ _); [lra | discriminate]. }
    assert (0 <= addRecipeIncome 0 (recipes gs))
      by (apply addRecipeIncome_nonneg; [apply Qle_refl | done]).
    pose proof (ofN_nonneg (autoBakers gs)).
    assert (0 <= JsMath.floor
                   (JsMath.mul
                      (JsMath.add (JsMath.ofN (autoBakers gs) * 5)
                         (addRecipeIncome 0 (recipes gs)))
                      (JsMath.min secondsOffline OfflineProgress.MAX_OFFLINE_TIME))).
    { apply floor_nonneg, mul_nonneg; [apply add_nonneg |]; lra. }
    lra.
  - pose proof (checkMilestones_frame gs) as (R & U & Mo). cbn in R, U, Mo.
    split; [lra |]. split; [by rewrite R | by rewrite U].
Qed.

Lemma fresh_wellFormed (now : Z) : wellFormed (fresh now).
Proof.
  split; [discriminate |]. split.
  - apply map_Forall_to_list. vm_compute.
    repeat constructor; discriminate.
  - apply map_Forall_to_list. vm_compute.
    repeat constructor; discriminate.
Qed.




(** ** Offline progress *)

Lemma min_beyond_cap (secondsOffline : Q) :
  OfflineProgress.MAX_OFFLINE_TIME < secondsOffline ->
  JsMath.min secondsOffline OfflineProgress.MAX_OFFLINE_TIME
  = OfflineProgress.MAX_OFFLINE_TIME.
Proof.
  intros Hlong. unfold JsMath.min.
  destruct (Qle_bool secondsOffline _) eqn:Hle; [| reflexivity].
  apply Qle_bool_iff in Hle. lra.
Qed.

Lemma MAX_OFFLINE_TIME_value : OfflineProgress.MAX_OFFLINE_TIME == 604800.
Proof. reflexivity. Qed.

(** The estimate of items baked, whatever the number of auto-bakers. *)
Lemma itemsBaked_estimate (n : N) (secondsOffline : Q) :
  (if JsMath.gtb (JsMath.ofN n * 5) 0
   then Qfloor (JsMath.div (JsMath.mul (JsMath.ofN n * 5) secondsOffline) 5)
   else 0%Z)
  = Qfloor (JsMath.div (JsMath.mul (JsMath.ofN n * 5) secondsOffline) 5).
Proof.
  destruct (JsMath.gtb (JsMath.ofN n * 5) 0) eqn:Hcmp; [reflexivity |].
  apply gtb_false in Hcmp.
  rewrite mul_zero_l by (pose proof (ofN_nonneg n); lra).
  reflexivity.
Qed.

(** C3, amended.  Beyond the cap of [7*24*3600] seconds
    [applyOfflineProgress] credits [money] and [totalMoneyEarned] with
    the floor of the income rate times the cap, the rate being five per
    auto-baker plus the sum, over the unlocked recipes of positive
    level, of [currentProduction*level*0.1], and raises [totalBaked] by
    the floor of [autoBakers*5*secondsElapsed/5] with the seconds that
    really elapsed; the sums, products and quotients are those of
    double arithmetic, taken in the order of the code. *)
Theorem applyOfflineProgress_beyond_cap (gs : GameState) (secondsElapsed : Q) :
  OfflineProgress.MAX_OFFLINE_TIME < secondsElapsed ->
  let gained :=
    JsMath.floor (JsMath.mul (incomeRate gs) OfflineProgress.MAX_OFFLINE_TIME) in
  let baked :=
    Qfloor (JsMath.div
              (JsMath.mul (JsMath.ofN (autoBakers gs) * 5) secondsElapsed) 5) in
  exists gs' : GameState,
    OfflineProgress.applyOfflineProgress gs secondsElapsed
    = ({| OfflineProgress.moneyGained := gained;
          OfflineProgress.itemsBaked := baked |}, gs')
    /\ money gs' = money gs + gained
    /\ totalMoneyEarned gs' = totalMoneyEarned gs + gained
    /\ totalBaked gs' = (totalBaked gs + baked)%Z.
Proof.
  intros Hlong gained baked.
  unfold OfflineProgress.applyOfflineProgress.
  assert (Hpos : JsMath.leb secondsElapsed 0 = false).
  { apply leb_false. pose proof MAX_OFFLINE_TIME_value. lra. }
  rewrite Hpos.
  unfold OfflineProgress.calculateOfflineEarnings.
  rewrite (min_beyond_cap _ Hlong).
  cbn [OfflineProgress.earnings OfflineProgress.autoBakerIncome].
  rewrite itemsBaked_estimate, incomeRate_code.
  eexists. split; [reflexivity |]. by cbn.
Qed.

(** A state of ordinary play: one auto-baker, brownie, cake and donut
    unlocked, and these three and the cookie upgraded once.  The rate
    is 7.699999999999999; the cap gives 4656960 and the 700000 seconds
    give 700000 items. *)
Lemma applyOfflineProgress_beyond_cap_witness :
  let gs :=
    execAll
      [OpHireAutoBaker;
       OpUnlockRecipe "brownie"; OpUnlockRecipe "cake"; OpUnlockRecipe "donut";
       OpUpgradeRecipe "cookie"; OpUpgradeRecipe "brownie";
       OpUpgradeRecipe "cake"; OpUpgradeRecipe "donut"]
      (set_money 330 (fresh 0)) in
  let secondsElapsed := 700000 in
  OfflineProgress.MAX_OFFLINE_TIME < secondsElapsed
  /\ exists gs' : GameState,
      (OfflineProgress.applyOfflineProgress gs secondsElapsed).2 = gs'
      /\ money gs == 0
      /\ money gs' == 4656960
      /\ totalBaked gs' = (totalBaked gs + 700000)%Z.
Proof.
  intros gs secondsElapsed.
  assert (Hlong : OfflineProgress.MAX_OFFLINE_TIME < secondsElapsed)
    by (vm_compute; reflexivity).
  split; [exact Hlong |].
  destruct (applyOfflineProgress_beyond_cap gs secondsElapsed Hlong)
    as (gs' & Happly & Hmoney & _ & Hbaked).
  exists gs'. split; [by rewrite Happly |].
  split; [vm_compute; reflexivity |].
  split; [rewrite Hmoney | rewrite Hbaked]; vm_compute; reflexivity.
Defined.

(** C3 as stated, with the product of the formula taken exactly, fails
    in that state: the recipe income is 0.2 + 0.3 + 1.8 + 0.4, which is
    2.7, and [2.7 * 604800] is 1632960; the doubles add up to
    2.6999999999999997 and the code credits 1632959. *)
Lemma offline_credit_below_exact_floor :
  let gs :=
    execAll
      [OpUnlockRecipe "brownie"; OpUnlockRecipe "cake"; OpUnlockRecipe "donut";
       OpUpgradeRecipe "cookie"; OpUpgradeRecipe "brownie";
       OpUpgradeRecipe "cake"; OpUpgradeRecipe "donut"]
      (set_money 280 (fresh 0)) in
  let secondsElapsed := 700000 in
  let gs' := (OfflineProgress.applyOfflineProgress gs secondsElapsed).2 in
  OfflineProgress.MAX_OFFLINE_TIME < secondsElapsed
  /\ exactIncomeRate gs == 27 # 10
  /\ JsMath.floor (exactIncomeRate gs * OfflineProgress.MAX_OFFLINE_TIME)
     == 1632960
  /\ incomeRate gs == 6079859496950169 # 2251799813685248
  /\ money gs' == money gs + 1632959
  /\ ~ money gs'
       == money gs
          + JsMath.floor (exactIncomeRate gs * OfflineProgress.MAX_OFFLINE_TIME).
Proof.
  intros gs secondsElapsed gs'.
  split; [vm_compute; reflexivity |].
  split; [vm_compute; reflexivity |].
  split; [vm_compute; reflexivity |].
  split; [vm_compute; reflexivity |].
  split; [vm_compute; reflexivity |].
  vm_compute. discriminate.
Qed.

(** ** Hiring auto-bakers *)

Lemma nextCost_nonneg (c : Q) : 0 <= c -> 0 <= nextCost c.
Proof.
  intros Hc. apply ceil_nonneg.
  apply Qmult_le_0_compat; [exact Hc | discriminate].
Qed.

Lemma totalCost_nonneg (k : nat) (c : Q) : 0 <= c -> 0 <= totalCost k c.
Proof.
  revert c. induction k as [|k IH]; intros c Hc; cbn [totalCost].
  - apply Qle_refl.
  - pose proof (IH _ (nextCost_nonneg c Hc)). lra.
Qed.

Lemma hireAutoBaker_afford (gs : GameState) :
  autoBakerCost gs <= money gs ->
  exists gs' : GameState,
    hireAutoBaker gs = (true, gs')
    /\ money gs' = money gs - autoBakerCost gs
    /\ autoBakers gs' = (autoBakers gs + 1)%N
    /\ autoBakerCost gs' = nextCost (autoBakerCost gs).
Proof.
  intros Hafford. apply ltb_false in Hafford.
  unfold hireAutoBaker. rewrite Hafford.
  eexists. split; [reflexivity |]. by cbn.
Qed.

(** With enough money for all of them, [k] hires in a row succeed. *)
Lemma hireTimes_afford (k : nat) :
  forall gs : GameState,
    0 <= autoBakerCost gs ->
    totalCost k (autoBakerCost gs) <= money gs ->
    exists gs' : GameState,
      hireTimes k gs = Some gs'
      /\ autoBakers gs' = (autoBakers gs + N.of_nat k)%N
      /\ autoBakerCost gs' = costAfter k (autoBakerCost gs)
      /\ money gs' == money gs - totalCost k (autoBakerCost gs).
Proof.
  induction k as [|k IH]; intros gs Hcost Hmoney.
  - exists gs. cbn. split; [reflexivity |]. split; [lia |].
    split; [reflexivity | ring].
  - cbn [totalCost] in Hmoney.
    pose proof (nextCost_nonneg _ Hcost) as Hnext.
    pose proof (totalCost_nonneg k _ Hnext) as Hrest.
    destruct (hireAutoBaker_afford gs) as (gs1 & Hhire & Hm1 & Hn1 & Hc1); [lra |].
    destruct (IH gs1) as (gs' & Hrun & Hn & Hc & Hm).
    { by rewrite Hc1. }
    { rewrite Hc1, Hm1. lra. }
    exists gs'. cbn [hireTimes costAfter totalCost]. rewrite Hhire.
    split; [exact Hrun |]. split; [lia |].
    split; [by rewrite Hc, Hc1 |].
    rewrite Hm, Hc1, Hm1. ring.
Qed.

(** C5, amended.  From a state with no auto-baker and a price of 50,
    with money for all of them, [k] hires succeed, leave [k]
    auto-bakers and debit the [k] prices; the price is then the [k]-fold iterate of
    [c |-> ceil(c * 1.15)] on 50, which is [ceil(50 * 1.15^k)] for
    [k] up to 2.  (The iterate rounds up at every hire, so from the third
    hire on it exceeds the closed form.) *)
Theorem hireAutoBaker_repeated (k : nat) (gs : GameState) :
  autoBakers gs = 0%N ->
  autoBakerCost gs = 50 ->
  totalCost k 50 <= money gs ->
  exists gs' : GameState,
    hireTimes k gs = Some gs'
    /\ autoBakers gs' = N.of_nat k
    /\ autoBakerCost gs' = costAfter k 50
    /\ money gs' == money gs - totalCost k 50
    /\ ((k <= 2)%nat ->
        autoBakerCost gs'
        == JsMath.ceil (50 * JsMath.pow (115 # 100) (N.of_nat k))).
Proof.
  intros Hnone Hprice Hmoney.
  destruct (hireTimes_afford k gs) as (gs' & Hrun & Hn & Hc & Hm).
  { rewrite Hprice. discriminate. }
  { by rewrite Hprice. }
  exists gs'. rewrite Hprice in Hc, Hm. rewrite Hnone in Hn.
  split; [exact Hrun |]. split; [lia |]. split; [exact Hc |].
  split; [exact Hm |].
  intros Hk. rewrite Hc.
  destruct k as [|[|[|k]]]; [reflexivity .. | lia].
Qed.

Lemma hireAutoBaker_repeated_witness :
  let gs := set_money 50 (fresh 0) in
  autoBakers gs = 0%N /\ autoBakerCost gs = 50 /\ totalCost 1 50 <= money gs
  /\ exists gs' : GameState,
      hireTimes 1 gs = Some gs'
      /\ autoBakers gs' = 1%N /\ autoBakerCost gs' == 58 /\ money gs' == 0.
Proof.
  intros gs.
  assert (Hnone : autoBakers gs = 0%N) by reflexivity.
  assert (Hprice : autoBakerCost gs = 50) by reflexivity.
  assert (Hmoney : totalCost 1 50 <= money gs) by (vm_compute; discriminate).
  split; [exact Hnone |]. split; [exact Hprice |]. split; [exact Hmoney |].
  destruct (hireAutoBaker_repeated 1 gs Hnone Hprice Hmoney)
    as (gs' & Hrun & Hn & Hc & Hm & _).
  exists gs'. split; [exact Hrun |]. split; [exact Hn |].
  split; [rewrite Hc | rewrite Hm]; reflexivity.
Defined.

(** C5 as stated fails at [k = 3]: three hires from the initial price of
    50 leave a price of 78 (50, 58, 67, 78), while [ceil(50 * 1.15^3)]
    is 77. *)
Lemma third_hire_price :
  let gs := set_money 1000 (fresh 0) in
  exists gs' : GameState,
    autoBakers gs = 0%N /\ autoBakerCost gs = 50
    /\ hireTimes 3 gs = Some gs'
    /\ autoBakers gs' = 3%N
    /\ autoBakerCost gs' == 78
    /\ JsMath.ceil (50 * JsMath.pow (115 # 100) 3) == 77
    /\ ~ autoBakerCost gs' == JsMath.ceil (50 * JsMath.pow (115 # 100) 3).
Proof.
  intros gs.
  exists (default gs (hireTimes 3 gs)).
  do 2 (split; [reflexivity |]).
  do 4 (split; [vm_compute; reflexivity |]).
  vm_compute. discriminate.
Qed.

(** ** Saving and restoring *)

(** C2, amended.  Saving a model and restoring what [load] returns onto
    a model reproduces every property of the save record, the three maps
    included, with one exception: [lastSaveTime] is the clock reading
    [save] took, not the value the model had.  The three properties
    that are not part of the save record ([autoBakerProductionBonus],
    [maxReputation], [experiencePerLevel]) are those of the model
    restored onto; restored onto the saved model itself, the result is
    that model with [lastSaveTime] set to the clock reading. *)
Theorem save_load_restore (now1 now2 : Z) (gs target : GameState)
    (storage : gmap string SaveManager.Item) :
  let saved := SaveManager.save now1 now2 gs storage in
  let gs' := SaveManager.restoreState target (SaveManager.load saved.2) in
  saved.1 = true
  /\ gs' = {| money := money gs;
              totalMoneyEarned := totalMoneyEarned gs;
              moneyPerSecond := moneyPerSecond gs;
              totalBaked := totalBaked gs;
              currentRecipe := currentRecipe gs;
              recipes := recipes gs;
              autoBakers := autoBakers gs;
              autoBakerLevel := autoBakerLevel gs;
              autoBakerCost := autoBakerCost gs;
              autoBakerProductionBonus := autoBakerProductionBonus target;
              upgrades := upgrades gs;
              reputation := reputation gs;
              maxReputation := maxReputation target;
              customersServed := customersServed gs;
              customerSatisfaction := customerSatisfaction gs;
              level := level gs;
              experience := experience gs;
              experiencePerLevel := experiencePerLevel target;
              milestones := milestones gs;
              lastSaveTime := now2;
              lastPlayTime := lastPlayTime gs;
              totalPlayTime := totalPlayTime gs;
              gameStartTime := gameStartTime gs |}
  /\ SaveManager.restoreState gs (SaveManager.load saved.2)
     = set_lastSaveTime now2 gs.
Proof.
  intros saved gs'. subst gs' saved.
  unfold SaveManager.save, SaveManager.load. cbn [fst snd].
  rewrite lookup_insert_ne by done. rewrite lookup_insert_eq.
  by destruct gs.
Qed.

(** C2 as stated fails on [lastSaveTime]: a model initialized at time 0,
    saved at time 1000 and restored, has [lastSaveTime] 1000. *)
Lemma restore_changes_lastSaveTime :
  let gs := fresh 0 in
  let saved := SaveManager.save 1000 1000 gs ∅ in
  let gs' := SaveManager.restoreState gs (SaveManager.load saved.2) in
  saved.1 = true
  /\ lastSaveTime gs = 0%Z /\ lastSaveTime gs' = 1000%Z /\ gs' <> gs.
Proof.
  intros gs saved gs'.
  split; [reflexivity |]. split; [reflexivity |].
  assert (Hlast : lastSaveTime gs' = 1000%Z) by (vm_compute; reflexivity).
  split; [exact Hlast |].
  intros Heq. rewrite Heq in Hlast. discriminate Hlast.
Qed.

(** * Further properties *)

(** ** Recipe upgrades *)

Lemma upgradeRecipe_true (gs : GameState) (recipeId : string) (r : Recipe) :
  recipes gs !! recipeId = Some r ->
  unlocked r = true ->
  upgradeCost r <= money gs ->
  Recipes.upgradeRecipe recipeId gs
  = (true, set_recipes (<[recipeId := upgraded r]> (recipes gs))
             (set_money (money gs - upgradeCost r) gs)).
Proof.
  intros Hr Hopen Hafford. apply ltb_false in Hafford.
  unfold Recipes.upgradeRecipe. rewrite Hr, Hopen. cbn [negb].
  by rewrite Hafford.
Qed.

Lemma upgradeRecipe_inv (gs : GameState) (recipeId : string) :
  (Recipes.upgradeRecipe recipeId gs).1 = true ->
  exists r : Recipe,
    recipes gs !! recipeId = Some r /\ unlocked r = true
    /\ upgradeCost r <= money gs.
Proof.
  unfold Recipes.upgradeRecipe.
  destruct (recipes gs !! recipeId) as [r|]; [| discriminate].
  destruct (unlocked r) eqn:Hopen; cbn [negb]; [| discriminate].
  destruct (JsMath.ltb _ _) eqn:Hcmp; [discriminate |].
  intros _. exists r. apply ltb_false in Hcmp. by repeat split.
Qed.

Lemma upgradeRecipe_false (gs : GameState) (recipeId : string) :
  (Recipes.upgradeRecipe recipeId gs).1 = false ->
  (Recipes.upgradeRecipe recipeId gs).2 = gs.
Proof.
  unfold Recipes.upgradeRecipe.
  destruct (recipes gs !! recipeId) as [r|]; [| done].
  destruct (unlocked r); cbn [negb]; [| done].
  by destruct (JsMath.ltb _ _).
Qed.

(** X1.  [Recipes.upgradeRecipe] returns true exactly when the recipe
    exists, is unlocked and its upgrade cost is at most the money; a
    false return leaves the whole state as it was.  On success the cost
    is debited, the recipe's level goes up by one, its current production
    becomes [ceil(baseProduction * 1.2^level)] for the new level and its
    upgrade cost [ceil(upgradeCost * 1.15)]; the recipe's other fields,
    the other recipes, the upgrades, the milestones, [totalBaked] and
    the cached [moneyPerSecond] are untouched. *)
Theorem upgradeRecipe_spec (gs : GameState) (recipeId : string) :
  ((Recipes.upgradeRecipe recipeId gs).1 = true
   <-> exists r : Recipe,
        recipes gs !! recipeId = Some r /\ unlocked r = true
        /\ upgradeCost r <= money gs)
  /\ ((Recipes.upgradeRecipe recipeId gs).1 = false ->
      (Recipes.upgradeRecipe recipeId gs).2 = gs)
  /\ (forall r : Recipe,
        recipes gs !! recipeId = Some r ->
        (Recipes.upgradeRecipe recipeId gs).1 = true ->
        let gs' := (Recipes.upgradeRecipe recipeId gs).2 in
        money gs' = money gs - upgradeCost r
        /\ (exists r' : Recipe,
              recipes gs' !! recipeId = Some r'
              /\ r_level r' = (r_level r + 1)%N
              /\ currentProduction r'
                 = JsMath.ceil (baseProduction r
                                * JsMath.pow (12 # 10) (r_level r'))
              /\ upgradeCost r' = JsMath.ceil (upgradeCost r * (115 # 100))
              /\ baseProduction r' = baseProduction r
              /\ unlocked r' = true
              /\ bakeCount r' = bakeCount r
              /\ totalProduction r' = totalProduction r)
        /\ (forall other : string,
              other <> recipeId -> recipes gs' !! other = recipes gs !! other)
        /\ upgrades gs' = upgrades gs /\ milestones gs' = milestones gs
        /\ totalBaked gs' = totalBaked gs
        /\ moneyPerSecond gs' = moneyPerSecond gs).
Proof.
  split; [| split].
  - split; [apply upgradeRecipe_inv |].
    intros (r & Hr & Hopen & Hafford).
    by rewrite (upgradeRecipe_true gs recipeId r).
  - apply upgradeRecipe_false.
  - intros r Hr Hok gs'.
    destruct (upgradeRecipe_inv gs recipeId Hok) as (r0 & Hr0 & Hopen & Hafford).
    assert (r0 = r) as -> by congruence.
    subst gs'. rewrite (upgradeRecipe_true gs recipeId r Hr Hopen Hafford).
    cbn [snd]. split; [reflexivity |]. split.
    + exists (upgraded r). split; [apply lookup_insert_eq |].
      by destruct r.
    + split; [| by repeat split].
      intros other Hne. cbn. by rewrite lookup_insert_ne.
Qed.

Lemma upgradeRecipe_spec_witness :
  let gs := fresh 0 in
  exists r : Recipe,
    recipes gs !! "cookie" = Some r
    /\ (Recipes.upgradeRecipe "cookie" gs).1 = true
    /\ money (Recipes.upgradeRecipe "cookie" gs).2 = money gs - upgradeCost r
    /\ (Recipes.upgradeRecipe "brownie" gs).1 = false
    /\ (Recipes.upgradeRecipe "brownie" gs).2 = gs.
Proof.
  intros gs.
  exists (newRecipe "cookie" "Sugar Cookie" "🍪" 1 2 1 true 10).
  assert (Hr : recipes gs !! "cookie"
               = Some (newRecipe "cookie" "Sugar Cookie" "🍪" 1 2 1 true 10))
    by (vm_compute; reflexivity).
  assert (Hok : (Recipes.upgradeRecipe "cookie" gs).1 = true)
    by (vm_compute; reflexivity).
  assert (Hno : (Recipes.upgradeRecipe "brownie" gs).1 = false)
    by (vm_compute; reflexivity).
  destruct (upgradeRecipe_spec gs "cookie") as (_ & _ & Heffect).
  destruct (upgradeRecipe_spec gs "brownie") as (_ & Hfail & _).
  split; [exact Hr |]. split; [exact Hok |].
  split; [exact (proj1 (Heffect _ Hr Hok)) |].
  split; [exact Hno | exact (Hfail Hno)].
Defined.

Lemma upgraded_fields (r : Recipe) :
  r_level (upgraded r) = (r_level r + 1)%N
  /\ currentProduction (upgraded r)
     = JsMath.ceil (baseProduction r * JsMath.pow (12 # 10) (r_level r + 1))
  /\ upgradeCost (upgraded r) = nextCost (upgradeCost r)
  /\ baseProduction (upgraded r) = baseProduction r
  /\ unlocked (upgraded r) = unlocked r.
Proof. by destruct r. Qed.

Lemma upgradeTimes_afford (recipeId : string) (n : nat) :
  forall (gs : GameState) (r : Recipe),
    recipes gs !! recipeId = Some r ->
    unlocked r = true ->
    0 <= upgradeCost r ->
    totalCost n (upgradeCost r) <= money gs ->
    exists (gs' : GameState) (r' : Recipe),
      upgradeTimes n recipeId gs = Some gs'
      /\ recipes gs' !! recipeId = Some r'
      /\ r_level r' = (r_level r + N.of_nat n)%N
      /\ upgradeCost r' = costAfter n (upgradeCost r)
      /\ baseProduction r' = baseProduction r
      /\ unlocked r' = true
      /\ ((0 < n)%nat ->
          currentProduction r'
          = JsMath.ceil (baseProduction r * JsMath.pow (12 # 10) (r_level r')))
      /\ money gs' == money gs - totalCost n (upgradeCost r).
Proof.
  induction n as [|n IH]; intros gs r Hr Hopen Hcost Hmoney.
  - exists gs, r. cbn. split; [reflexivity |]. split; [exact Hr |].
    split; [lia |]. do 3 (split; [done |]). split; [lia | ring].
  - cbn [totalCost] in Hmoney.
    pose proof (nextCost_nonneg _ Hcost) as Hnext.
    pose proof (totalCost_nonneg n _ Hnext) as Hrest.
    destruct (upgraded_fields r) as (Ul & Up & Uc & Ub & Uo).
    assert (Hafford : upgradeCost r <= money gs) by lra.
    pose proof (upgradeRecipe_true gs recipeId r Hr Hopen Hafford) as Hstep.
    set (gs1 := set_recipes (<[recipeId := upgraded r]> (recipes gs))
                  (set_money (money gs - upgradeCost r) gs)) in *.
    assert (Hr1 : recipes gs1 !! recipeId = Some (upgraded r))
      by apply lookup_insert_eq.
    destruct (IH gs1 (upgraded r) Hr1) as (gs' & r' & Hrun & Hr' & Hl & Hc & Hb & Ho & Hp & Hm).
    { by rewrite Uo. }
    { by rewrite Uc. }
    { rewrite Uc. change (money gs1) with (money gs - upgradeCost r). lra. }
    exists gs', r'. cbn [upgradeTimes costAfter totalCost]. rewrite Hstep.
    split; [exact Hrun |]. split; [exact Hr' |].
    split; [rewrite Hl, Ul; lia |].
    split; [by rewrite Hc, Uc |].
    split; [by rewrite Hb, Ub |].
    split; [exact Ho |].
    split.
    + intros _. destruct n as [|n].
      * cbn in Hrun. injection Hrun as <-.
        rewrite Hr1 in Hr'. injection Hr' as <-.
        by rewrite Up, Ul.
      * rewrite Hp by lia. by rewrite Ub.
    + rewrite Hm, Uc. change (money gs1) with (money gs - upgradeCost r). ring.
Qed.

(** X2.  With money for all of them, [n >= 1] upgrades of an unlocked
    recipe succeed; the recipe is then [n] levels higher, produces
    [ceil(baseProduction * 1.2^level)] for its new level (so
    [ceil(baseProduction * 1.2^n)] when it started at level 0), and its
    upgrade cost is the [n]-fold iterate of [c |-> ceil(c * 1.15)] on the
    cost it started with; the money has gone down by the [n] costs. *)
Theorem upgradeRecipe_repeated (recipeId : string) (n : nat) (gs : GameState)
    (r : Recipe) :
  (0 < n)%nat ->
  recipes gs !! recipeId = Some r ->
  unlocked r = true ->
  0 <= upgradeCost r ->
  totalCost n (upgradeCost r) <= money gs ->
  exists (gs' : GameState) (r' : Recipe),
    upgradeTimes n recipeId gs = Some gs'
    /\ recipes gs' !! recipeId = Some r'
    /\ r_level r' = (r_level r + N.of_nat n)%N
    /\ currentProduction r'
       = JsMath.ceil (baseProduction r * JsMath.pow (12 # 10) (r_level r'))
    /\ (r_level r = 0%N ->
        currentProduction r'
        = JsMath.ceil (baseProduction r * JsMath.pow (12 # 10) (N.of_nat n)))
    /\ upgradeCost r' = costAfter n (upgradeCost r)
    /\ money gs' == money gs - totalCost n (upgradeCost r).
Proof.
  intros Hn Hr Hopen Hcost Hmoney.
  destruct (upgradeTimes_afford recipeId n gs r Hr Hopen Hcost Hmoney)
    as (gs' & r' & Hrun & Hr' & Hl & Hc & _ & _ & Hp & Hm).
  exists gs', r'. split; [exact Hrun |]. split; [exact Hr' |].
  split; [exact Hl |]. split; [by apply Hp |].
  split; [| by split].
  intros Hzero. rewrite Hp by done. rewrite Hl, Hzero. by rewrite N.add_0_l.
Qed.

Lemma upgradeRecipe_repeated_witness :
  let gs := set_money 22 (fresh 0) in
  exists (r : Recipe) (gs' : GameState) (r' : Recipe),
    recipes gs !! "cookie" = Some r
    /\ unlocked r = true /\ 0 <= upgradeCost r
    /\ totalCost 2 (upgradeCost r) <= money gs
    /\ upgradeTimes 2 "cookie" gs = Some gs'
    /\ recipes gs' !! "cookie" = Some r'
    /\ r_level r' = 2%N
    /\ currentProduction r' == 2
    /\ upgradeCost r' == 14
    /\ money gs' == 0.
Proof.
  intros gs.
  pose (r := newRecipe "cookie" "Sugar Cookie" "🍪" 1 2 1 true 10).
  assert (Hr : recipes gs !! "cookie" = Some r) by (vm_compute; reflexivity).
  assert (Hopen : unlocked r = true) by reflexivity.
  assert (Hcost : 0 <= upgradeCost r) by (vm_compute; discriminate).
  assert (Hmoney : totalCost 2 (upgradeCost r) <= money gs)
    by (vm_compute; discriminate).
  destruct (upgradeRecipe_repeated "cookie" 2 gs r) as
    (gs' & r' & Hrun & Hr' & Hl & _ & Hp & Hc & Hm); try done; [lia |].
  exists r, gs', r'.
  do 4 (split; [done |]). split; [exact Hrun |]. split; [exact Hr' |].
  split; [exact Hl |].
  split; [rewrite Hp by reflexivity; vm_compute; reflexivity |].
  split; [rewrite Hc | rewrite Hm]; vm_compute; reflexivity.
Defined.

(** ** Shop upgrades *)

Lemma purchaseUpgrade_inv (gs : GameState) (upgradeId : string) :
  (purchaseUpgrade upgradeId gs).1 = true ->
  exists u : Upgrade,
    upgrades gs !! upgradeId = Some u
    /\ (u_level u < maxLevel u)%N
    /\ u_currentCost u <= money gs.
Proof.
  unfold purchaseUpgrade.
  destruct (upgrades gs !! upgradeId) as [u|]; [| discriminate].
  destruct (maxLevel u <=? u_level u)%N eqn:Hmax; [discriminate |].
  destruct (JsMath.ltb _ _) eqn:Hcmp; [discriminate |].
  intros _. exists u. apply N.leb_gt in Hmax. apply ltb_false in Hcmp.
  by repeat split.
Qed.



(** What the operations do to the upgrades: only a purchase touches
    them, and only the upgrade bought. *)
Lemma exec_upgrades (op : Op) (gs : GameState) :
  match op with
  | OpPurchaseUpgrade _ => True
  | _ => upgrades (exec op gs) = upgrades gs
  end.
Proof.
  destruct op; cbn [exec]; try exact I.
  - unfold bake.
    destruct (recipes gs !! bakeTarget recipe gs) as [r|]; [| done].
    destruct (unlocked r); cbn [negb]; [| done].
    rewrite state_after_bind.
    match goal with
    | |- context [checkMilestones ?s] =>
        pose proof (checkMilestones_frame s) as (_ & U & _);
        destruct (checkMilestones s) as [[] gs1 | gs1]
    end; exact U.
  - unfold Recipes.bakeRecipe.
    destruct (recipes gs !! recipeId) as [r|]; [| done]. by destruct (unlocked r).
  - unfold unlockRecipe. by destruct (recipes gs !! recipeId).
  - unfold Recipes.upgradeRecipe.
    destruct (recipes gs !! recipeId) as [r|]; [| done].
    destruct (unlocked r); [| done]. by destruct (JsMath.ltb _ _).
  - unfold hireAutoBaker. by destruct (JsMath.ltb _ _).
  - done.
  - unfold OfflineProgress.tick. by destruct (JsMath.gtb _ _).
  - unfold OfflineProgress.applyOfflineProgress. by destruct (JsMath.leb _ _).
  - apply (checkMilestones_frame gs).
Qed.

Lemma purchaseUpgrade_upgrades (gs : GameState) (upgradeId : string) :
  upgrades (purchaseUpgrade upgradeId gs).2 = upgrades gs
  \/ exists u : Upgrade,
      upgrades gs !! upgradeId = Some u
      /\ (u_level u < maxLevel u)%N
      /\ upgrades (purchaseUpgrade upgradeId gs).2
         = <[upgradeId :=
               set_u_currentCost (priceAt (u_baseCost u) (u_level u + 1))
                 (set_u_level (u_level u + 1)%N u)]> (upgrades gs).
Proof.
  unfold purchaseUpgrade.
  destruct (upgrades gs !! upgradeId) as [u|]; [| by left].
  destruct (maxLevel u <=? u_level u)%N eqn:Hmax; [by left |].
  destruct (JsMath.ltb _ _); [by left |].
  right. exists u. apply N.leb_gt in Hmax.
  split; [reflexivity |]. split; [exact Hmax |].
  unfold applyUpgradeBonus. by destruct u as [? ? ? ? ? ? ? ? ? []].
Qed.

Lemma exec_upgradeInvariant (op : Op) (gs : GameState) :
  map_Forall (fun _ u => upgradeInvariant u) (upgrades gs) ->
  map_Forall (fun _ u => upgradeInvariant u) (upgrades (exec op gs)).
Proof.
  intros Hinv. pose proof (exec_upgrades op gs) as Hop.
  destruct op; try (by rewrite Hop). cbn [exec].
  destruct (purchaseUpgrade_upgrades gs upgradeId) as [-> | (u & Hu & Hlevel & ->)];
    [exact Hinv |].
  apply map_Forall_insert_2; [| exact Hinv].
  destruct u; cbn in *. split; cbn; [lia | reflexivity].
Qed.

Lemma execAll_upgrades (ops : list Op) :
  forall gs : GameState,
    map_Forall (fun _ u => upgradeInvariant u) (upgrades gs) ->
    dom (upgrades (execAll ops gs)) = dom (upgrades gs)
    /\ map_Forall (fun _ u => upgradeInvariant u) (upgrades (execAll ops gs)).
Proof.
  induction ops as [|op ops IH]; intros gs Hinv; [done |].
  cbn [execAll foldl].
  destruct (IH (exec op gs) (exec_upgradeInvariant op gs Hinv)) as [Hdom Hall].
  split; [| exact Hall].
  unfold execAll in Hdom. rewrite Hdom.
  pose proof (exec_upgrades op gs) as Hop.
  destruct op; try (by rewrite Hop). cbn [exec].
  destruct (purchaseUpgrade_upgrades gs upgradeId) as [-> | (u & Hu & _ & ->)];
    [reflexivity |].
  apply dom_insert_lookup_L. by eexists.
Qed.

(** X4.  Along every run of the engine from a fresh model the upgrades
    are the three initial ones, and each keeps its invariant: its level
    never exceeds its maximum level and its current cost is the price
    of its level, the ceiling of the rounded product of its base cost
    and [1.1^level] (100 at level 0 for the oven, then 111 and 122). *)
Theorem upgrades_stay_in_bounds (now : Z) (ops : list Op) :
  let gs := execAll ops (fresh now) in
  dom (upgrades gs) = dom (upgrades (fresh now))
  /\ forall (upgradeId : string) (u : Upgrade),
      upgrades gs !! upgradeId = Some u ->
      (u_level u <= maxLevel u)%N
      /\ u_currentCost u == priceAt (u_baseCost u) (u_level u).
Proof.
  apply execAll_upgrades.
  unfold fresh, initialize, initializeMilestones, initializeUpgrades.
  cbn [upgrades set_milestones set_upgrades].
  repeat apply map_Forall_insert_2; [.. | apply map_Forall_empty];
    (split; [cbn; lia | vm_compute; reflexivity]).
Qed.

Lemma upgrades_stay_in_bounds_witness :
  let gs :=
    execAll (replicate 40 (OpBake None) ++ [OpPurchaseUpgrade "betterOven"])
      (fresh 0) in
  exists u : Upgrade,
    upgrades gs !! "betterOven" = Some u
    /\ money gs == 0
    /\ u_level u = 1%N
    /\ priceAt (u_baseCost u) (u_level u) == 111
    /\ u_currentCost u == 111.
Proof.
  intros gs.
  assert (Hu : upgrades gs !! "betterOven"
               = Some (set_u_currentCost 111
                         (set_u_level 1
                            (newUpgrade "betterOven" "Better Oven" "🔥" 10 100
                               "+5% production per level" (105 # 100) production))))
    by (vm_compute; reflexivity).
  eexists. split; [exact Hu |].
  split; [vm_compute; reflexivity |]. split; [reflexivity |].
  assert (Hprice : priceAt 100 1 == 111) by (vm_compute; reflexivity).
  split; [exact Hprice |].
  destruct (proj2 (upgrades_stay_in_bounds 0
                     (replicate 40 (OpBake None) ++ [OpPurchaseUpgrade "betterOven"]))
              "betterOven" _ Hu) as [_ Hcost].
  rewrite Hcost. exact Hprice.
Defined.

Lemma pair_true_fst {A : Type} (p : bool * A) (a : A) : p = (true, a) -> p.1 = true.
Proof. by intros ->. Qed.

(** X5.  Both upgrade paths write [currentProduction], and the last one
    wins.  A production upgrade bought after a recipe upgrade sets the
    recipe's production to [ceil(baseProduction * bonus^level)] with the
    level of the shop upgrade, whatever level the recipe has reached; a
    recipe upgrade after a production upgrade sets that recipe's
    production to [ceil(baseProduction * 1.2^level)] with the recipe's
    level, dropping the shop bonus for it and keeping it for the
    others. *)
Theorem production_last_writer_wins (gs : GameState) (recipeId upgradeId : string)
    (r : Recipe) (u : Upgrade) :
  recipes gs !! recipeId = Some r ->
  upgrades gs !! upgradeId = Some u ->
  u_type u = production ->
  (forall gs1 gs2 : GameState,
      Recipes.upgradeRecipe recipeId gs = (true, gs1) ->
      purchaseUpgrade upgradeId gs1 = (true, gs2) ->
      exists r2 : Recipe,
        recipes gs2 !! recipeId = Some r2
        /\ r_level r2 = (r_level r + 1)%N
        /\ currentProduction r2
           = JsMath.ceil (baseProduction r
                          * JsMath.pow (bonus u) (u_level u + 1)))
  /\ (forall gs1 gs2 : GameState,
        purchaseUpgrade upgradeId gs = (true, gs1) ->
        Recipes.upgradeRecipe recipeId gs1 = (true, gs2) ->
        (exists r2 : Recipe,
            recipes gs2 !! recipeId = Some r2
            /\ r_level r2 = (r_level r + 1)%N
            /\ currentProduction r2
               = JsMath.ceil (baseProduction r
                              * JsMath.pow (12 # 10) (r_level r + 1)))
        /\ forall other : string,
            other <> recipeId ->
            recipes gs2 !! other
            = boosted (bonus u) (u_level u + 1) <$> recipes gs !! other).
Proof.
  intros Hr Hu Hprod. split.
  - intros gs1 gs2 Hup Hbuy.
    destruct (upgradeRecipe_inv gs recipeId (pair_true_fst _ _ Hup))
      as (r0 & Hr0 & Hopen & Hafford).
    assert (r0 = r) as -> by congruence.
    rewrite (upgradeRecipe_true gs recipeId r Hr Hopen Hafford) in Hup.
    injection Hup as <-.
    destruct (purchaseUpgrade_inv _ upgradeId (pair_true_fst _ _ Hbuy))
      as (u0 & Hu0 & Hlevel & Hcost).
    assert (u0 = u) as -> by (cbn in Hu0; congruence).
    destruct (purchaseUpgrade_ok _ upgradeId u Hu0 Hlevel Hcost)
      as (gs' & u' & Hbuy' & _ & _ & Hl & _ & Hrecipes & _).
    assert (gs' = gs2) as -> by congruence.
    exists (boosted (bonus u) (u_level u + 1) (upgraded r)).
    rewrite (Hrecipes Hprod), Hl. cbn. rewrite lookup_insert_eq.
    split; [reflexivity |]. by destruct r.
  - intros gs1 gs2 Hbuy Hup.
    destruct (purchaseUpgrade_inv gs upgradeId (pair_true_fst _ _ Hbuy))
      as (u0 & Hu0 & Hlevel & Hcost).
    assert (u0 = u) as -> by congruence.
    destruct (purchaseUpgrade_ok gs upgradeId u Hu Hlevel Hcost)
      as (gs' & u' & Hbuy' & _ & _ & Hl & _ & Hrecipes & _).
    assert (gs' = gs1) as -> by congruence.
    specialize (Hrecipes Hprod). rewrite Hl in Hrecipes.
    assert (Hr1 : recipes gs1 !! recipeId
                  = Some (boosted (bonus u) (u_level u + 1) r))
      by by rewrite Hrecipes, Hr.
    destruct (upgradeRecipe_inv gs1 recipeId (pair_true_fst _ _ Hup))
      as (r1 & Hr1' & Hopen & Hafford).
    assert (r1 = boosted (bonus u) (u_level u + 1) r) as -> by congruence.
    rewrite (upgradeRecipe_true gs1 recipeId _ Hr1 Hopen Hafford) in Hup.
    injection Hup as <-. cbn [recipes set_recipes]. split.
    + eexists. rewrite lookup_insert_eq. split; [reflexivity |]. by destruct r.
    + intros other Hne. cbn. by rewrite lookup_insert_ne, Hrecipes.
Qed.

Lemma production_last_writer_wins_witness :
  let gs := set_money 200 (fresh 0) in
  exists (gs1 gs2 : GameState) (r2 : Recipe),
    Recipes.upgradeRecipe "cookie" gs = (true, gs1)
    /\ purchaseUpgrade "betterOven" gs1 = (true, gs2)
    /\ recipes gs2 !! "cookie" = Some r2
    /\ r_level r2 = 1%N
    /\ currentProduction r2 = JsMath.ceil (1 * JsMath.pow (105 # 100) (0 + 1)).
Proof.
  intros gs.
  pose (gs1 := (Recipes.upgradeRecipe "cookie" gs).2).
  pose (gs2 := (purchaseUpgrade "betterOven" gs1).2).
  assert (Hup : Recipes.upgradeRecipe "cookie" gs = (true, gs1))
    by (vm_compute; reflexivity).
  assert (Hbuy : purchaseUpgrade "betterOven" gs1 = (true, gs2))
    by (vm_compute; reflexivity).
  destruct (production_last_writer_wins gs "cookie" "betterOven"
              (newRecipe "cookie" "Sugar Cookie" "🍪" 1 2 1 true 10)
              (newUpgrade "betterOven" "Better Oven" "🔥" 10 100
                 "+5% production per level" (105 # 100) production))
    as [Hfirst _]; [vm_compute; reflexivity .. | reflexivity |].
  destruct (Hfirst gs1 gs2 Hup Hbuy) as (r2 & Hr2 & Hl & Hp).
  exists gs1, gs2, r2. by repeat split.
Defined.

(** ** Ticks *)

Lemma tick_idle (gs : GameState) :
  moneyPerSecond gs <= 0 -> (OfflineProgress.tick gs).2 = gs.
Proof.
  intros Hidle. apply gtb_false in Hidle.
  unfold OfflineProgress.tick. by rewrite Hidle.
Qed.

Lemma tick_recipe (gs : GameState) (recipeId : string) :
  match recipes gs !! recipeId, recipes (OfflineProgress.tick gs).2 !! recipeId with
  | Some r, Some r' =>
      r' = set_totalProduction (totalProduction r') r
      /\ (0 < moneyPerSecond gs ->
          totalProduction r' == totalProduction r + bookedPerTick r)
      /\ (moneyPerSecond gs <= 0 -> r' = r)
  | None, None => True
  | _, _ => False
  end.
Proof.
  unfold OfflineProgress.tick.
  destruct (JsMath.gtb (moneyPerSecond gs) 0) eqn:Hpos.
  - apply ltb_true in Hpos. cbn. rewrite lookup_fmap.
    destruct (recipes gs !! recipeId) as [r|]; [| done]. cbn.
    unfold bookedPerTick. fold (leveled r). fold (tenthOf r).
    destruct (leveled r); cbn [andb].
    + destruct (JsMath.gtb _ 0); (split; [by destruct r |]);
        (split; [intros _; cbn; ring | lra]).
    + split; [by destruct r |]. split; [intros _; ring | lra].
  - apply gtb_false in Hpos. cbn.
    destruct (recipes gs !! recipeId) as [r|]; [| done].
    split; [by destruct r |]. split; [lra | done].
Qed.

Lemma tick_frame (gs : GameState) :
  let gs' := (OfflineProgress.tick gs).2 in
  moneyPerSecond gs' = moneyPerSecond gs
  /\ totalBaked gs' = totalBaked gs
  /\ autoBakers gs' = autoBakers gs
  /\ autoBakerCost gs' = autoBakerCost gs
  /\ upgrades gs' = upgrades gs
  /\ milestones gs' = milestones gs
  /\ (0 < moneyPerSecond gs ->
      money gs' = money gs + moneyPerSecond gs
      /\ totalMoneyEarned gs' = totalMoneyEarned gs + moneyPerSecond gs).
Proof.
  unfold OfflineProgress.tick.
  destruct (JsMath.gtb (moneyPerSecond gs) 0) eqn:Hpos; cbn.
  - by repeat split.
  - apply gtb_false in Hpos. repeat split; lra.
Qed.

Lemma inject_nat_succ (n : nat) :
  inject_Z (Z.of_nat (S n)) == inject_Z (Z.of_nat n) + 1.
Proof. rewrite Nat2Z.inj_succ, <- Z.add_1_r, inject_Z_plus. reflexivity. Qed.




(** ** Offline progress, continued *)

Lemma min_within_cap (secondsOffline : Q) :
  secondsOffline <= OfflineProgress.MAX_OFFLINE_TIME ->
  JsMath.min secondsOffline OfflineProgress.MAX_OFFLINE_TIME = secondsOffline.
Proof.
  intros Hshort. apply Qle_bool_iff in Hshort.
  unfold JsMath.min. by rewrite Hshort.
Qed.

Lemma min_le_cap (secondsOffline : Q) :
  JsMath.min secondsOffline OfflineProgress.MAX_OFFLINE_TIME
  <= OfflineProgress.MAX_OFFLINE_TIME.
Proof.
  unfold JsMath.min. destruct (Qle_bool _ _) eqn:Hle; [| apply Qle_refl].
  by apply Qle_bool_iff.
Qed.

Lemma min_at_cap (secondsOffline : Q) :
  OfflineProgress.MAX_OFFLINE_TIME <= secondsOffline ->
  JsMath.min secondsOffline OfflineProgress.MAX_OFFLINE_TIME
  == OfflineProgress.MAX_OFFLINE_TIME.
Proof.
  intros Hlong. unfold JsMath.min.
  destruct (Qle_bool _ _) eqn:Hle; [| reflexivity].
  apply Qle_bool_iff in Hle. by apply Qle_antisym.
Qed.

(** X8.  [applyOfflineProgress] with non-positive seconds returns the
    zero result and leaves the whole state as it was.  With positive
    seconds up to the cap it credits the floor of the income rate times
    these seconds to [money] and [totalMoneyEarned], adds the floor of
    [autoBakers*5*seconds/5] to [totalBaked], reports both, and changes
    nothing else: no milestone is evaluated, no recipe touched, and the
    cached rate stays.  The rate, the product and the quotient are those
    of double arithmetic. *)
Theorem applyOfflineProgress_within_cap (gs : GameState) (secondsOffline : Q) :
  (secondsOffline <= 0 ->
   OfflineProgress.applyOfflineProgress gs secondsOffline
   = ({| OfflineProgress.moneyGained := 0; OfflineProgress.itemsBaked := 0 |}, gs))
  /\ (0 < secondsOffline ->
      secondsOffline <= OfflineProgress.MAX_OFFLINE_TIME ->
      let gained := JsMath.floor (JsMath.mul (incomeRate gs) secondsOffline) in
      let baked :=
        Qfloor (JsMath.div
                  (JsMath.mul (JsMath.ofN (autoBakers gs) * 5) secondsOffline) 5) in
      OfflineProgress.applyOfflineProgress gs secondsOffline
      = ({| OfflineProgress.moneyGained := gained;
            OfflineProgress.itemsBaked := baked |},
         set_totalBaked (totalBaked gs + baked)%Z
           (set_totalMoneyEarned (totalMoneyEarned gs + gained)
              (set_money (money gs + gained) gs)))).
Proof.
  split.
  - intros Hnone. apply Qle_bool_iff in Hnone.
    unfold OfflineProgress.applyOfflineProgress, JsMath.leb. by rewrite Hnone.
  - intros Hpos Hshort gained baked.
    apply leb_false in Hpos.
    unfold OfflineProgress.applyOfflineProgress. rewrite Hpos.
    unfold OfflineProgress.calculateOfflineEarnings.
    rewrite (min_within_cap _ Hshort).
    cbn [OfflineProgress.earnings OfflineProgress.autoBakerIncome].
    by rewrite itemsBaked_estimate, incomeRate_code.
Qed.

Lemma applyOfflineProgress_within_cap_witness :
  let gs := (hireAutoBaker (set_money 50 (fresh 0))).2 in
  0 < 90 /\ 90 <= OfflineProgress.MAX_OFFLINE_TIME
  /\ (OfflineProgress.applyOfflineProgress gs 90).1
     = {| OfflineProgress.moneyGained :=
            JsMath.floor (JsMath.mul (incomeRate gs) 90);
          OfflineProgress.itemsBaked := 90 |}
  /\ JsMath.floor (JsMath.mul (incomeRate gs) 90) == 450
  /\ -1 <= 0
  /\ OfflineProgress.applyOfflineProgress gs (-1)
     = ({| OfflineProgress.moneyGained := 0; OfflineProgress.itemsBaked := 0 |}, gs).
Proof.
  intros gs.
  assert (H1 : 0 < 90) by reflexivity.
  assert (H2 : 90 <= OfflineProgress.MAX_OFFLINE_TIME) by (vm_compute; discriminate).
  assert (H3 : -1 <= 0) by (vm_compute; discriminate).
  destruct (applyOfflineProgress_within_cap gs 90) as [_ Hwithin].
  destruct (applyOfflineProgress_within_cap gs (-1)) as [Hnone _].
  split; [exact H1 |]. split; [exact H2 |].
  split.
  { rewrite (Hwithin H1 H2). cbn [fst]. f_equal; vm_compute; reflexivity. }
  split; [vm_compute; reflexivity |].
  split; [exact H3 | exact (Hnone H3)].
Defined.

Lemma recipeIncomeSum_nonneg (gs : GameState) :
  map_Forall (fun _ r => 0 <= baseProduction r /\ 0 <= currentProduction r)
    (recipes gs) ->
  0 <= recipeIncomeSum gs.
Proof.
  intros Hall. unfold recipeIncomeSum. rewrite <- addRecipeIncome_sum.
  by apply addRecipeIncome_nonneg.
Qed.

Lemma incomeRate_nonneg (gs : GameState) :
  map_Forall (fun _ r => 0 <= baseProduction r /\ 0 <= currentProduction r)
    (recipes gs) ->
  0 <= incomeRate gs.
Proof.
  intros Hall. unfold incomeRate. apply add_nonneg.
  - pose proof (ofN_nonneg (autoBakers gs)). lra.
  - by apply recipeIncomeSum_nonneg.
Qed.

Lemma offline_gain (gs : GameState) (secondsOffline : Q) :
  0 < secondsOffline ->
  OfflineProgress.moneyGained
    (OfflineProgress.applyOfflineProgress gs secondsOffline).1
  = JsMath.floor
      (JsMath.mul (incomeRate gs)
         (JsMath.min secondsOffline OfflineProgress.MAX_OFFLINE_TIME)).
Proof.
  intros Hpos. apply leb_false in Hpos.
  unfold OfflineProgress.applyOfflineProgress. rewrite Hpos.
  cbn [fst OfflineProgress.moneyGained OfflineProgress.earnings
       OfflineProgress.calculateOfflineEarnings].
  by rewrite incomeRate_code.
Qed.

Lemma floor_le (x y : Q) : x <= y -> JsMath.floor x <= JsMath.floor y.
Proof.
  intros Hxy. unfold JsMath.floor. rewrite <- Zle_Qle. by apply Qfloor_resp_le.
Qed.

Lemma mul_le (x y z : Q) : 0 <= x -> y <= z -> JsMath.mul x y <= JsMath.mul x z.
Proof. intros Hx Hyz. apply double_mono. nra. Qed.

Lemma offline_gain_bounds (gs : GameState) (secondsOffline : Q) :
  map_Forall (fun _ r => 0 <= baseProduction r /\ 0 <= currentProduction r)
    (recipes gs) ->
  let result := (OfflineProgress.applyOfflineProgress gs secondsOffline).1 in
  let gs' := (OfflineProgress.applyOfflineProgress gs secondsOffline).2 in
  let full :=
    JsMath.floor (JsMath.mul (incomeRate gs) OfflineProgress.MAX_OFFLINE_TIME) in
  0 <= OfflineProgress.moneyGained result
  /\ OfflineProgress.moneyGained result <= full
  /\ (OfflineProgress.MAX_OFFLINE_TIME <= secondsOffline ->
      OfflineProgress.moneyGained result = full)
  /\ (0 <= OfflineProgress.itemsBaked result)%Z
  /\ money gs <= money gs'
  /\ totalMoneyEarned gs <= totalMoneyEarned gs'
  /\ (totalBaked gs <= totalBaked gs')%Z.
Proof.
  intros Hall result gs' full.
  pose proof (incomeRate_nonneg gs Hall) as Hrate.
  assert (Hfull : 0 <= full).
  { apply floor_nonneg, mul_nonneg; [exact Hrate | discriminate]. }
  subst result gs'. unfold OfflineProgress.applyOfflineProgress.
  destruct (JsMath.leb secondsOffline 0) eqn:Hsecs.
  - apply Qle_bool_iff in Hsecs. cbn [fst snd OfflineProgress.moneyGained
                                      OfflineProgress.itemsBaked].
    split; [apply Qle_refl |]. split; [exact Hfull |].
    split; [intros Hlong; pose proof MAX_OFFLINE_TIME_value; lra |].
    split; [lia |]. split; [apply Qle_refl |]. split; [apply Qle_refl | lia].
  - apply leb_false in Hsecs.
    cbn [fst snd OfflineProgress.moneyGained OfflineProgress.itemsBaked
         OfflineProgress.earnings OfflineProgress.autoBakerIncome
         OfflineProgress.calculateOfflineEarnings
         money totalMoneyEarned totalBaked
         set_money set_totalMoneyEarned set_totalBaked].
    rewrite incomeRate_code.
    assert (Hcapped : 0 <= JsMath.min secondsOffline OfflineProgress.MAX_OFFLINE_TIME
                      <= OfflineProgress.MAX_OFFLINE_TIME).
    { split; [| apply min_le_cap].
      unfold JsMath.min. destruct (Qle_bool _ _); [lra | discriminate]. }
    pose proof (min_at_cap secondsOffline) as Hat.
    revert Hcapped Hat.
    generalize (JsMath.min secondsOffline OfflineProgress.MAX_OFFLINE_TIME).
    intros capped [Hcap Hcap'] Hat.
    assert (Hgain : 0 <= JsMath.floor (JsMath.mul (incomeRate gs) capped))
      by (apply floor_nonneg, mul_nonneg; done).
    assert (Hbaked : (0 <= if JsMath.gtb (JsMath.ofN (autoBakers gs) * 5) 0
                           then Qfloor
                                  (JsMath.div
                                     (JsMath.mul (JsMath.ofN (autoBakers gs) * 5)
                                        secondsOffline) 5)
                           else 0)%Z).
    { destruct (JsMath.gtb _ 0) eqn:Hcmp; [| lia].
      apply ltb_true in Hcmp. change 0%Z with (Qfloor 0).
      apply Qfloor_resp_le, div_nonneg; [| reflexivity].
      apply mul_nonneg; lra. }
    split; [exact Hgain |].
    split; [by apply floor_le, mul_le |].
    split.
    { intros Hlong. unfold JsMath.mul.
      by rewrite (double_proper _ (incomeRate gs * OfflineProgress.MAX_OFFLINE_TIME))
        by (by rewrite (Hat Hlong)). }
    split; [exact Hbaked |].
    split; [lra |]. split; [lra | lia].
Qed.

(** X9.  The offline credit is capped: in a state whose productions are
    not negative, whatever the seconds, the money gained is not negative
    and is at most what a full seven days give, and equals it from the
    cap on; the items baked are not negative either.  So [money],
    [totalMoneyEarned] and [totalBaked] never decrease.  What seven days
    give is the floor of the product, in double arithmetic, of the
    income rate and 604800. *)
Theorem offline_gain_capped (gs : GameState) (secondsOffline : Q) :
  map_Forall (fun _ r => 0 <= baseProduction r /\ 0 <= currentProduction r)
    (recipes gs) ->
  let result := (OfflineProgress.applyOfflineProgress gs secondsOffline).1 in
  let gs' := (OfflineProgress.applyOfflineProgress gs secondsOffline).2 in
  let full :=
    JsMath.floor (JsMath.mul (incomeRate gs) OfflineProgress.MAX_OFFLINE_TIME) in
  0 <= OfflineProgress.moneyGained result
  /\ OfflineProgress.moneyGained result <= full
  /\ (OfflineProgress.MAX_OFFLINE_TIME <= secondsOffline ->
      OfflineProgress.moneyGained result = full)
  /\ (0 <= OfflineProgress.itemsBaked result)%Z
  /\ money gs <= money gs'
  /\ totalMoneyEarned gs <= totalMoneyEarned gs'
  /\ (totalBaked gs <= totalBaked gs')%Z.
Proof. apply offline_gain_bounds. Qed.

Lemma offline_gain_capped_witness :
  let gs :=
    execAll [OpUnlockRecipe "brownie"; OpUpgradeRecipe "cookie";
             OpUpgradeRecipe "brownie"]
      (set_money 100 (fresh 0)) in
  map_Forall (fun _ r => 0 <= baseProduction r /\ 0 <= currentProduction r)
    (recipes gs)
  /\ incomeRate gs == 1 # 2
  /\ OfflineProgress.moneyGained
       (OfflineProgress.applyOfflineProgress gs 1000000).1
     <= JsMath.floor (JsMath.mul (incomeRate gs) OfflineProgress.MAX_OFFLINE_TIME)
  /\ OfflineProgress.moneyGained
       (OfflineProgress.applyOfflineProgress gs 1000000).1 == 302400.
Proof.
  intros gs.
  assert (Hall : map_Forall
                   (fun _ r => 0 <= baseProduction r /\ 0 <= currentProduction r)
                   (recipes gs)).
  { apply map_Forall_to_list. vm_compute. repeat constructor; discriminate. }
  split; [exact Hall |].
  split; [vm_compute; reflexivity |].
  split; [exact (proj1 (proj2 (offline_gain_capped gs 1000000 Hall))) |].
  vm_compute. reflexivity.
Defined.

(** X10.  [getOfflineProgressSummary] reports the capped seconds, which
    never exceed seven days; for positive seconds the earnings it
    reports are what [applyOfflineProgress] credits.  For negative seconds the two part
    ways: with a positive income rate the summary reports negative
    earnings, while [applyOfflineProgress] credits nothing. *)
Theorem offline_summary_agrees (gs : GameState) (secondsOffline : Q) :
  let summary := OfflineProgress.getOfflineProgressSummary gs secondsOffline in
  let result := (OfflineProgress.applyOfflineProgress gs secondsOffline).1 in
  OfflineProgress.timeOffline summary
  = JsMath.min secondsOffline OfflineProgress.MAX_OFFLINE_TIME
  /\ OfflineProgress.timeOffline summary <= OfflineProgress.MAX_OFFLINE_TIME
  /\ (0 < secondsOffline ->
      OfflineProgress.totalEarnings summary = OfflineProgress.moneyGained result)
  /\ (secondsOffline < 0 -> 0 < incomeRate gs ->
      OfflineProgress.totalEarnings summary < 0
      /\ OfflineProgress.moneyGained result = 0).
Proof.
  cbn zeta.
  assert (Hsum : OfflineProgress.totalEarnings
                   (OfflineProgress.getOfflineProgressSummary gs secondsOffline)
                 = JsMath.floor
                     (JsMath.mul (incomeRate gs)
                        (JsMath.min secondsOffline OfflineProgress.MAX_OFFLINE_TIME))).
  { cbn [OfflineProgress.totalEarnings OfflineProgress.getOfflineProgressSummary
         OfflineProgress.earnings OfflineProgress.calculateOfflineEarnings].
    by rewrite incomeRate_code. }
  split; [reflexivity |]. split; [apply min_le_cap |].
  split.
  - intros Hpos. by rewrite Hsum, offline_gain.
  - intros Hneg Hrate. split.
    + rewrite Hsum.
      assert (Hmin : JsMath.min secondsOffline OfflineProgress.MAX_OFFLINE_TIME
                     = secondsOffline).
      { apply min_within_cap. pose proof MAX_OFFLINE_TIME_value. lra. }
      rewrite Hmin.
      assert (Hprod : JsMath.mul (incomeRate gs) secondsOffline < 0)
        by (apply double_neg; nra).
      pose proof (Qfloor_le (JsMath.mul (incomeRate gs) secondsOffline)) as Hfloor.
      revert Hprod Hfloor. unfold JsMath.floor.
      generalize (JsMath.mul (incomeRate gs) secondsOffline).
      intros x Hx. generalize (inject_Z (Qfloor x)). intros y Hy. lra.
    + assert (Hle : secondsOffline <= 0) by lra.
      apply Qle_bool_iff in Hle.
      unfold OfflineProgress.applyOfflineProgress, JsMath.leb. by rewrite Hle.
Qed.

Lemma offline_summary_agrees_witness :
  let gs := (hireAutoBaker (set_money 50 (fresh 0))).2 in
  -2 < 0 /\ 0 < incomeRate gs
  /\ OfflineProgress.totalEarnings
       (OfflineProgress.getOfflineProgressSummary gs (-2)) < 0
  /\ OfflineProgress.moneyGained
       (OfflineProgress.applyOfflineProgress gs (-2)).1 = 0
  /\ 0 < 7
  /\ OfflineProgress.totalEarnings
       (OfflineProgress.getOfflineProgressSummary gs 7)
     = OfflineProgress.moneyGained
         (OfflineProgress.applyOfflineProgress gs 7).1.
Proof.
  intros gs.
  assert (Hneg : -2 < 0) by reflexivity.
  assert (Hrate : 0 < incomeRate gs) by (vm_compute; reflexivity).
  assert (Hpos : 0 < 7) by reflexivity.
  destruct (offline_summary_agrees gs (-2)) as (_ & _ & _ & Hpart).
  destruct (offline_summary_agrees gs 7) as (_ & _ & Hsame & _).
  split; [exact Hneg |]. split; [exact Hrate |].
  split; [exact (proj1 (Hpart Hneg Hrate)) |].
  split; [exact (proj2 (Hpart Hneg Hrate)) |].
  split; [exact Hpos | exact (Hsame Hpos)].
Defined.

Lemma gtb_true (a b : Q) : JsMath.gtb a b = true <-> b < a.
Proof. apply ltb_true. Qed.



(** ** Unlocking *)

Lemma unlockRecipe_present (gs : GameState) (recipeId : string) (r : Recipe) :
  recipes gs !! recipeId = Some r ->
  unlockRecipe recipeId gs
  = set_recipes (<[recipeId := set_unlocked true r]> (recipes gs)) gs.
Proof. intros Hr. unfold unlockRecipe. by rewrite Hr. Qed.

Lemma unlockRecipe_absent (gs : GameState) (recipeId : string) :
  recipes gs !! recipeId = None -> unlockRecipe recipeId gs = gs.
Proof. intros Hr. unfold unlockRecipe. by rewrite Hr. Qed.

(** X12.  [unlockRecipe] is idempotent, does nothing for an id that
    names no recipe, and otherwise sets the recipe's [unlocked] flag and
    nothing else, so that a bake of that recipe then succeeds.  It never
    locks a recipe. *)
Theorem unlockRecipe_spec (gs : GameState) (recipeId : string) :
  unlockRecipe recipeId (unlockRecipe recipeId gs) = unlockRecipe recipeId gs
  /\ (recipes gs !! recipeId = None -> unlockRecipe recipeId gs = gs)
  /\ (forall r : Recipe,
        recipes gs !! recipeId = Some r ->
        unlockRecipe recipeId gs
        = set_recipes (<[recipeId := set_unlocked true r]> (recipes gs)) gs
        /\ (Recipes.bakeRecipe recipeId (unlockRecipe recipeId gs)).1 = true)
  /\ (forall (other : string) (r : Recipe),
        recipes gs !! other = Some r -> unlocked r = true ->
        unlocked <$> recipes (unlockRecipe recipeId gs) !! other = Some true)
  /\ (forall other : string,
        other <> recipeId ->
        recipes (unlockRecipe recipeId gs) !! other = recipes gs !! other).
Proof.
  destruct (recipes gs !! recipeId) as [r|] eqn:Hr.
  - rewrite (unlockRecipe_present gs recipeId r Hr).
    split; [| split; [done | split; [| split]]].
    + rewrite (unlockRecipe_present _ recipeId (set_unlocked true r))
        by apply lookup_insert_eq.
      cbn. rewrite insert_insert_eq. by destruct r.
    + intros r0 [= <-]. split; [reflexivity |].
      unfold Recipes.bakeRecipe. cbn. rewrite lookup_insert_eq. by destruct r.
    + intros other r0 Hother Hopen. cbn.
      destruct (decide (recipeId = other)) as [<- | Hne].
      * rewrite lookup_insert_eq. by destruct r.
      * rewrite lookup_insert_ne by done. by rewrite Hother, <- Hopen.
    + intros other Hne. cbn. by rewrite lookup_insert_ne.
  - rewrite (unlockRecipe_absent gs recipeId Hr).
    split; [by apply unlockRecipe_absent |].
    split; [done |]. split; [done |]. split; [| done].
    intros other r Hother Hopen. by rewrite Hother, <- Hopen.
Qed.

Lemma unlockRecipe_spec_witness :
  let gs := fresh 0 in
  recipes gs !! "pie" = None
  /\ unlockRecipe "pie" gs = gs
  /\ (Recipes.bakeRecipe "cake" gs).1 = false
  /\ (Recipes.bakeRecipe "cake" (unlockRecipe "cake" gs)).1 = true.
Proof.
  intros gs.
  assert (Hpie : recipes gs !! "pie" = None) by (vm_compute; reflexivity).
  split; [exact Hpie |].
  split; [exact (proj1 (proj2 (unlockRecipe_spec gs "pie")) Hpie) |].
  split; [vm_compute; reflexivity |].
  destruct (unlockRecipe_spec gs "cake") as (_ & _ & Hcake & _).
  refine (proj2 (Hcake (newRecipe "cake" "Vanilla Cake" "🎂" 50 6 15 false 200) _)).
  vm_compute; reflexivity.
Defined.

(** ** The income rate and its cache, continued *)

Lemma addRecipeIncome_same_rate (start : Q) (rs : gmap string Recipe)
    (recipeId : string) (r r' : Recipe) :
  rs !! recipeId = Some r ->
  leveled r' = leveled r ->
  tenthOf r' = tenthOf r ->
  addRecipeIncome start (<[recipeId := r']> rs) = addRecipeIncome start rs.
Proof.
  intros Hr Hlev Hten. apply addRecipeIncome_related. intros id.
  destruct (decide (recipeId = id)) as [<- | Hne].
  - rewrite lookup_insert_eq, Hr. by constructor.
  - rewrite lookup_insert_ne by done. destruct (rs !! id); by constructor.
Qed.

Lemma cacheCurrent_recalculated (gs : GameState) :
  cacheCurrent (recalculateMoneyPerSecond gs).
Proof. unfold cacheCurrent. reflexivity. Qed.

(** X13.  [recalculateMoneyPerSecond] stores [autoBakers * 5] with the
    tenths of the unlocked recipes of positive level added to it one
    after the other, in the order of the recipes object.  It writes
    nothing but [moneyPerSecond] and is idempotent, so that the cache is
    up to date after it.  With productions that are not negative the
    rate it stores is not negative, and it is [autoBakers * 5] when no
    recipe has been upgraded.  The rate of the offline calculation adds
    the tenths up from 0 first and can differ from the stored one in the
    last bit: with one auto-baker, the brownie at level 2 and the
    croissant at level 1 the cache holds 6.199999999999999 and the
    offline rate is 6.2. *)
Theorem recalculate_refreshes (gs : GameState) :
  let gs' := recalculateMoneyPerSecond gs in
  moneyPerSecond gs'
  = foldl JsMath.add (JsMath.ofN (autoBakers gs) * 5)
      (tenthOf <$> List.filter leveled (forInRecipes (recipes gs)))
  /\ gs' = set_moneyPerSecond (moneyPerSecond gs') gs
  /\ recalculateMoneyPerSecond gs' = gs'
  /\ cacheCurrent gs'
  /\ (map_Forall (fun _ r => 0 <= baseProduction r /\ 0 <= currentProduction r)
        (recipes gs) ->
      0 <= moneyPerSecond gs')
  /\ (map_Forall (fun _ r => r_level r = 0%N) (recipes gs) ->
      moneyPerSecond gs' = JsMath.ofN (autoBakers gs) * 5).
Proof.
  cbn zeta.
  change (moneyPerSecond (recalculateMoneyPerSecond gs))
    with (addRecipeIncome (JsMath.ofN (autoBakers gs) * 5) (recipes gs)).
  split; [apply addRecipeIncome_sum |].
  split; [reflexivity |]. split; [reflexivity |].
  split; [apply cacheCurrent_recalculated |]. split.
  - intros Hall. apply addRecipeIncome_nonneg; [| exact Hall].
    pose proof (ofN_nonneg (autoBakers gs)). lra.
  - intros Hnew. apply addRecipeIncome_idle.
    intros id r Hr. unfold leveled. rewrite (Hnew id r Hr).
    apply andb_false_r.
Qed.

Lemma recalculate_refreshes_witness :
  let gs := (hireAutoBaker (set_money 50 (fresh 0))).2 in
  let gs2 :=
    execAll [OpHireAutoBaker; OpUnlockRecipe "brownie"; OpUnlockRecipe "croissant";
             OpUpgradeRecipe "brownie"; OpUpgradeRecipe "brownie";
             OpUpgradeRecipe "croissant"]
      (set_money 1000 (fresh 0)) in
  map_Forall (fun _ r => r_level r = 0%N) (recipes gs)
  /\ moneyPerSecond (recalculateMoneyPerSecond gs) == 5
  /\ moneyPerSecond (recalculateMoneyPerSecond gs2)
     == 1745144855606067 # 281474976710656
  /\ incomeRate gs2 == 6980579422424269 # 1125899906842624.
Proof.
  intros gs gs2.
  assert (Hnew : map_Forall (fun _ r => r_level r = 0%N) (recipes gs)).
  { apply map_Forall_to_list. vm_compute. repeat constructor. }
  split; [exact Hnew |].
  split.
  { rewrite (proj2 (proj2 (proj2 (proj2 (proj2 (recalculate_refreshes gs))))) Hnew).
    vm_compute. reflexivity. }
  split; vm_compute; reflexivity.
Defined.

Lemma checkThreshold_rate (reached : GameState -> bool) (id : string)
    (gs : GameState) :
  let gs' := state_after (checkThreshold reached id gs) in
  moneyPerSecond gs' = moneyPerSecond gs
  /\ autoBakers gs' = autoBakers gs
  /\ totalBaked gs' = totalBaked gs
  /\ totalMoneyEarned gs <= totalMoneyEarned gs'.
Proof.
  unfold checkThreshold.
  destruct (reached gs); [| by repeat split; try apply Qle_refl].
  destruct (milestones gs !! id) as [m|] eqn:Hm;
    [| by repeat split; try apply Qle_refl].
  destruct (completed m); [by repeat split; try apply Qle_refl |].
  cbn. unfold completeMilestone. rewrite Hm. cbn.
  repeat split. lra.
Qed.

Lemma checkMilestones_rate (gs : GameState) :
  let gs' := state_after (checkMilestones gs) in
  moneyPerSecond gs' = moneyPerSecond gs
  /\ autoBakers gs' = autoBakers gs
  /\ totalBaked gs' = totalBaked gs
  /\ totalMoneyEarned gs <= totalMoneyEarned gs'.
Proof.
  unfold checkMilestones. rewrite state_after_bind.
  pose proof (checkThreshold_rate firstBakeReached "firstBake" gs)
    as (R1 & A1 & B1 & E1).
  destruct (checkThreshold _ "firstBake" gs) as [[] gs1 | gs1];
    cbn in R1, A1, B1, E1; [| done].
  rewrite state_after_bind.
  pose proof (checkThreshold_rate hundredBakesReached "hundredBakes" gs1)
    as (R2 & A2 & B2 & E2).
  destruct (checkThreshold _ "hundredBakes" gs1) as [[] gs2 | gs2];
    cbn in R2, A2, B2, E2.
  - pose proof (checkThreshold_rate thousandDollarsReached "thousandDollars" gs2)
      as (R3 & A3 & B3 & E3).
    cbn in R3, A3, B3, E3. cbn.
    split; [congruence |]. split; [congruence |]. split; [congruence | lra].
  - split; [congruence |]. split; [congruence |]. split; [congruence | lra].
Qed.

Lemma baked_rate (r : Recipe) :
  let r' := set_totalProduction (totalProduction r + currentProduction r)
              (set_bakeCount (bakeCount r + 1)%N r) in
  leveled r' = leveled r /\ tenthOf r' = tenthOf r.
Proof. by destruct r. Qed.

(** X14.  An up-to-date [moneyPerSecond] cache stays up to date under
    [bake], [bakeRecipe], [tick], [applyOfflineProgress],
    [checkMilestones], [recalculateMoneyPerSecond] and [hireAutoBaker];
    the last two bring it up to date whatever it was.  Up to date means:
    equal to what [recalculateMoneyPerSecond] would store. *)
Theorem cache_survives (op : Op) (gs : GameState) :
  match op with
  | OpUnlockRecipe _ | OpPurchaseUpgrade _ | OpUpgradeRecipe _ => True
  | OpRecalculateMoneyPerSecond => cacheCurrent (exec op gs)
  | OpHireAutoBaker =>
      (hireAutoBaker gs).1 = true \/ cacheCurrent gs -> cacheCurrent (exec op gs)
  | _ => cacheCurrent gs -> cacheCurrent (exec op gs)
  end.
Proof.
  unfold cacheCurrent.
  assert (Hrecalc : forall s : GameState,
             moneyPerSecond (recalculateMoneyPerSecond s)
             = addRecipeIncome (JsMath.ofN (autoBakers s) * 5) (recipes s))
    by reflexivity.
  destruct op; cbn [exec]; try exact I.
  - intros Hcache. unfold bake.
    destruct (recipes gs !! bakeTarget recipe gs) as [r|] eqn:Hr; [| done].
    destruct (unlocked r); cbn [negb]; [| done].
    rewrite state_after_bind.
    destruct (baked_rate r) as [Hlev Hten].
    match goal with
    | |- context [checkMilestones ?s] =>
        pose proof (checkMilestones_rate s) as (R & A & _);
        pose proof (checkMilestones_frame s) as (Rs & _);
        destruct (checkMilestones s) as [[] gs1 | gs1]
    end; cbn in R, A, Rs; cbn [state_after ret];
      rewrite Hrecalc in *; rewrite R, A, Rs, Hcache;
      by rewrite (addRecipeIncome_same_rate _ _ _ r _ Hr Hlev Hten).
  - intros Hcache. unfold Recipes.bakeRecipe.
    destruct (recipes gs !! recipeId) as [r|] eqn:Hr; [| done].
    destruct (unlocked r); cbn [negb]; [| done].
    destruct (baked_rate r) as [Hlev Hten].
    rewrite Hrecalc in *.
    cbn [snd moneyPerSecond autoBakers recipes set_recipes set_totalBaked
         set_totalMoneyEarned set_money].
    rewrite Hcache.
    by rewrite (addRecipeIncome_same_rate _ _ _ r _ Hr Hlev Hten).
  - intros Hsome. unfold hireAutoBaker in *.
    destruct (JsMath.ltb _ _); cbn [fst snd] in *.
    + by destruct Hsome.
    + reflexivity.
  - reflexivity.
  - intros Hcache. rewrite Hrecalc in *.
    destruct (tick_frame gs) as (-> & _ & -> & _).
    rewrite (addRecipeIncome_related _ (recipes (OfflineProgress.tick gs).2)
               (recipes gs)); [exact Hcache |].
    intros recipeId.
    pose proof (tick_recipe gs recipeId) as Hstep.
    destruct (recipes gs !! recipeId) as [r|],
      (recipes (OfflineProgress.tick gs).2 !! recipeId) as [r'|]; try done;
      constructor.
    destruct Hstep as (-> & _). by destruct r.
  - intros Hcache. unfold OfflineProgress.applyOfflineProgress.
    by destruct (JsMath.leb _ _).
  - intros Hcache. rewrite Hrecalc in *.
    pose proof (checkMilestones_rate gs) as (R & A & _).
    pose proof (checkMilestones_frame gs) as (Rs & _).
    cbn zeta in *. by rewrite R, A, Rs.
Qed.

Lemma cache_survives_witness :
  let gs := (hireAutoBaker (set_money 60 (fresh 0))).2 in
  cacheCurrent gs
  /\ cacheCurrent (exec (OpBake None) gs)
  /\ cacheCurrent (exec OpTick gs).
Proof.
  intros gs.
  assert (Hcache : cacheCurrent gs) by (vm_compute; reflexivity).
  split; [exact Hcache |].
  split; [exact (cache_survives (OpBake None) gs Hcache)
         | exact (cache_survives OpTick gs Hcache)].
Defined.

(** X15.  [Recipes.upgradeRecipe] never writes [moneyPerSecond],
    whether it succeeds or not.  So it leaves the cache stale: after the
    first upgrade of the cookie recipe in a new game the cached rate is
    still 0, while [recalculateMoneyPerSecond] would store the double
    [2 * 1 * 0.1]. *)
Theorem upgradeRecipe_stales_cache (gs : GameState) (recipeId : string) :
  moneyPerSecond (Recipes.upgradeRecipe recipeId gs).2 = moneyPerSecond gs
  /\ (let gs0 := recalculateMoneyPerSecond (fresh 0) in
      let gs' := (Recipes.upgradeRecipe "cookie" gs0).2 in
      cacheCurrent gs0
      /\ (Recipes.upgradeRecipe "cookie" gs0).1 = true
      /\ moneyPerSecond gs' == 0
      /\ moneyPerSecond (recalculateMoneyPerSecond gs')
         == JsMath.mul 2 (JsMath.double (1 # 10))
      /\ ~ cacheCurrent gs').
Proof.
  split.
  - unfold Recipes.upgradeRecipe.
    destruct (recipes gs !! recipeId) as [r|]; [| reflexivity].
    destruct (negb (unlocked r)); [reflexivity |].
    by destruct (JsMath.ltb _ _).
  - cbn zeta. unfold cacheCurrent.
    split; [vm_compute; reflexivity |]. split; [vm_compute; reflexivity |].
    split; [vm_compute; reflexivity |]. split; [vm_compute; reflexivity |].
    vm_compute. discriminate.
Qed.

(** ** Totals never decrease *)

Ltac totals_unchanged := cbn; split; [apply Qle_refl | lia].

Lemma exec_totals (op : Op) (gs : GameState) :
  wellFormed gs ->
  totalMoneyEarned gs <= totalMoneyEarned (exec op gs)
  /\ (totalBaked gs <= totalBaked (exec op gs))%Z.
Proof.
  intros Hgs. pose proof Hgs as (Hmoney & Hrs & Hus).
  destruct op; cbn [exec].
  - unfold bake.
    destruct (recipes gs !! bakeTarget recipe gs) as [r|] eqn:Hr;
      [| totals_unchanged].
    destruct (unlocked r); cbn [negb]; [| totals_unchanged].
    rewrite state_after_bind.
    destruct (Hrs _ _ Hr) as [_ Hcp].
    match goal with
    | |- context [checkMilestones ?s] =>
        pose proof (checkMilestones_rate s) as (_ & _ & B & E);
        destruct (checkMilestones s) as [[] gs1 | gs1]
    end; cbn in B, E; cbn [state_after ret]; split; lra || lia.
  - unfold Recipes.bakeRecipe.
    destruct (recipes gs !! recipeId) as [r|] eqn:Hr; [| totals_unchanged].
    destruct (unlocked r); cbn [negb]; [| totals_unchanged].
    destruct (Hrs _ _ Hr) as [_ Hcp]. cbn. split; [lra | lia].
  - unfold unlockRecipe. destruct (recipes gs !! recipeId); totals_unchanged.
  - unfold purchaseUpgrade.
    destruct (upgrades gs !! upgradeId) as [u|]; [| totals_unchanged].
    destruct (maxLevel u <=? u_level u)%N; [totals_unchanged |].
    destruct (JsMath.ltb _ _); [totals_unchanged |].
    unfold applyUpgradeBonus. destruct (u_type _); totals_unchanged.
  - unfold Recipes.upgradeRecipe.
    destruct (recipes gs !! recipeId) as [r|]; [| totals_unchanged].
    destruct (unlocked r); cbn [negb]; [| totals_unchanged].
    destruct (JsMath.ltb _ _); totals_unchanged.
  - unfold hireAutoBaker. destruct (JsMath.ltb _ _); totals_unchanged.
  - totals_unchanged.
  - unfold OfflineProgress.tick.
    destruct (JsMath.gtb (moneyPerSecond gs) 0) eqn:Hpos; [| totals_unchanged].
    apply ltb_true in Hpos. cbn. split; [lra | lia].
  - destruct (offline_gain_bounds gs secondsOffline Hrs)
      as (_ & _ & _ & _ & _ & E & B).
    by split.
  - pose proof (checkMilestones_rate gs) as (_ & _ & B & E).
    cbn zeta in *. split; [exact E | lia].
Qed.

Lemma execAll_wellFormed (ops : list Op) :
  forall gs : GameState, wellFormed gs -> wellFormed (execAll ops gs).
Proof.
  induction ops as [|op ops IH]; intros gs Hgs; [done |].
  apply IH. by apply exec_wellFormed.
Qed.

Lemma execAll_totals (ops : list Op) :
  forall gs : GameState,
    wellFormed gs ->
    totalMoneyEarned gs <= totalMoneyEarned (execAll ops gs)
    /\ (totalBaked gs <= totalBaked (execAll ops gs))%Z.
Proof.
  induction ops as [|op ops IH]; intros gs Hgs.
  - split; [apply Qle_refl | cbn; lia].
  - destruct (exec_totals op gs Hgs) as [E1 B1].
    destruct (IH (exec op gs) (exec_wellFormed op gs Hgs)) as [E2 B2].
    cbn [execAll foldl] in *. unfold execAll in *. split; [lra | lia].
Qed.

Lemma execAll_app (ops1 ops2 : list Op) (gs : GameState) :
  execAll (ops1 ++ ops2) gs = execAll ops2 (execAll ops1 gs).
Proof. apply foldl_app. Qed.

(** X16.  Along every run of the engine from a fresh model
    [totalMoneyEarned] and [totalBaked] never decrease: whatever
    operations follow, they are at least what they were. *)
Theorem totals_never_decrease (now : Z) (ops1 ops2 : list Op) :
  let before := execAll ops1 (fresh now) in
  let after := execAll (ops1 ++ ops2) (fresh now) in
  totalMoneyEarned before <= totalMoneyEarned after
  /\ (totalBaked before <= totalBaked after)%Z.
Proof.
  cbn zeta. rewrite execAll_app.
  apply execAll_totals, execAll_wellFormed, fresh_wellFormed.
Qed.

(** ** Automatic unlocks *)

Lemma set_unlocked_same (r : Recipe) : unlocked r = true -> set_unlocked true r = r.
Proof. destruct r; cbn. by intros ->. Qed.

Lemma checkRules_present (rules : list (string * (Z * Q))) :
  forall gs : GameState,
    Forall (fun entry => is_Some (recipes gs !! entry.1)) rules ->
    exists gs' : GameState,
      checkRules rules gs = Returns tt gs'
      /\ gs' = set_recipes (recipes gs') gs
      /\ forall recipeId : string,
          recipes gs' !! recipeId
          = autoUnlocked rules gs recipeId <$> recipes gs !! recipeId.
Proof.
  induction rules as [|[id [requirement requiredMoney]] rules IH]; intros gs Hall.
  - exists gs. split; [reflexivity |]. split; [by destruct gs |].
    intros recipeId. unfold autoUnlocked, ruleMet.
    destruct (recipes gs !! recipeId) as [x|]; [| reflexivity].
    cbn. by rewrite andb_false_r.
  - apply Forall_cons in Hall as [[r Hr] Hall]. cbn in Hr.
    cbn [checkRules foldr]. unfold bind at 1.
    unfold BakeryGame.checkRule at 1. rewrite Hr.
    set (fires := negb (unlocked r) && (requirement <=? totalBaked gs)%Z
                  && JsMath.geb (money gs) requiredMoney).
    set (gs1 := if fires then unlockRecipe id gs else gs).
    assert (Hstep : (if fires then Returns tt (unlockRecipe id gs) else Returns tt gs)
                    = Returns tt gs1) by (subst gs1; by destruct fires).
    rewrite Hstep. clear Hstep.
    assert (Hframe : money gs1 = money gs /\ totalBaked gs1 = totalBaked gs
                     /\ gs1 = set_recipes (recipes gs1) gs).
    { subst gs1. destruct fires; [| by destruct gs].
      rewrite (unlockRecipe_present gs id r Hr). by destruct gs. }
    destruct Hframe as (Hmoney & Hbaked & Hgs1).
    assert (Hrecipes : forall recipeId,
               recipes gs1 !! recipeId
               = (fun x => if fires && String.eqb id recipeId
                           then set_unlocked true x else x)
                 <$> recipes gs !! recipeId).
    { intros recipeId. subst gs1. destruct fires; cbn [andb].
      - rewrite (unlockRecipe_present gs id r Hr). cbn.
        destruct (String.eqb_spec id recipeId) as [<- | Hne].
        + by rewrite lookup_insert_eq, Hr.
        + rewrite lookup_insert_ne by done.
          by destruct (recipes gs !! recipeId).
      - by destruct (recipes gs !! recipeId). }
    destruct (IH gs1) as (gs' & Hrun & Hgs' & Hrest).
    { eapply Forall_impl; [exact Hall |]. intros entry [x Hx].
      rewrite Hrecipes, Hx. by eexists. }
    exists gs'. fold (checkRules rules). split; [exact Hrun |].
    split; [rewrite Hgs', Hgs1; reflexivity |].
    intros recipeId. rewrite Hrest, Hrecipes.
    destruct (recipes gs !! recipeId) as [x|] eqn:Hx; [| reflexivity].
    cbn. f_equal. unfold autoUnlocked, ruleMet. cbn [existsb fst snd].
    rewrite Hmoney, Hbaked.
    fold (ruleMet rules gs recipeId).
    destruct (String.eqb_spec id recipeId) as [<- | Hne].
    + assert (x = r) as -> by congruence. subst fires.
      rewrite andb_true_r.
      destruct (unlocked r) eqn:Hopen; cbn [negb andb].
      * by rewrite Hopen.
      * destruct ((requirement <=? totalBaked gs)%Z
                  && JsMath.geb (money gs) requiredMoney) eqn:Hcond;
          rewrite !andb_true_l in *; rewrite ?Hcond; cbn [andb orb negb].
        -- by destruct r.
        -- by rewrite Hopen.
    + rewrite andb_false_r. cbn [andb orb]. reflexivity.
Qed.

Lemma checkRules_missing (rules : list (string * (Z * Q))) :
  forall gs : GameState,
    Exists (fun entry => recipes gs !! entry.1 = None) rules ->
    exists gs' : GameState, checkRules rules gs = Throws gs'.
Proof.
  induction rules as [|[id [requirement requiredMoney]] rules IH]; intros gs Hsome.
  - by apply Exists_nil in Hsome.
  - cbn [checkRules foldr]. unfold bind at 1.
    unfold BakeryGame.checkRule at 1.
    destruct (recipes gs !! id) as [r|] eqn:Hr; [| by exists gs].
    apply Exists_cons in Hsome as [Hhere | Hlater]; [cbn in Hhere; congruence |].
    fold (checkRules rules).
    destruct (negb (unlocked r) && (requirement <=? totalBaked gs)%Z
              && JsMath.geb (money gs) requiredMoney); [| by apply IH].
    apply IH. eapply Exists_impl; [exact Hlater |].
    intros entry Hnone. rewrite (unlockRecipe_present gs id r Hr). cbn.
    rewrite lookup_insert_ne; [exact Hnone | congruence].
Qed.

(** The rule table of [game.js] and the one of [recipes.js] say the
    same. *)
Lemma rule_tables_agree (gs : GameState) (recipeId : string) (r : Recipe) :
  recipes gs !! recipeId = Some r ->
  Recipes.checkAutoUnlock gs recipeId
  = negb (unlocked r) && ruleMet BakeryGame.unlockRules gs recipeId.
Proof.
  intros Hr. unfold Recipes.checkAutoUnlock. rewrite Hr.
  destruct (unlocked r); [reflexivity |]. cbn [negb andb].
  unfold ruleMet. cbn [existsb BakeryGame.unlockRules fst snd].
  unfold Recipes.getUnlockRequirements.
  destruct (String.eqb_spec "brownie" recipeId) as [<- | N1].
  { rewrite lookup_insert_eq. cbn.
    by rewrite !orb_false_r. }
  rewrite lookup_insert_ne by done.
  destruct (String.eqb_spec "croissant" recipeId) as [<- | N2].
  { rewrite lookup_insert_eq. cbn.
    by rewrite !orb_false_r. }
  rewrite lookup_insert_ne by done.
  destruct (String.eqb_spec "cake" recipeId) as [<- | N3].
  { rewrite lookup_insert_eq. cbn.
    by rewrite !orb_false_r. }
  rewrite lookup_insert_ne by done.
  destruct (String.eqb_spec "donut" recipeId) as [<- | N4].
  { rewrite lookup_insert_eq. cbn.
    by rewrite !orb_false_r. }
  rewrite lookup_insert_ne by done. by rewrite lookup_empty.
Qed.

Lemma checkRecipeUnlocks_returns (gs : GameState) :
  Forall (fun entry => is_Some (recipes gs !! entry.1)) BakeryGame.unlockRules ->
  exists gs' : GameState,
    BakeryGame.checkRecipeUnlocks gs = Returns tt gs'
    /\ gs' = set_recipes (recipes gs') gs
    /\ (forall recipeId : string,
          recipes gs' !! recipeId
          = (fun r => if Recipes.checkAutoUnlock gs recipeId
                      then set_unlocked true r else r)
            <$> recipes gs !! recipeId)
    /\ (forall recipeId : string, Recipes.checkAutoUnlock gs' recipeId = false)
    /\ BakeryGame.checkRecipeUnlocks gs' = Returns tt gs'.
Proof.
  intros Hall.
  destruct (checkRules_present _ gs Hall) as (gs' & Hrun & Hgs' & Hrecipes).
  assert (Hagree : forall recipeId,
             recipes gs' !! recipeId
             = (fun r => if Recipes.checkAutoUnlock gs recipeId
                         then set_unlocked true r else r)
               <$> recipes gs !! recipeId).
  { intros recipeId. rewrite Hrecipes.
    destruct (recipes gs !! recipeId) as [r|] eqn:Hr; [| reflexivity].
    cbn. unfold autoUnlocked. by rewrite (rule_tables_agree gs recipeId r Hr). }
  assert (Hsame : money gs' = money gs /\ totalBaked gs' = totalBaked gs)
    by (rewrite Hgs'; by split).
  destruct Hsame as [Hmoney Hbaked].
  assert (Hdone : forall recipeId, Recipes.checkAutoUnlock gs' recipeId = false).
  { intros recipeId.
    destruct (recipes gs' !! recipeId) as [r'|] eqn:Hr';
      [| unfold Recipes.checkAutoUnlock; by rewrite Hr'].
    rewrite (rule_tables_agree gs' recipeId r' Hr').
    rewrite Hrecipes in Hr'.
    destruct (recipes gs !! recipeId) as [r|] eqn:Hr; [| discriminate].
    injection Hr' as <-. unfold autoUnlocked, ruleMet.
    rewrite Hmoney, Hbaked. fold (ruleMet BakeryGame.unlockRules gs recipeId).
    destruct (unlocked r) eqn:Hopen; cbn [negb andb]; [by rewrite Hopen |].
    destruct (ruleMet BakeryGame.unlockRules gs recipeId); [by destruct r |].
    rewrite Hopen. reflexivity. }
  exists gs'. split; [exact Hrun |]. split; [exact Hgs' |].
  split; [exact Hagree |]. split; [exact Hdone |].
  assert (Hall' : Forall (fun entry => is_Some (recipes gs' !! entry.1))
                    BakeryGame.unlockRules).
  { eapply Forall_impl; [exact Hall |]. intros entry [x Hx].
    rewrite Hrecipes, Hx. by eexists. }
  destruct (checkRules_present _ gs' Hall') as (gs2 & Hrun2 & Hgs2 & Hrecipes2).
  change BakeryGame.checkRecipeUnlocks with (checkRules BakeryGame.unlockRules).
  rewrite Hrun2. f_equal.
  assert (Hkept : recipes gs2 = recipes gs').
  { apply map_eq. intros recipeId. rewrite Hrecipes2.
    destruct (recipes gs' !! recipeId) as [r'|] eqn:Hr'; [| reflexivity].
    cbn. f_equal. unfold autoUnlocked.
    specialize (Hdone recipeId).
    rewrite (rule_tables_agree gs' recipeId r' Hr') in Hdone. by rewrite Hdone. }
  rewrite Hgs2, Hkept. by destruct gs'.
Qed.

(** X17.  When the four recipes its rules name exist,
    [checkRecipeUnlocks] returns; it unlocks exactly the recipes for
    which [Recipes.checkAutoUnlock] holds and changes nothing else, so
    that afterwards [checkAutoUnlock] holds for no recipe and a second
    pass changes nothing.  When one of the four recipes is missing it
    throws. *)
Theorem checkRecipeUnlocks_agrees (gs : GameState) :
  (Forall (fun entry => is_Some (recipes gs !! entry.1)) BakeryGame.unlockRules ->
   exists gs' : GameState,
     BakeryGame.checkRecipeUnlocks gs = Returns tt gs'
     /\ gs' = set_recipes (recipes gs') gs
     /\ (forall recipeId : string,
           recipes gs' !! recipeId
           = (fun r => if Recipes.checkAutoUnlock gs recipeId
                       then set_unlocked true r else r)
             <$> recipes gs !! recipeId)
     /\ (forall recipeId : string, Recipes.checkAutoUnlock gs' recipeId = false)
     /\ BakeryGame.checkRecipeUnlocks gs' = Returns tt gs')
  /\ (Exists (fun entry => recipes gs !! entry.1 = None) BakeryGame.unlockRules ->
      exists gs' : GameState, BakeryGame.checkRecipeUnlocks gs = Throws gs').
Proof.
  split; [apply checkRecipeUnlocks_returns | apply checkRules_missing].
Qed.

Lemma checkRecipeUnlocks_agrees_witness :
  let gs := set_totalBaked 20 (set_money 50 (fresh 0)) in
  exists gs' : GameState,
    BakeryGame.checkRecipeUnlocks gs = Returns tt gs'
    /\ unlocked <$> recipes gs !! "brownie" = Some false
    /\ unlocked <$> recipes gs' !! "brownie" = Some true
    /\ unlocked <$> recipes gs' !! "donut" = Some false
    /\ (exists gs'' : GameState,
          BakeryGame.checkRecipeUnlocks (set_recipes ∅ gs) = Throws gs'').
Proof.
  intros gs.
  assert (Hall : Forall (fun entry => is_Some (recipes gs !! entry.1))
                   BakeryGame.unlockRules).
  { repeat constructor; eexists; vm_compute; reflexivity. }
  destruct (proj1 (checkRecipeUnlocks_agrees gs) Hall)
    as (gs' & Hrun & _ & Hrecipes & _).
  exists gs'. split; [exact Hrun |].
  split; [vm_compute; reflexivity |].
  split; [rewrite Hrecipes; vm_compute; reflexivity |].
  split; [rewrite Hrecipes; vm_compute; reflexivity |].
  apply (proj2 (checkRecipeUnlocks_agrees (set_recipes ∅ gs))).
  constructor. reflexivity.
Defined.

(** ** A click on the bake button *)

(** X18.  [handleBake] bakes the current recipe, or the cookie when
    there is none.  A locked target makes the click do nothing.  With
    an unlocked target, the three threshold milestones and the four
    recipes of the unlock rules in place, the click returns: it is the
    bake followed by a pass over the unlock rules, which changes the
    recipes only, and afterwards no recipe is left whose unlock
    conditions hold. *)
Theorem handleBake_spec (gs : GameState) (r : Recipe) :
  let target := default "cookie" (currentRecipe gs) in
  recipes gs !! target = Some r ->
  (unlocked r = false -> BakeryGame.handleBake gs = Returns tt gs)
  /\ (unlocked r = true ->
      hasThresholdMilestones gs ->
      Forall (fun entry => is_Some (recipes gs !! entry.1)) BakeryGame.unlockRules ->
      exists gs1 gs2 : GameState,
        bake (currentRecipe gs) gs = Returns true gs1
        /\ BakeryGame.handleBake gs = Returns tt gs2
        /\ gs2 = set_recipes (recipes gs2) gs1
        /\ totalBaked gs2 = (totalBaked gs + 1)%Z
        /\ (forall recipeId : string,
              recipes gs2 !! recipeId
              = (fun r => if Recipes.checkAutoUnlock gs1 recipeId
                          then set_unlocked true r else r)
                <$> recipes gs1 !! recipeId)
        /\ (forall recipeId : string, Recipes.checkAutoUnlock gs2 recipeId = false)).
Proof.
  intros target Hr.
  assert (Harg : bake (currentRecipe gs) gs = bake (Some target) gs).
  { unfold target. destruct (currentRecipe gs); [reflexivity |].
    apply bake_falsy_is_cookie. }
  assert (Hcall : BakeryGame.handleBake gs
                  = bind (bake (Some target))
                      (fun baked =>
                         if baked then BakeryGame.checkRecipeUnlocks else ret tt)
                      gs).
  { unfold BakeryGame.handleBake, target. by destruct (currentRecipe gs). }
  rewrite Hcall, Harg. unfold bind, bake.
  rewrite (bakeTarget_present gs target r Hr), Hr.
  split.
  - intros Hlocked. by rewrite Hlocked.
  - intros Hopen Hmilestones Hall. rewrite Hopen. cbn [negb].
    match goal with
    | |- context [bind checkMilestones _ ?s] =>
        set (baked := s);
        pose proof (checkMilestones_present baked Hmilestones) as Hrun;
        pose proof (checkMilestones_frame baked) as (Hrecipes & _);
        pose proof (checkMilestones_rate baked) as (_ & _ & Hcount & _)
    end.
    unfold bind. rewrite Hrun in *. cbn [state_after] in Hrecipes, Hcount.
    cbn [ret].
    assert (Hall1 : Forall (fun entry => is_Some (recipes (afterMilestones baked) !! entry.1))
                      BakeryGame.unlockRules).
    { eapply Forall_impl; [exact Hall |]. intros entry [x Hx].
      rewrite Hrecipes. unfold baked. cbn.
      destruct (decide (target = entry.1)) as [<- | Hne].
      - rewrite lookup_insert_eq. by eexists.
      - rewrite lookup_insert_ne by done. by eexists. }
    destruct (checkRecipeUnlocks_returns _ Hall1)
      as (gs2 & Hrun2 & Hgs2 & Hunlocked & Hdone & _).
    exists (afterMilestones baked), gs2.
    split; [reflexivity |]. split; [exact Hrun2 |]. split; [exact Hgs2 |].
    split; [rewrite Hgs2; exact Hcount |]. by split.
Qed.

Lemma handleBake_spec_witness :
  let gs := set_totalBaked 19 (set_money 49 (fresh 0)) in
  exists gs2 : GameState,
    BakeryGame.handleBake gs = Returns tt gs2
    /\ unlocked <$> recipes gs !! "brownie" = Some false
    /\ unlocked <$> recipes gs2 !! "brownie" = Some true
    /\ totalBaked gs2 = 20%Z.
Proof.
  intros gs.
  assert (Hr : recipes gs !! default "cookie" (currentRecipe gs)
               = Some (newRecipe "cookie" "Sugar Cookie" "🍪" 1 2 1 true 10))
    by (vm_compute; reflexivity).
  assert (Hmilestones : hasThresholdMilestones gs).
  { repeat split; eexists; vm_compute; reflexivity. }
  assert (Hall : Forall (fun entry => is_Some (recipes gs !! entry.1))
                   BakeryGame.unlockRules).
  { repeat constructor; eexists; vm_compute; reflexivity. }
  destruct (proj2 (handleBake_spec gs _ Hr) eq_refl Hmilestones Hall)
    as (gs1 & gs2 & Hbake & Hrun & _ & Hcount & Hunlocked & _).
  exists gs2. split; [exact Hrun |].
  split; [vm_compute; reflexivity |].
  split; [| exact Hcount].
  rewrite Hunlocked.
  assert (Hgs1 : gs1 = state_after (bake (currentRecipe gs) gs))
    by by rewrite Hbake.
  rewrite Hgs1. vm_compute. reflexivity.
Defined.

(** ** The shop calls of the game engine *)

(** X19.  [BakeryGame.hireAutoBaker] does what [GameState.hireAutoBaker]
    does, which recalculates the income itself.
    [GameState.purchaseUpgrade] never writes [moneyPerSecond];
    [BakeryGame.purchaseUpgrade] answers as it does, leaves the state
    as it was when the purchase is refused, and when it succeeds
    recalculates the income, so that the cache is up to date. *)
Theorem shop_calls_refresh (gs : GameState) (upgradeId : string) :
  BakeryGame.hireAutoBaker gs = hireAutoBaker gs
  /\ moneyPerSecond (purchaseUpgrade upgradeId gs).2 = moneyPerSecond gs
  /\ (BakeryGame.purchaseUpgrade upgradeId gs).1 = (purchaseUpgrade upgradeId gs).1
  /\ ((purchaseUpgrade upgradeId gs).1 = false ->
      (BakeryGame.purchaseUpgrade upgradeId gs).2 = gs)
  /\ ((purchaseUpgrade upgradeId gs).1 = true ->
      (BakeryGame.purchaseUpgrade upgradeId gs).2
      = recalculateMoneyPerSecond (purchaseUpgrade upgradeId gs).2
      /\ cacheCurrent (BakeryGame.purchaseUpgrade upgradeId gs).2).
Proof.
  split.
  { unfold BakeryGame.hireAutoBaker, hireAutoBaker.
    by destruct (JsMath.ltb _ _). }
  unfold BakeryGame.purchaseUpgrade.
  assert (Hrefused : (purchaseUpgrade upgradeId gs).1 = false ->
                     (purchaseUpgrade upgradeId gs).2 = gs).
  { unfold purchaseUpgrade.
    destruct (upgrades gs !! upgradeId) as [u|]; [| done].
    destruct (maxLevel u <=? u_level u)%N; [done |].
    by destruct (JsMath.ltb _ _). }
  split.
  { unfold purchaseUpgrade.
    destruct (upgrades gs !! upgradeId) as [u|]; [| done].
    destruct (maxLevel u <=? u_level u)%N; [done |].
    destruct (JsMath.ltb _ _); [done |].
    unfold applyUpgradeBonus. by destruct (u_type _). }
  destruct (purchaseUpgrade upgradeId gs) as [[] gs0]; cbn [fst snd] in *.
  - split; [reflexivity |]. split; [discriminate |].
    intros _. split; [reflexivity | apply cacheCurrent_recalculated].
  - split; [reflexivity |]. split; [exact Hrefused | discriminate].
Qed.

Lemma shop_calls_refresh_witness :
  let gs := (Recipes.upgradeRecipe "cookie" (set_money 110 (fresh 0))).2 in
  (purchaseUpgrade "betterOven" gs).1 = true
  /\ moneyPerSecond (purchaseUpgrade "betterOven" gs).2 == 0
  /\ cacheCurrent (BakeryGame.purchaseUpgrade "betterOven" gs).2
  /\ 0 < moneyPerSecond (BakeryGame.purchaseUpgrade "betterOven" gs).2.
Proof.
  intros gs.
  assert (Hbought : (purchaseUpgrade "betterOven" gs).1 = true)
    by (vm_compute; reflexivity).
  destruct (shop_calls_refresh gs "betterOven") as (_ & Hsame & _ & _ & Hok).
  destruct (Hok Hbought) as [Hstate Hcache].
  split; [exact Hbought |].
  split; [rewrite Hsame; vm_compute; reflexivity |].
  split; [exact Hcache |].
  rewrite Hstate. vm_compute. reflexivity.
Defined.

(** ** The save slot *)

Lemma save_slot_other (storage : gmap string SaveManager.Item)
    (a b : SaveManager.Item) (key : string) :
  key <> SaveManager.SAVE_KEY -> key <> SaveManager.VERSION_KEY ->
  <[SaveManager.VERSION_KEY := b]> (<[SaveManager.SAVE_KEY := a]> storage) !! key
  = storage !! key.
Proof. intros Hs Hv. by rewrite !lookup_insert_ne. Qed.

Lemma save_slot_read (storage : gmap string SaveManager.Item)
    (a b : SaveManager.Item) :
  <[SaveManager.VERSION_KEY := b]> (<[SaveManager.SAVE_KEY := a]> storage)
    !! SaveManager.SAVE_KEY
  = Some a.
Proof. rewrite lookup_insert_ne by done. apply lookup_insert_eq. Qed.

Lemma save_slot_twice (storage : gmap string SaveManager.Item)
    (a b a' b' : SaveManager.Item) :
  <[SaveManager.VERSION_KEY := b]>
    (<[SaveManager.SAVE_KEY := a]>
       (<[SaveManager.VERSION_KEY := b']> (<[SaveManager.SAVE_KEY := a']> storage)))
  = <[SaveManager.VERSION_KEY := b]> (<[SaveManager.SAVE_KEY := a]> storage).
Proof.
  apply map_eq. intros key.
  destruct (decide (key = SaveManager.VERSION_KEY)) as [-> | Hv];
    [by rewrite !lookup_insert_eq |].
  rewrite !(lookup_insert_ne _ SaveManager.VERSION_KEY key) by done.
  destruct (decide (key = SaveManager.SAVE_KEY)) as [-> | Hs];
    [by rewrite !lookup_insert_eq |].
  by rewrite !lookup_insert_ne.
Qed.

(** X20.  After [save] the slot is occupied, [getTimeSinceLastSave]
    counts from the second clock reading of the save, [exportSave]
    hands out the record [load] reads, stamped with the first clock
    reading and the current version, and the version marker is 1.  No
    other key of the storage is touched, and of two saves in a row only
    the later one is kept. *)
Theorem save_overwrites (now1 now2 now : Z) (gs : GameState)
    (storage : gmap string SaveManager.Item) :
  let storage' := (SaveManager.save now1 now2 gs storage).2 in
  SaveManager.hasSaveData storage' = true
  /\ SaveManager.getTimeSinceLastSave now storage'
     = JsMath.div (inject_Z (now - now2)) 1000
  /\ (exists d : SaveManager.SaveData,
        SaveManager.exportSave storage' = Some (SaveManager.Json d)
        /\ SaveManager.timestamp d = now1
        /\ SaveManager.version d = SaveManager.CURRENT_VERSION
        /\ SaveManager.load storage' = Some (SaveManager.state d))
  /\ storage' !! SaveManager.VERSION_KEY = Some (SaveManager.Num 1)
  /\ (forall key : string,
        key <> SaveManager.SAVE_KEY -> key <> SaveManager.VERSION_KEY ->
        storage' !! key = storage !! key)
  /\ (forall (now3 now4 : Z) (earlier : GameState),
        SaveManager.save now1 now2 gs
          (SaveManager.save now3 now4 earlier storage).2
        = SaveManager.save now1 now2 gs storage).
Proof.
  cbn zeta. unfold SaveManager.save. cbn [fst snd].
  unfold SaveManager.hasSaveData, SaveManager.getTimeSinceLastSave,
    SaveManager.exportSave, SaveManager.load.
  rewrite !save_slot_read.
  split; [reflexivity |]. split; [reflexivity |].
  split; [by eexists |].
  split; [apply lookup_insert_eq |].
  split; [intros key Hs Hv; by apply save_slot_other |].
  intros now3 now4 earlier. f_equal. apply save_slot_twice.
Qed.

Lemma div_thousand_sign (x : Q) :
  (0 < x -> 0 < JsMath.div x 1000) /\ (x <= 0 -> JsMath.div x 1000 <= 0).
Proof.
  split; intros Hx.
  - apply double_pos. apply Qlt_shift_div_l; [reflexivity | lra].
  - apply double_nonpos. apply Qle_shift_div_r; [reflexivity | lra].
Qed.

Lemma elapsed_positive (z : Z) :
  0 < JsMath.div (JsMath.div (inject_Z z) 1000) 1000 <-> (0 < z)%Z.
Proof.
  rewrite (Zlt_Qlt 0 z). change (inject_Z 0) with 0.
  generalize (inject_Z z). intros q. split.
  - intros Hpos. apply Qnot_le_lt. intros Hq.
    apply (proj2 (div_thousand_sign q)) in Hq.
    apply (proj2 (div_thousand_sign _)) in Hq. lra.
  - intros Hq. by apply div_thousand_sign, div_thousand_sign.
Qed.

Lemma initialize_new_game (now1 now2 : Z) (storage : gmap string SaveManager.Item)
    (gs : GameState) :
  SaveManager.load storage = None ->
  BakeryGame.initialize now1 now2 storage gs
  = recalculateMoneyPerSecond (initialize now1 now2 gs).
Proof. intros Hload. unfold BakeryGame.initialize. by rewrite Hload. Qed.

(** X21.  After [clearSave] the slot is empty: [hasSaveData] is false,
    [load] and [exportSave] give nothing and [getTimeSinceLastSave] is
    0.  No other key of the storage is touched, clearing twice is
    clearing once, a save is cleared whatever it was, and
    [BakeryGame.initialize] then starts a new game. *)
Theorem clearSave_forgets (now now1 now2 : Z)
    (storage : gmap string SaveManager.Item) (gs : GameState) :
  let storage' := (SaveManager.clearSave storage).2 in
  SaveManager.hasSaveData storage' = false
  /\ SaveManager.load storage' = None
  /\ SaveManager.exportSave storage' = None
  /\ SaveManager.getTimeSinceLastSave now storage' = 0
  /\ (forall key : string,
        key <> SaveManager.SAVE_KEY -> key <> SaveManager.VERSION_KEY ->
        storage' !! key = storage !! key)
  /\ (SaveManager.clearSave storage').2 = storage'
  /\ (forall (now3 now4 : Z) (saved : GameState),
        SaveManager.clearSave (SaveManager.save now3 now4 saved storage).2
        = SaveManager.clearSave storage)
  /\ BakeryGame.initialize now1 now2 storage' gs
     = recalculateMoneyPerSecond (initialize now1 now2 gs).
Proof.
  cbn zeta. unfold SaveManager.clearSave. cbn [fst snd].
  assert (Hempty : delete SaveManager.VERSION_KEY
                     (delete SaveManager.SAVE_KEY storage)
                   !! SaveManager.SAVE_KEY = None).
  { rewrite lookup_delete_ne by done. apply lookup_delete_eq. }
  assert (Hload : SaveManager.load
                    (delete SaveManager.VERSION_KEY
                       (delete SaveManager.SAVE_KEY storage)) = None)
    by (unfold SaveManager.load; by rewrite Hempty).
  unfold SaveManager.hasSaveData, SaveManager.exportSave,
    SaveManager.getTimeSinceLastSave.
  rewrite Hload, Hempty.
  split; [reflexivity |]. split; [reflexivity |]. split; [reflexivity |].
  split; [reflexivity |].
  split; [intros key Hs Hv; by rewrite !lookup_delete_ne |].
  split.
  { apply map_eq. intros key.
    destruct (decide (key = SaveManager.VERSION_KEY)) as [-> | Hv];
      [by rewrite !lookup_delete_eq |].
    rewrite !(lookup_delete_ne _ SaveManager.VERSION_KEY key) by done.
    destruct (decide (key = SaveManager.SAVE_KEY)) as [-> | Hs];
      [by rewrite !lookup_delete_eq |].
    by rewrite !lookup_delete_ne. }
  split; [| by apply initialize_new_game].
  intros now3 now4 saved. f_equal. unfold SaveManager.save. cbn [snd].
  apply map_eq. intros key.
  destruct (decide (key = SaveManager.VERSION_KEY)) as [-> | Hv];
    [by rewrite !lookup_delete_eq |].
  rewrite !(lookup_delete_ne _ SaveManager.VERSION_KEY key) by done.
  destruct (decide (key = SaveManager.SAVE_KEY)) as [-> | Hs];
    [by rewrite !lookup_delete_eq |].
  rewrite !(lookup_delete_ne _ SaveManager.SAVE_KEY key) by done.
  by rewrite !lookup_insert_ne.
Qed.

Lemma importSave_accepts (d : SaveManager.SaveData)
    (storage : gmap string SaveManager.Item) :
  SaveManager.timestamp d <> 0%Z ->
  exists marker : SaveManager.Item,
    SaveManager.importSave (SaveManager.Json d) storage
    = (true,
       <[SaveManager.VERSION_KEY := marker]>
         (<[SaveManager.SAVE_KEY := SaveManager.Json d]> storage)).
Proof.
  intros Hstamp. apply Z.eqb_neq in Hstamp.
  unfold SaveManager.importSave. rewrite Hstamp. by eexists.
Qed.

Lemma importSave_rejects (item : SaveManager.Item)
    (storage : gmap string SaveManager.Item) :
  (SaveManager.importSave item storage).1 = false ->
  SaveManager.importSave item storage = (false, storage)
  /\ forall d : SaveManager.SaveData,
       item = SaveManager.Json d -> SaveManager.timestamp d = 0%Z.
Proof.
  unfold SaveManager.importSave. destruct item as [d | n | |];
    [| intros _; split; [reflexivity | discriminate] ..].
  destruct (SaveManager.timestamp d =? 0)%Z eqn:Hstamp; [| discriminate].
  intros _. split; [reflexivity |]. intros d' [= <-]. by apply Z.eqb_eq.
Qed.



(** X23.  A save travels: the text [exportSave] hands out after [save]
    is accepted by [importSaveData] on any storage, and the game it is
    imported into becomes what restoring the save directly gives,
    unless the save was stamped with clock reading 0, in which case the
    import is refused and nothing changes.  A refused import never
    changes the storage or the game. *)
Theorem save_travels (now1 now2 : Z) (gs target : GameState)
    (storage other : gmap string SaveManager.Item) :
  let saved := (SaveManager.save now1 now2 gs storage).2 in
  (forall item : SaveManager.Item,
     (SaveManager.importSave item other).1 = false ->
     BakeryGame.importSaveData item other target = (false, other, target))
  /\ exists item : SaveManager.Item,
      SaveManager.exportSave saved = Some item
      /\ (now1 = 0%Z ->
          BakeryGame.importSaveData item other target = (false, other, target))
      /\ (now1 <> 0%Z ->
          exists other' : gmap string SaveManager.Item,
            BakeryGame.importSaveData item other target
            = (true, other',
               SaveManager.restoreState target (SaveManager.load saved))
            /\ SaveManager.load other' = SaveManager.load saved
            /\ SaveManager.exportSave other' = Some item).
Proof.
  cbn zeta. split.
  { intros item Hno. unfold BakeryGame.importSaveData.
    by rewrite (proj1 (importSave_rejects item other Hno)). }
  unfold SaveManager.save at 1. cbn [snd]. unfold SaveManager.exportSave at 1.
  rewrite save_slot_read. eexists. split; [reflexivity |].
  unfold BakeryGame.importSaveData. split.
  - intros ->. reflexivity.
  - intros Hstamp.
    match goal with
    | |- context [SaveManager.importSave (SaveManager.Json ?d) other] =>
        destruct (importSave_accepts d other Hstamp) as (marker & ->)
    end.
    eexists. split; [| split].
    + f_equal. f_equal. unfold SaveManager.load, SaveManager.save. cbn [snd].
      by rewrite !save_slot_read.
    + unfold SaveManager.load, SaveManager.save. cbn [snd].
      by rewrite !save_slot_read.
    + unfold SaveManager.exportSave. by rewrite save_slot_read.
Qed.

Lemma save_travels_witness :
  let gs := (hireAutoBaker (set_money 60 (fresh 0))).2 in
  exists (item : SaveManager.Item) (other' : gmap string SaveManager.Item),
    SaveManager.exportSave (SaveManager.save 1000 1001 gs ∅).2 = Some item
    /\ (BakeryGame.importSaveData item ∅ (fresh 5)).1 = (true, other')
    /\ autoBakers (BakeryGame.importSaveData item ∅ (fresh 5)).2 = 1%N.
Proof.
  intros gs.
  destruct (proj2 (save_travels 1000 1001 gs (fresh 5) ∅ ∅))
    as (item & Hexport & _ & Hok).
  assert (Hstamp : 1000%Z <> 0%Z) by discriminate.
  destruct (Hok Hstamp) as (other' & Hrun & _ & _).
  exists item, other'. split; [exact Hexport |]. rewrite Hrun.
  split; [reflexivity |]. cbn [snd]. vm_compute. reflexivity.
Defined.

(** ** Starting and resetting the game *)

(** X24.  [BakeryGame.initialize] ends with a recalculation of the
    income cache.  When [load] finds no state it starts a new game.
    With a saved state it restores it and, when the clock is past the
    save's [lastSaveTime], credits offline progress for the elapsed
    milliseconds divided by 1000 twice, that is for a thousandth of the
    seconds that have passed; when the clock is not past it, nothing is
    credited.  The quotients and the credit are those of double
    arithmetic. *)
Theorem initialize_resumes (now1 now2 : Z)
    (storage : gmap string SaveManager.Item) (gs : GameState) :
  let gs' := BakeryGame.initialize now1 now2 storage gs in
  recalculateMoneyPerSecond gs' = gs'
  /\ (SaveManager.load storage = None ->
      gs' = recalculateMoneyPerSecond (initialize now1 now2 gs))
  /\ (forall st : SaveManager.SavedState,
        SaveManager.load storage = Some st ->
        let restored := SaveManager.restoreState gs (Some st) in
        let seconds :=
          JsMath.div
            (JsMath.div (inject_Z (now1 - SaveManager.s_lastSaveTime st)) 1000)
            1000 in
        ((now1 <= SaveManager.s_lastSaveTime st)%Z ->
         gs' = recalculateMoneyPerSecond restored)
        /\ ((SaveManager.s_lastSaveTime st < now1)%Z ->
            gs' = recalculateMoneyPerSecond
                    (OfflineProgress.applyOfflineProgress restored seconds).2
            /\ money gs'
               = SaveManager.s_money st
                 + JsMath.floor
                     (JsMath.mul (incomeRate restored)
                        (JsMath.min seconds OfflineProgress.MAX_OFFLINE_TIME)))).
Proof.
  cbn zeta. split; [reflexivity |].
  split; [apply initialize_new_game |].
  intros st Hload. unfold BakeryGame.initialize. rewrite Hload.
  assert (Htime : SaveManager.getTimeSinceLastSave now1 storage
                  = JsMath.div
                      (inject_Z (now1 - SaveManager.s_lastSaveTime st)) 1000).
  { unfold SaveManager.load in Hload. unfold SaveManager.getTimeSinceLastSave.
    destruct (storage !! SaveManager.SAVE_KEY) as [[d | n | |] |];
      try discriminate.
    by injection Hload as <-. }
  rewrite Htime. split.
  - intros Hearly.
    match goal with
    | |- context [JsMath.gtb ?secs 0] =>
        assert (Hno : JsMath.gtb secs 0 = false)
    end.
    { destruct (JsMath.gtb _ 0) eqn:Hcmp; [| reflexivity].
      apply (proj1 (gtb_true _ _)) in Hcmp.
      apply (proj1 (elapsed_positive _)) in Hcmp. lia. }
    by rewrite Hno.
  - intros Hlate.
    assert (Hpos : 0 < JsMath.div
                         (JsMath.div
                            (inject_Z (now1 - SaveManager.s_lastSaveTime st)) 1000)
                         1000)
      by (apply elapsed_positive; lia).
    rewrite (proj2 (gtb_true _ _) Hpos). split; [reflexivity |].
    pose proof (offline_gain (SaveManager.restoreState gs (Some st)) _ Hpos)
      as Hgain.
    rewrite <- Hgain.
    unfold OfflineProgress.applyOfflineProgress.
    rewrite (proj2 (leb_false _ _) Hpos). reflexivity.
Qed.

Lemma initialize_resumes_witness :
  let saved := (hireAutoBaker (set_money 50 (fresh 0))).2 in
  let storage := (SaveManager.save 1000 1000 saved ∅).2 in
  let gs' := BakeryGame.initialize 5001000 5001000 storage (defaults 5001000) in
  money saved == 0 /\ money gs' == 25 /\ moneyPerSecond gs' == 5.
Proof.
  intros saved storage gs'.
  destruct (initialize_resumes 5001000 5001000 storage (defaults 5001000))
    as (_ & _ & Hsaved).
  assert (Hload : SaveManager.load storage
                  = Some (SaveManager.state
                            (match storage !! SaveManager.SAVE_KEY with
                             | Some (SaveManager.Json d) => d
                             | _ => SaveManager.mkSaveData 0 0
                                      (SaveManager.mkSavedState 0 0 0 0 None ∅ 0 0 0
                                         ∅ 0 0 0 0 0 ∅ 0 0 0 0)
                             end))).
  { unfold storage, SaveManager.save, SaveManager.load. cbn [snd].
    by rewrite save_slot_read. }
  destruct (Hsaved _ Hload) as [_ Hlate].
  assert (Hclock : (SaveManager.s_lastSaveTime
                      (SaveManager.state
                         (match storage !! SaveManager.SAVE_KEY with
                          | Some (SaveManager.Json d) => d
                          | _ => SaveManager.mkSaveData 0 0
                                   (SaveManager.mkSavedState 0 0 0 0 None ∅ 0 0 0
                                      ∅ 0 0 0 0 0 ∅ 0 0 0 0)
                          end)) < 5001000)%Z)
    by (vm_compute; reflexivity).
  destruct (Hlate Hclock) as [Hstate Hmoney].
  split; [vm_compute; reflexivity |].
  split; [fold gs' in Hmoney; rewrite Hmoney; vm_compute; reflexivity |].
  vm_compute. reflexivity.
Defined.



(** ** Recipe statistics *)

Lemma sum_productions_bounds (lo hi : Q) (l : list Recipe) :
  Forall (fun r => lo <= currentProduction r /\ currentProduction r <= hi) l ->
  forall acc : Q,
    acc + inject_Z (Z.of_nat (length l)) * lo
    <= fold_left (fun sum recipe => sum + currentProduction recipe) l acc
    /\ fold_left (fun sum recipe => sum + currentProduction recipe) l acc
       <= acc + inject_Z (Z.of_nat (length l)) * hi.
Proof.
  induction 1 as [|r l [Hlo Hhi] _ IH]; intros acc.
  - cbn [fold_left length]. change (inject_Z (Z.of_nat 0)) with 0. split; lra.
  - cbn [fold_left length]. destruct (IH (acc + currentProduction r)) as [L H].
    rewrite inject_nat_succ.
    set (n := inject_Z (Z.of_nat (length l))) in *.
    assert (Hn : 0 <= n).
    { unfold n. rewrite <- (Zle_Qle 0). lia. }
    generalize dependent (fold_left (fun sum recipe => sum + currentProduction recipe)
                            l (acc + currentProduction r)).
    intros total L H. split; nra.
Qed.

Lemma values_spec (gs : GameState) (r : Recipe) :
  In r (Recipes.values gs) <-> exists id : string, recipes gs !! id = Some r.
Proof.
  unfold Recipes.values. rewrite <- list_elem_of_In, list_elem_of_fmap. split.
  - intros ([id r'] & -> & Hin). exists id. by apply elem_of_map_to_list.
  - intros (id & Hr). exists (id, r). split; [reflexivity |].
    by apply elem_of_map_to_list.
Qed.

(** X26.  The recipe statistics are consistent: every recipe is counted
    either as unlocked or as locked, the unlocked list holds exactly the
    unlocked recipes of the state and the locked list the others, the
    average production is 0 when no recipe is unlocked and otherwise
    lies between any two bounds that hold for the production of every
    unlocked recipe. *)
Theorem recipe_stats_consistent (gs : GameState) :
  let stats := Recipes.getRecipeStats gs in
  (Recipes.unlockedCount stats + Recipes.lockedCount stats
   = Recipes.totalRecipes stats)%nat
  /\ (forall r : Recipe,
        In r (Recipes.getUnlockedRecipes gs)
        <-> (exists id : string, recipes gs !! id = Some r) /\ unlocked r = true)
  /\ (forall r : Recipe,
        In r (Recipes.getLockedRecipes gs)
        <-> (exists id : string, recipes gs !! id = Some r) /\ unlocked r = false)
  /\ (Recipes.unlockedCount stats = 0%nat -> Recipes.averageProduction stats = 0)
  /\ (forall lo hi : Q,
        (forall (id : string) (r : Recipe),
           recipes gs !! id = Some r -> unlocked r = true ->
           lo <= currentProduction r /\ currentProduction r <= hi) ->
        (0 < Recipes.unlockedCount stats)%nat ->
        lo <= Recipes.averageProduction stats
        /\ Recipes.averageProduction stats <= hi).
Proof.
  cbn zeta.
  assert (Hopen : forall r : Recipe,
             In r (Recipes.getUnlockedRecipes gs)
             <-> (exists id : string, recipes gs !! id = Some r)
                 /\ unlocked r = true).
  { intros r. unfold Recipes.getUnlockedRecipes.
    by rewrite filter_In, values_spec. }
  split; [| split; [exact Hopen | split; [| split]]].
  - unfold Recipes.getRecipeStats, Recipes.getUnlockedRecipes,
      Recipes.getLockedRecipes.
    cbn [Recipes.unlockedCount Recipes.lockedCount Recipes.totalRecipes].
    rewrite filter_length. unfold Recipes.values.
    by rewrite length_fmap, length_map_to_list.
  - intros r. unfold Recipes.getLockedRecipes.
    rewrite filter_In, values_spec, negb_true_iff. reflexivity.
  - unfold Recipes.getRecipeStats.
    cbn [Recipes.unlockedCount Recipes.averageProduction].
    by intros ->.
  - intros lo hi Hbounds. unfold Recipes.getRecipeStats.
    cbn [Recipes.unlockedCount Recipes.averageProduction].
    intros Hsome.
    rewrite (proj2 (Nat.ltb_lt _ _) Hsome).
    assert (Hall : Forall (fun r => lo <= currentProduction r
                                    /\ currentProduction r <= hi)
                     (Recipes.getUnlockedRecipes gs)).
    { apply List.Forall_forall. intros r Hin.
      apply Hopen in Hin as [[id Hr] Hu]. by apply (Hbounds id). }
    destruct (sum_productions_bounds lo hi _ Hall 0) as [L H].
    assert (Hn : 0 < inject_Z (Z.of_nat (length (Recipes.getUnlockedRecipes gs)))).
    { rewrite <- (Zlt_Qlt 0). lia. }
    split.
    + apply Qle_shift_div_l; [exact Hn |]. lra.
    + apply Qle_shift_div_r; [exact Hn |]. lra.
Qed.

Lemma recipe_stats_consistent_witness :
  let stats := Recipes.getRecipeStats (fresh 0) in
  (0 < Recipes.unlockedCount stats)%nat
  /\ Recipes.totalRecipes stats = 5%nat
  /\ 1 <= Recipes.averageProduction stats
  /\ Recipes.averageProduction stats <= 1.
Proof.
  intros stats.
  assert (Hsome : (0 < Recipes.unlockedCount stats)%nat)
    by (vm_compute; lia).
  split; [exact Hsome |]. split; [vm_compute; reflexivity |].
  apply (proj2 (proj2 (proj2 (proj2 (recipe_stats_consistent (fresh 0)))))).
  - intros id r Hr Hopen.
    assert (Hin : (id, r) ∈ map_to_list (recipes (fresh 0)))
      by by apply elem_of_map_to_list.
    vm_compute in Hin.
    repeat (apply elem_of_cons in Hin as [[= -> ->] | Hin];
            [try discriminate Hopen; split; apply Qle_refl |]).
    by apply elem_of_nil in Hin.
  - exact Hsome.
Defined.

(** ** Repeated baking and the profit per bake *)

Lemma bakeRecipe_unlocked (gs : GameState) (recipeId : string) (r : Recipe) :
  recipes gs !! recipeId = Some r -> unlocked r = true ->
  Recipes.bakeRecipe recipeId gs
  = (true,
     set_recipes
       (<[recipeId := set_totalProduction (totalProduction r + currentProduction r)
                        (set_bakeCount (bakeCount r + 1)%N r)]> (recipes gs))
       (set_totalBaked (totalBaked gs + 1)%Z
          (set_totalMoneyEarned (totalMoneyEarned gs + currentProduction r)
             (set_money (money gs + currentProduction r) gs)))).
Proof. intros Hr Hopen. unfold Recipes.bakeRecipe. by rewrite Hr, Hopen. Qed.

(** X27.  [n] calls of [Recipes.bakeRecipe] on an unlocked recipe add
    [n] to its bake count and to [totalBaked] and [n] times its
    production to its [totalProduction], to [money] and to
    [totalMoneyEarned]; nothing else about the recipe changes.  The
    profit per bake that [getRecipeProfitability] reports is 0 for a
    recipe never baked, and for a recipe baked only this way it is the
    recipe's production. *)
Theorem bakeRecipe_repeated (recipeId : string) (r : Recipe) (n : nat)
    (gs : GameState) :
  recipes gs !! recipeId = Some r ->
  unlocked r = true ->
  let gs' := bakeRecipeTimes n recipeId gs in
  let times := inject_Z (Z.of_nat n) in
  exists r' : Recipe,
    recipes gs' !! recipeId = Some r'
    /\ r' = set_totalProduction (totalProduction r')
              (set_bakeCount (bakeCount r + N.of_nat n)%N r)
    /\ totalProduction r' == totalProduction r + times * currentProduction r
    /\ money gs' == money gs + times * currentProduction r
    /\ totalMoneyEarned gs' == totalMoneyEarned gs + times * currentProduction r
    /\ totalBaked gs' = (totalBaked gs + Z.of_nat n)%Z
    /\ (bakeCount r = 0%N -> Recipes.getRecipeProfitability r = 0)
    /\ (bakeCount r = 0%N -> totalProduction r == 0 -> (0 < n)%nat ->
        Recipes.getRecipeProfitability r' == currentProduction r).
Proof.
  intros Hr Hopen. cbn zeta.
  assert (Hrun : exists r' : Recipe,
             recipes (bakeRecipeTimes n recipeId gs) !! recipeId = Some r'
             /\ r' = set_totalProduction (totalProduction r')
                       (set_bakeCount (bakeCount r + N.of_nat n)%N r)
             /\ totalProduction r'
                == totalProduction r + inject_Z (Z.of_nat n) * currentProduction r
             /\ money (bakeRecipeTimes n recipeId gs)
                == money gs + inject_Z (Z.of_nat n) * currentProduction r
             /\ totalMoneyEarned (bakeRecipeTimes n recipeId gs)
                == totalMoneyEarned gs + inject_Z (Z.of_nat n) * currentProduction r
             /\ totalBaked (bakeRecipeTimes n recipeId gs)
                = (totalBaked gs + Z.of_nat n)%Z).
  { induction n as [|n IH].
    - exists r. split; [exact Hr |]. split.
      + rewrite N.add_0_r. by destruct r.
      + cbn. split; [ring |]. split; [ring |]. split; [ring | lia].
    - destruct IH as (r1 & Hr1 & Hshape & Htp & Hmoney & Hearned & Hbaked).
      change (bakeRecipeTimes (S n) recipeId gs)
        with (Recipes.bakeRecipe recipeId (bakeRecipeTimes n recipeId gs)).2.
      assert (Hopen1 : unlocked r1 = true) by (rewrite Hshape; exact Hopen).
      assert (Hcp : currentProduction r1 = currentProduction r)
        by (by rewrite Hshape).
      assert (Hnext : forall tp : Q,
                 set_totalProduction tp (set_bakeCount (bakeCount r1 + 1)%N r1)
                 = set_totalProduction tp
                     (set_bakeCount (bakeCount r + N.of_nat (S n))%N r)).
      { clear -Hshape. intros tp. rewrite Hshape.
        unfold set_totalProduction, set_bakeCount. cbn. f_equal. lia. }
      rewrite (bakeRecipe_unlocked _ recipeId r1 Hr1 Hopen1). cbn [snd].
      eexists. split; [apply lookup_insert_eq |].
      split; [by rewrite Hnext |].
      rewrite inject_nat_succ. cbn. rewrite Hcp.
      split; [rewrite Htp; ring |]. split; [rewrite Hmoney; ring |].
      split; [rewrite Hearned; ring | lia]. }
  destruct Hrun as (r' & Hr' & Hshape & Htp & Hmoney & Hearned & Hbaked).
  exists r'. do 6 (split; [assumption |]).
  split.
  { intros Hnever. unfold Recipes.getRecipeProfitability. by rewrite Hnever. }
  intros Hnever Hzero Hn. unfold Recipes.getRecipeProfitability.
  assert (Hcount : bakeCount r' = N.of_nat n)
    by (rewrite Hshape, Hnever; cbn; lia).
  rewrite Hcount.
  destruct (N.of_nat n =? 0)%N eqn:Hz; [apply N.eqb_eq in Hz; lia |].
  rewrite Htp, Hzero. unfold JsMath.ofN. rewrite nat_N_Z.
  assert (Hpos : 0 < inject_Z (Z.of_nat n)) by (rewrite <- (Zlt_Qlt 0); lia).
  field. lra.
Qed.

Lemma bakeRecipe_repeated_witness :
  let gs := fresh 0 in
  exists r' : Recipe,
    recipes (bakeRecipeTimes 3 "cookie" gs) !! "cookie" = Some r'
    /\ bakeCount r' = 3%N
    /\ Recipes.getRecipeProfitability r' == 1
    /\ money (bakeRecipeTimes 3 "cookie" gs) == 13.
Proof.
  intros gs.
  destruct (bakeRecipe_repeated "cookie"
              (newRecipe "cookie" "Sugar Cookie" "🍪" 1 2 1 true 10) 3 gs
              ltac:(vm_compute; reflexivity) eq_refl)
    as (r' & Hr' & Hshape & _ & Hmoney & _ & _ & _ & Hprofit).
  exists r'. split; [exact Hr' |].
  split; [by rewrite Hshape |].
  split; [rewrite (Hprofit eq_refl ltac:(reflexivity) ltac:(lia)); reflexivity |].
  rewrite Hmoney. vm_compute. reflexivity.
Defined.

(** ** Estimates of the earnings to come *)

Lemma tickTimes_idle (gs : GameState) (n : nat) :
  moneyPerSecond gs <= 0 -> tickTimes n gs = gs.
Proof.
  intros Hidle. induction n as [|n IH]; [reflexivity |].
  change (tickTimes (S n) gs) with (OfflineProgress.tick (tickTimes n gs)).2.
  rewrite IH. by apply tick_idle.
Qed.

(** X28.  The estimates.  [estimateMoneyPerHour] is the cached rate
    times 3600, in double arithmetic, and is not negative when the rate
    is not.  [timeToEarnTarget] returns infinity exactly when the cached
    rate is not positive, and then no number of ticks changes anything;
    otherwise it returns the quotient, in double arithmetic, of the
    target and the rate, which is not negative for a target that is
    not.  [estimateItemsPerHour] is the number of items that
    [applyOfflineProgress] adds to [totalBaked] for one hour, as long
    as 18000 times the number of auto-bakers does not exceed [2^53]. *)
Theorem earning_estimates (gs : GameState) (targetMoney : Q) :
  OfflineProgress.estimateMoneyPerHour gs = JsMath.mul (moneyPerSecond gs) 3600
  /\ (0 <= moneyPerSecond gs -> 0 <= OfflineProgress.estimateMoneyPerHour gs)
  /\ ((Z.of_N (autoBakers gs) * 18000 <= 2 ^ 53)%Z ->
      OfflineProgress.estimateItemsPerHour gs
      == inject_Z (OfflineProgress.itemsBaked
                     (OfflineProgress.applyOfflineProgress gs 3600).1))
  /\ (OfflineProgress.timeToEarnTarget gs targetMoney = None
      <-> moneyPerSecond gs <= 0)
  /\ (moneyPerSecond gs <= 0 -> forall n : nat, tickTimes n gs = gs)
  /\ (forall t : Q,
        OfflineProgress.timeToEarnTarget gs targetMoney = Some t ->
        0 < moneyPerSecond gs
        /\ t = JsMath.div targetMoney (moneyPerSecond gs)
        /\ (0 <= targetMoney -> 0 <= t)).
Proof.
  split; [reflexivity |].
  split; [intros Hrate; apply mul_nonneg; [exact Hrate | discriminate] |].
  split; [| split; [| split]].
  - intros Hbound.
    unfold OfflineProgress.applyOfflineProgress,
      OfflineProgress.estimateItemsPerHour.
    change (JsMath.leb 3600 0) with false.
    cbn [fst OfflineProgress.itemsBaked OfflineProgress.autoBakerIncome
         OfflineProgress.calculateOfflineEarnings].
    rewrite itemsBaked_estimate.
    assert (Hn : (0 <= Z.of_N (autoBakers gs))%Z) by lia.
    assert (Hprod : JsMath.mul (JsMath.ofN (autoBakers gs) * 5) 3600
                    == inject_Z (Z.of_N (autoBakers gs) * 18000)).
    { apply double_whole; [| lia].
      unfold JsMath.ofN. rewrite inject_Z_mult. ring. }
    assert (Hquot : JsMath.div (JsMath.mul (JsMath.ofN (autoBakers gs) * 5) 3600) 5
                    == inject_Z (Z.of_N (autoBakers gs) * 3600)).
    { apply double_whole; [| lia].
      rewrite Hprod, !inject_Z_mult. field. }
    rewrite Hquot, Qfloor_Z, inject_Z_mult. unfold JsMath.ofN. field.
  - unfold OfflineProgress.timeToEarnTarget.
    destruct (JsMath.leb (moneyPerSecond gs) 0) eqn:Hcmp.
    + apply Qle_bool_iff in Hcmp. by split.
    + apply leb_false in Hcmp. split; [discriminate | lra].
  - intros Hidle n. by apply tickTimes_idle.
  - intros t. unfold OfflineProgress.timeToEarnTarget.
    destruct (JsMath.leb (moneyPerSecond gs) 0) eqn:Hcmp; [discriminate |].
    apply leb_false in Hcmp. intros [= <-].
    split; [exact Hcmp |]. split; [reflexivity |].
    intros Htarget. by apply div_nonneg.
Qed.

Lemma earning_estimates_witness :
  let gs := (hireAutoBaker (set_money 50 (fresh 0))).2 in
  (Z.of_N (autoBakers gs) * 18000 <= 2 ^ 53)%Z
  /\ OfflineProgress.estimateItemsPerHour gs == 3600
  /\ OfflineProgress.itemsBaked
       (OfflineProgress.applyOfflineProgress gs 3600).1 = 3600%Z
  /\ OfflineProgress.timeToEarnTarget gs 50
     = Some (JsMath.div 50 (moneyPerSecond gs))
  /\ 0 <= JsMath.div 50 (moneyPerSecond gs)
  /\ JsMath.div 50 (moneyPerSecond gs) == 10
  /\ OfflineProgress.estimateMoneyPerHour gs == 18000.
Proof.
  intros gs.
  assert (Hbound : (Z.of_N (autoBakers gs) * 18000 <= 2 ^ 53)%Z)
    by (vm_compute; discriminate).
  assert (Htime : OfflineProgress.timeToEarnTarget gs 50
                  = Some (JsMath.div 50 (moneyPerSecond gs)))
    by (vm_compute; reflexivity).
  destruct (earning_estimates gs 50) as (_ & _ & Hitems & _ & _ & Htarget).
  split; [exact Hbound |].
  split; [rewrite (Hitems Hbound); vm_compute; reflexivity |].
  split; [vm_compute; reflexivity |].
  split; [exact Htime |].
  split; [apply (proj2 (proj2 (Htarget _ Htime))); discriminate |].
  split; vm_compute; reflexivity.
Defined.

(** ** The ledger *)



(** ** Durations as text *)

(** X30.  [formatTime] reads back: for [h] hours, [m] minutes below 60
    and [s] seconds below 60 the text of the duration is the hours, the
    minutes and the seconds, each followed by its unit and separated by
    a blank, where a part that is zero is left out, except that a zero
    duration is shown as 0s.  A negative duration is shown as 0s too. *)
Theorem formatTime_reads_back (h m s : Z) :
  (0 <= h)%Z -> (0 <= m < 60)%Z -> (0 <= s < 60)%Z ->
  Formatter.formatTime (h * 3600 + m * 60 + s)
  = String.concat " "
      (shown h "h" ++ shown m "m"
       ++ (if (h =? 0)%Z && (m =? 0)%Z && (s =? 0)%Z
           then ["0s"] else shown s "s"))%list
  /\ forall seconds : Z, (seconds < 0)%Z -> Formatter.formatTime seconds = "0s".
Proof.
  intros Hh Hm Hs. split.
  - unfold Formatter.formatTime.
    assert (Hneg : (h * 3600 + m * 60 + s <? 0)%Z = false)
      by (apply Z.ltb_ge; lia).
    assert (Hhours : ((h * 3600 + m * 60 + s) / 3600 = h)%Z)
      by (symmetry; apply (Z.div_unique _ _ _ (m * 60 + s)); lia).
    assert (Hrest : ((h * 3600 + m * 60 + s) mod 3600 = m * 60 + s)%Z)
      by (symmetry; apply (Z.mod_unique _ _ h); lia).
    assert (Hminutes : ((m * 60 + s) / 60 = m)%Z)
      by (symmetry; apply (Z.div_unique _ _ _ s); lia).
    assert (Hsecs : ((h * 3600 + m * 60 + s) mod 60 = s)%Z)
      by (symmetry; apply (Z.mod_unique _ _ (h * 60 + m)); lia).
    rewrite Hneg, Hrest, Hhours, Hminutes, Hsecs. unfold shown.
    destruct (0 <? h)%Z eqn:Hh0, (0 <? m)%Z eqn:Hm0, (0 <? s)%Z eqn:Hs0;
      cbn [app length Nat.eqb orb];
      repeat match goal with
             | H : (0 <? ?x)%Z = true |- _ =>
                 apply Z.ltb_lt in H;
                 assert ((x =? 0)%Z = false) as -> by (apply Z.eqb_neq; lia)
             | H : (0 <? ?x)%Z = false |- _ =>
                 apply Z.ltb_ge in H; assert (x = 0%Z) as -> by lia
             end;
      cbn [Z.eqb andb app]; rewrite ?andb_false_r; reflexivity.
  - intros seconds Hneg. unfold Formatter.formatTime.
    by rewrite (proj2 (Z.ltb_lt _ _) Hneg).
Qed.

Lemma formatTime_reads_back_witness :
  Formatter.formatTime 3661 = "1h 1m 1s" /\ Formatter.formatTime 7200 = "2h".
Proof.
  split.
  - change 3661%Z with (1 * 3600 + 1 * 60 + 1)%Z.
    rewrite (proj1 (formatTime_reads_back 1 1 1 ltac:(lia) ltac:(lia) ltac:(lia))).
    vm_compute. reflexivity.
  - change 7200%Z with (2 * 3600 + 0 * 60 + 0)%Z.
    rewrite (proj1 (formatTime_reads_back 2 0 0 ltac:(lia) ltac:(lia) ltac:(lia))).
    vm_compute. reflexivity.
Defined.
